(** * Orlando Experience RAG: chunking, grounding, validation, extraction
      and layer retrieval

    Shallow embedding of the Python sources

      - 04_build_auxiliary_layers.py / 06_rebuild_core_factual_index.py
        ([simple_token_split], [embed_and_save_layer])
      - 08_rebuild_core_from_atomic.py ([rebuild_atomic_core])
      - src/validate/grounding_check.py ([_tokenize], [check_grounding])
      - 10_validate_atomic_core.py ([validate_chunk])
      - 07_parse_core_atomic.py ([extract_atomic_facts])
      - 05_test_layers.py ([load_index_and_metadata], [retrieve])
      - 11_answer_with_llm.py ([retrieve])

    Conventions.  A Python [str] is a Rocq [string] whose characters are
    read as code points below 256 (Latin-1); the character classes of
    [str.split], [str.strip], [\s], [\w], [\d] and [str.lower] are written
    out for that range.  Python integers are [Z].  A raised exception is a
    value of [result].  Dictionaries are [gmap], Python sets are [gset]. *)

From Stdlib Require Import Ascii String QArith Qround.
From stdpp Require Import gmap strings list pretty.

Set Warnings "-register-all".

Local Open Scope string_scope.
Local Open Scope list_scope.
Local Open Scope Z_scope.

(** ** Exceptions *)

Inductive exn : Type :=
  | ValueError (msg : string)
  | KeyError (key : string)
  | AttributeError
  | TypeError
  | IndexError
  | ZeroDivisionError
  | FileNotFoundError (path : string)
  | JSONDecodeError
  | AssertionError
  | RuntimeError (msg : string).

Inductive result (A : Type) : Type :=
  | Ok (a : A)
  | Raise (e : exn).
Arguments Ok {A} a.
Arguments Raise {A} e.

Definition bind {A B} (r : result A) (k : A -> result B) : result B :=
  match r with
  | Ok a => k a
  | Raise e => Raise e
  end.

Notation "x <- r ;; k" := (bind r (fun x => k))
  (at level 100, r at next level, right associativity).

(** ** Python string and list primitives *)

Module Py.

Definition code (c : ascii) : N := N_of_ascii c.

(** [str.isspace] on one character, also the class [\s] of [re] on
    [str] patterns: TAB..CR, FS..US, SPACE, NEL, NBSP. *)
Definition isspace (c : ascii) : bool :=
  let n := code c in
  ((9 <=? n) && (n <=? 13) || (28 <=? n) && (n <=? 32)
   || (n =? 133) || (n =? 160))%N.

(** The class [\d] of [re] on [str] patterns: decimal digits. *)
Definition isdecimal (c : ascii) : bool :=
  let n := code c in ((48 <=? n) && (n <=? 57))%N.

(** The class [\w]: what [str.isalnum] accepts, and the underscore. *)
Definition isword (c : ascii) : bool :=
  let n := code c in
  ((48 <=? n) && (n <=? 57) || (65 <=? n) && (n <=? 90) || (n =? 95)
   || (97 <=? n) && (n <=? 122)
   || (n =? 170) || (n =? 178) || (n =? 179) || (n =? 181)
   || (n =? 185) || (n =? 186) || (188 <=? n) && (n <=? 190)
   || (192 <=? n) && (n <=? 214) || (216 <=? n) && (n <=? 246)
   || (248 <=? n))%N.

(** [str.lower] on one character. *)
Definition lower_char (c : ascii) : ascii :=
  let n := code c in
  if ((65 <=? n) && (n <=? 90)
      || (192 <=? n) && (n <=? 222) && negb (n =? 215))%N
  then ascii_of_N (n + 32) else c.

Fixpoint lower (s : string) : string :=
  match s with
  | "" => ""
  | String c s' => String (lower_char c) (lower s')
  end.

Definition len (s : string) : Z := Z.of_nat (String.length s).

(** [s[n:]] and [s[:n]] for a natural number [n]. *)
Fixpoint sdrop (n : nat) (s : string) : string :=
  match n, s with
  | O, _ => s
  | S n', String _ s' => sdrop n' s'
  | S _, "" => ""
  end.

Fixpoint stake (n : nat) (s : string) : string :=
  match n, s with
  | O, _ => ""
  | S n', String c s' => String c (stake n' s')
  | S _, "" => ""
  end.

(** [s.startswith(p)] *)
Fixpoint startswith (p s : string) : bool :=
  match p, s with
  | "", _ => true
  | String a p', String b s' => if decide (a = b) then startswith p' s' else false
  | String _ _, "" => false
  end.

(** [sub in s] *)
Fixpoint contains (sub s : string) : bool :=
  startswith sub s ||
  match s with
  | "" => false
  | String _ s' => contains sub s'
  end.

(** [s.lstrip()], [s.rstrip()], [s.strip()] *)
Fixpoint lstrip (s : string) : string :=
  match s with
  | "" => ""
  | String c s' => if isspace c then lstrip s' else s
  end.

Fixpoint rstrip (s : string) : string :=
  match s with
  | "" => ""
  | String c s' =>
      match rstrip s' with
      | "" => if isspace c then "" else String c ""
      | r => String c r
      end
  end.

Definition strip (s : string) : string := rstrip (lstrip s).

(** [s.split()]: maximal runs of non-whitespace characters.  [cur] is
    the word being read. *)
Definition flush (cur : string) : list string :=
  match cur with "" => [] | _ => [cur] end.

Fixpoint split_go (cur : string) (s : string) : list string :=
  match s with
  | "" => flush cur
  | String c s' =>
      if isspace c then flush cur ++ split_go "" s'
      else split_go (cur +:+ String c "") s'
  end.

Definition split (s : string) : list string := split_go "" s.

(** [sep.join(ws)] *)
Fixpoint join (sep : string) (ws : list string) : string :=
  match ws with
  | [] => ""
  | [w] => w
  | w :: ws' => w +:+ sep +:+ join sep ws'
  end.

(** [s.count(c)] for a one-character needle. *)
Fixpoint count_char (c : ascii) (s : string) : Z :=
  match s with
  | "" => 0
  | String a s' => (if decide (a = c) then 1 else 0) + count_char c s'
  end.

(** [s.replace(old, "")] for a non-empty [old]: occurrences are removed
    left to right, without overlap.  The recursion is on [s]; [skip]
    counts the characters of an occurrence still to be dropped. *)
Fixpoint remove_go (old : string) (skip : nat) (s : string) : string :=
  match s with
  | "" => ""
  | String c s' =>
      match skip with
      | S k => remove_go old k s'
      | O =>
          if startswith old s
          then remove_go old (String.length old - 1) s'
          else String c (remove_go old O s')
      end
  end.

Definition remove_all (old s : string) : string := remove_go old O s.

(** Index normalisation of a slice bound, as [PySlice_AdjustIndices]
    does for a positive step. *)
Definition clamp (n i : Z) : Z :=
  if i <? 0 then Z.max 0 (i + n) else Z.min i n.

(** [l[a:b]] *)
Definition slice {A} (l : list A) (a b : Z) : list A :=
  let n := Z.of_nat (length l) in
  let a' := clamp n a in
  let b' := clamp n b in
  take (Z.to_nat (b' - a')) (drop (Z.to_nat a') l).

(** [range(0, stop, step)]; a zero step raises [ValueError]. *)
Definition range0 (stop step : Z) : result (list Z) :=
  if step =? 0 then Raise (ValueError "range() arg 3 must not be zero")
  else
    let n :=
      if 0 <? step then (if 0 <? stop then (stop + step - 1) / step else 0)
      else (if stop <? 0 then (- stop - step - 1) / (- step) else 0) in
    Ok (map (fun k => Z.of_nat k * step) (seq 0 (Z.to_nat n))).

(** A word: what [str.split] can return. *)
Fixpoint nospace (s : string) : bool :=
  match s with
  | "" => true
  | String c s' => negb (isspace c) && nospace s'
  end.

Definition is_word (w : string) : Prop := w <> "" /\ nospace w = true.

End Py.

(** ** The chunker (04_build_auxiliary_layers.py, lines 31-40;
       06_rebuild_core_factual_index.py, lines 25-34: the same text) *)

Module Chunker.

Definition simple_token_split (text : string) (chunk_size overlap : Z)
  : result (list string) :=
  let words := Py.split text in
  if Z.of_nat (length words) <=? chunk_size then Ok [text]
  else
    let step := chunk_size - overlap in
    starts <- Py.range0 (Z.of_nat (length words)) step ;;
    Ok (map (fun i => Py.join " " (Py.slice words i (i + chunk_size)))
            starts).

(** The defaults of the signature. *)
Definition default_chunk_size : Z := 512.
Definition default_overlap : Z := 50.

(** The words of the window that starts at [k * step]. *)
Definition window (words : list string) (chunk_size overlap : Z) (k : nat)
  : list string :=
  take (Z.to_nat chunk_size)
       (drop (Z.to_nat (Z.of_nat k * (chunk_size - overlap))) words).

End Chunker.

(** ** The grounding verifier (src/validate/grounding_check.py) *)

Module Grounding.

Definition is_sep (c : ascii) : bool :=
  bool_decide (c = ":"%char) || bool_decide (c = "h"%char).

(** The pattern [\d{1,2}[:h]\d{2}] at the head of [s], with two digits
    before the separator, then (after backtracking) with one. *)
Definition time2 (s : string) : bool :=
  match s with
  | String d1 (String d2 (String p (String a (String b _)))) =>
      Py.isdecimal d1 && Py.isdecimal d2 && is_sep p
      && Py.isdecimal a && Py.isdecimal b
  | _ => false
  end.

Definition time1 (s : string) : bool :=
  match s with
  | String d1 (String p (String a (String b _))) =>
      Py.isdecimal d1 && is_sep p && Py.isdecimal a && Py.isdecimal b
  | _ => false
  end.

Definition time_at (s : string) : option nat :=
  if time2 s then Some 5%nat
  else if time1 s then Some 4%nat
  else None.

(** [re.findall(r'\d{1,2}[:h]\d{2}', s)]: the matches from left to
    right, the scan resuming after each match.  [skip] counts the
    characters of the current match still to be passed. *)
Fixpoint findall_go (skip : nat) (s : string) : list string :=
  match s with
  | "" => []
  | String _ s' =>
      match skip with
      | S k => findall_go k s'
      | O =>
          match time_at s with
          | Some n => Py.stake n s :: findall_go (n - 1) s'
          | None => findall_go O s'
          end
      end
  end.

Definition findall_times (s : string) : list string := findall_go O s.

(** [time_str.replace('h', ':')] *)
Fixpoint h_to_colon (s : string) : string :=
  match s with
  | "" => ""
  | String c s' =>
      String (if bool_decide (c = "h"%char) then ":"%char else c)
             (h_to_colon s')
  end.

(** One turn of the loop over [time_matches]: the state is the token
    set and the text from which matches are being deleted. *)
Definition time_step (st : gset string * string) (time_str : string)
  : gset string * string :=
  let '(tokens, lower_text) := st in
  let normalized := h_to_colon time_str in
  ({[ "time_" +:+ normalized ]} ∪ tokens,
   Py.remove_all time_str lower_text).

(** [re.sub(r'[^\w\s]', '', s)] *)
Fixpoint strip_punct (s : string) : string :=
  match s with
  | "" => ""
  | String c s' =>
      if Py.isword c || Py.isspace c then String c (strip_punct s')
      else strip_punct s'
  end.

(** The text left after the loop, and the plain tokens read from it. *)
Definition residual (text : string) : string :=
  let lower_text := Py.lower text in
  snd (fold_left time_step (findall_times lower_text) (∅, lower_text)).

Definition time_tokens (text : string) : gset string :=
  let lower_text := Py.lower text in
  fst (fold_left time_step (findall_times lower_text) (∅, lower_text)).

Definition _tokenize (text : string) : gset string :=
  let lower_text := Py.lower text in
  let time_matches := findall_times lower_text in
  let '(tokens, lower_text) :=
    fold_left time_step time_matches (∅, lower_text) in
  let clean_text := strip_punct lower_text in
  let generic_tokens : gset string :=
    list_to_set (filter (fun t => t ≠ "") (Py.split clean_text)) in
  tokens ∪ generic_tokens.

(** The reading of the specification, to compare [residual] with:
    the text with every matched span deleted, which is
    [re.sub(r'\d{1,2}[:h]\d{2}', '', s)]. *)
Fixpoint delete_times_go (skip : nat) (s : string) : string :=
  match s with
  | "" => ""
  | String c s' =>
      match skip with
      | S k => delete_times_go k s'
      | O =>
          match time_at s with
          | Some n => delete_times_go (n - 1) s'
          | None => String c (delete_times_go O s')
          end
      end
  end.

Definition residual_spec (text : string) : string :=
  delete_times_go O (Py.lower text).

(** The plain word tokens read from a residual text. *)
Definition plain_tokens (residual_text : string) : gset string :=
  list_to_set (filter (fun t => t ≠ "")
                      (Py.split (strip_punct residual_text))).

(** The integer nearest to [x], a tie going to the even one. *)
Definition round_half_even (x : Q) : Z :=
  let f := Qfloor x in
  match (x - inject_Z f ?= 1 # 2)%Q with
  | Lt => f
  | Gt => f + 1
  | Eq => if Z.even f then f else f + 1
  end.

(** A Python [float] is held as the rational it is worth.

    [floor(log2 x)] for a positive [x]. *)
Definition ilog2 (x : Q) : Z :=
  let n := Qnum x in
  let d := Zpos (Qden x) in
  let k := Z.log2 n - Z.log2 d in
  if n * 2 ^ Z.max 0 (- k) <? d * 2 ^ Z.max 0 k then k - 1 else k.

(** [x * 2^e] *)
Definition scale2 (x : Q) (e : Z) : Q :=
  if 0 <=? e then (x * inject_Z (2 ^ e))%Q
  else (x / inject_Z (2 ^ (- e)))%Q.

(** The float nearest to a positive [x]: the significand of 53 bits is
    [x * 2^e] rounded, a tie going to the even one, for the [e] that
    brings [x] into [2^52, 2^53). *)
Definition nearest_float (x : Q) : Q :=
  let e := 52 - ilog2 x in
  scale2 (inject_Z (round_half_even (scale2 x e))) (- e).

(** The float (IEEE 754 binary64) nearest to [x].  Below 2^-1022 and
    from 2^1024 on, where a float is subnormal or infinite, this
    reading does not apply; the quotient of two set sizes is 0 or far
    inside. *)
Definition to_double (x : Q) : Q :=
  if Qnum x =? 0 then 0%Q
  else if Qnum x <? 0 then (- nearest_float (- x))%Q
  else nearest_float x.

(** [a / b] on integers: the float nearest to the quotient. *)
Definition truediv (a b : Z) : result Q :=
  if b =? 0 then Raise ZeroDivisionError
  else Ok (to_double (inject_Z a / inject_Z b)).

(** The multiple of 1/10000 nearest to [x], a tie going to the even
    one. *)
Definition decimal4 (x : Q) : Q := round_half_even (x * 10000) # 10000.

(** [round(x, 4)] on a float: the decimal of four places nearest to
    what the float is worth, and of it the nearest float again, in
    lowest terms. *)
Definition round4 (x : Q) : Q := Qred (to_double (decimal4 x)).

Definition check_grounding (query : string) (context_list : list string)
    (response : string) : result Q :=
  if bool_decide (context_list = []) || bool_decide (response = "")
  then Ok 0%Q
  else
    let combined_context := Py.join " " context_list in
    let context_tokens := _tokenize combined_context in
    let response_tokens := _tokenize response in
    let intersection := context_tokens ∩ response_tokens in
    let union := context_tokens ∪ response_tokens in
    if bool_decide (size union = 0%nat) then Ok 0%Q
    else
      jaccard_score <- truediv (Z.of_nat (size intersection))
                               (Z.of_nat (size union)) ;;
      Ok (round4 jaccard_score).

End Grounding.

(** ** JSON values, as [json.loads] returns them *)

Inductive json : Type :=
  | JNull
  | JBool (b : bool)
  | JInt (z : Z)
  | JFloat (q : Q)
  | JStr (s : string)
  | JArr (l : list json)
  | JObj (o : gmap string json).

(** A [dict] read from one line of a .jsonl file. *)
Abbreviation pydict := (gmap string json).

(** [d[key]] *)
Definition getitem (d : pydict) (key : string) : result json :=
  match d !! key with
  | Some v => Ok v
  | None => Raise (KeyError key)
  end.

(** ** The validator (10_validate_atomic_core.py) *)

Module Validator.

(** The members of the set [REQUIRED_FIELDS], in the order the source
    writes them.  The loop [for field in REQUIRED_FIELDS] visits them in
    the set's own order, which the source does not fix: [validate_chunk]
    below takes that order as its first argument. *)
Definition REQUIRED_FIELDS : list string :=
  ["entity"; "attribute"; "value"; "source_document"; "year_or_season";
   "text"].

Definition missing_fields (order : list string) (chunk : pydict)
  : list string :=
  omap (fun field =>
          match chunk !! field with
          | None => Some ("Missing field: " +:+ field)
          | Some _ => None
          end) order.

(** [not isinstance(chunk.get(f), str) or not chunk[f].strip()] *)
Definition not_nonempty_str (chunk : pydict) (field : string) : bool :=
  match chunk !! field with
  | Some (JStr s) => bool_decide (Py.strip s = "")
  | _ => true
  end.

Definition check_str (chunk : pydict) (field msg : string) : list string :=
  if not_nonempty_str chunk field then [msg] else [].

(** [chunk["text"].strip()]: a missing key and a value without a
    [strip] method both raise. *)
Definition text_stripped (chunk : pydict) : result string :=
  v <- getitem chunk "text" ;;
  match v with
  | JStr s => Ok (Py.strip s)
  | _ => Raise AttributeError
  end.

Definition newline : string := String (ascii_of_N 10) "".

Definition not_single_sentence (text : string) : bool :=
  (1 <? Py.count_char "."%char text)
  || Py.contains newline text
  || (40 <? Z.of_nat (length (Py.split text))).

Definition sentence_msg : string :=
  "Text should be a single factual sentence (not a paragraph or list)".

Definition tag (idx : Z) (err : string) : string :=
  "[Chunk " +:+ pretty idx +:+ "] " +:+ err.

Definition validate_chunk (order : list string) (chunk : pydict) (idx : Z)
  : result (list string) :=
  let errors :=
    missing_fields order chunk
    ++ check_str chunk "entity" "Entity must be a non-empty string"
    ++ check_str chunk "attribute" "Attribute must be a non-empty string"
    ++ check_str chunk "value" "Value must be a non-empty string"
    ++ check_str chunk "text" "Text must be a non-empty string" in
  text <- text_stripped chunk ;;
  let errors :=
    errors ++ (if not_single_sentence text then [sentence_msg] else []) in
  Ok (map (tag idx) errors).

End Validator.

(** ** The atomic fact extractor (07_parse_core_atomic.py) *)

Module Extractor.

Record fact : Type := Fact {
  entity : string;
  attribute : string;
  value : string;
  source_document : string;
  year_or_season : string;
  text : string
}.

(** [re.sub(r"\s+", " ", s)]: [in_ws] tells that the previous character
    was white space, already replaced. *)
Fixpoint collapse (in_ws : bool) (s : string) : string :=
  match s with
  | "" => ""
  | String c s' =>
      if Py.isspace c
      then (if in_ws then collapse true s'
            else String " "%char (collapse true s'))
      else String c (collapse false s')
  end.

Definition normalize (text : string) : string :=
  collapse false (Py.strip text).

(** The group [([^,]+)]: the longest run without a comma. *)
Fixpoint until_comma (s : string) : string :=
  match s with
  | "" => ""
  | String c s' =>
      if bool_decide (c = ","%char) then "" else String c (until_comma s')
  end.

(** A rule's pattern is a literal followed by the group [([^,]+)].
    [match_at lit s] is the group when the pattern matches at the head
    of [s]. *)
Definition match_at (lit s : string) : option string :=
  if Py.startswith lit s then
    match until_comma (Py.sdrop (String.length lit) s) with
    | "" => None
    | g => Some g
    end
  else None.

(** [re.search(pattern, s)] followed by [match.group(1)]: the leftmost
    match. *)
Fixpoint search (lit s : string) : option string :=
  match match_at lit s with
  | Some g => Some g
  | None =>
      match s with
      | "" => None
      | String _ s' => search lit s'
      end
  end.

(** [park_rules]: the entity and the literal part of its pattern. *)
Definition park_rules : list (string * string) :=
  [ ("Magic Kingdom", "Magic Kingdom: ");
    ("EPCOT", "EPCOT: ");
    ("Hollywood Studios", "Hollywood Studios: ");
    ("Animal Kingdom", "Animal Kingdom: ");
    ("Typhoon Lagoon", "Typhoon Lagoon: ");
    ("Blizzard Beach", "Blizzard Beach: ");
    ("Universal Studios Florida", "Universal Studios Florida: ");
    ("Islands of Adventure", "Islands of Adventure: ");
    ("Universal Volcano Bay", "Universal Volcano Bay: ");
    ("SeaWorld Orlando", "SeaWorld Orlando: ");
    ("Aquatica Orlando", "Aquatica Orlando: ");
    ("Busch Gardens Tampa", "Busch Gardens Tampa: ");
    ("LEGOLAND Florida", "LEGOLAND Florida (Winter Haven): ");
    ("Peppa Pig Theme Park", "Peppa Pig Theme Park: ") ].

Definition season : string := "December 2025".

Definition hours_fact (source_doc park hours : string) : fact :=
  {| entity := park;
     attribute := "operating_hours";
     value := hours;
     source_document := source_doc;
     year_or_season := season;
     text := park +:+ " operating hours during " +:+ season +:+ ": "
             +:+ hours +:+ "." |}.

Definition rule_facts (source_doc text : string) : list fact :=
  omap (fun '(park, lit) =>
          match search lit text with
          | Some g => Some (hours_fact source_doc park (Py.strip g))
          | None => None
          end) park_rules.

Definition early_entry_fact (source_doc : string) : fact :=
  {| entity := "Walt Disney World Resort";
     attribute := "early_entry_rule";
     value := "30 minutes before official opening for Disney hotel guests";
     source_document := source_doc;
     year_or_season := season;
     text := "Walt Disney World Resort offers Early Entry (30 minutes before official opening) for hotel guests during December 2025." |}.

Definition early_admission_fact (source_doc : string) : fact :=
  {| entity := "Universal Orlando Resort";
     attribute := "early_admission_rule";
     value := "1 hour before official opening for hotel guests";
     source_document := source_doc;
     year_or_season := season;
     text := "Universal Orlando Resort offers Early Park Admission (1 hour before official opening) for hotel guests during December 2025." |}.

Definition location_fact (source_doc park : string) : fact :=
  {| entity := park;
     attribute := "location";
     value := "Winter Haven, Florida";
     source_document := source_doc;
     year_or_season := season;
     text := park +:+ " is located in Winter Haven, Florida." |}.

Definition is_end_punct (c : ascii) : bool :=
  bool_decide (c = "."%char) || bool_decide (c = "!"%char)
  || bool_decide (c = "?"%char).

(** [re.split(r"(?<=[.!?])\s+", s)]: a separator is a maximal run of
    white space that starts right after one of [.!?].  [prev] tells that
    the previous character was such a mark, [in_sep] that a separator
    is being read, [cur] is the piece being read. *)
Fixpoint split_sentences_go (prev in_sep : bool) (cur s : string)
  : list string :=
  match s with
  | "" => [cur]
  | String c s' =>
      if Py.isspace c then
        if in_sep then split_sentences_go false true "" s'
        else if prev then cur :: split_sentences_go false true "" s'
        else split_sentences_go false false (cur +:+ String c "") s'
      else split_sentences_go (is_end_punct c) false (cur +:+ String c "") s'
  end.

Definition split_sentences (s : string) : list string :=
  split_sentences_go false false "" s.

(** [[s.strip() for s in re.split(...) if s.strip()]] *)
Definition sentences (text : string) : list string :=
  filter (fun s => s ≠ "") (map Py.strip (split_sentences text)).

Definition keywords : list string :=
  ["open"; "close"; "hour"; "time"; "located"; "entry"].

Definition has_keyword (sent : string) : bool :=
  existsb (fun kw => Py.contains kw (Py.lower sent)) keywords.

(** [20 < len(sent) < 120 and any(...)] *)
Definition keep (sent : string) : bool :=
  (20 <? Py.len sent) && (Py.len sent <? 120) && has_keyword sent.

Definition generic_fact (source_doc sent : string) : fact :=
  {| entity := "unknown";
     attribute := "generic_factual";
     value := sent;
     source_document := source_doc;
     year_or_season := "unknown";
     text := sent |}.

Definition is_hours_doc (source_doc : string) : bool :=
  Py.contains "Orlando_Park_Hours_Dez2025" source_doc.

Definition extract_atomic_facts (text source_doc : string) : list fact :=
  let text := normalize text in
  if is_hours_doc source_doc then
    rule_facts source_doc text
    ++ (if Py.contains "Early Entry" text
        then [early_entry_fact source_doc] else [])
    ++ (if Py.contains "Early Park Admission" text
        then [early_admission_fact source_doc] else [])
    ++ (if Py.contains "Winter Haven" text
        then [location_fact source_doc "LEGOLAND Florida";
              location_fact source_doc "Peppa Pig Theme Park"]
        else [])
  else
    map (generic_fact source_doc)
        (filter (fun sent => keep sent = true) (sentences text)).

End Extractor.

(** [v[key]] on a value that need not be a [dict]. *)
Definition subscript (v : json) (key : string) : result json :=
  match v with
  | JObj o => getitem o key
  | _ => Raise TypeError
  end.

(** [v.get(key, default)] *)
Definition dict_get (v : json) (key : string) (dflt : json) : result json :=
  match v with
  | JObj o => Ok (default dflt (o !! key))
  | _ => Raise AttributeError
  end.

(** [mapM] for [result]: the first exception ends the loop. *)
Fixpoint traverse {A B} (f : A -> result B) (l : list A) : result (list B) :=
  match l with
  | [] => Ok []
  | a :: l' => b <- f a ;; bs <- traverse f l' ;; Ok (b :: bs)
  end.

(** ** The vector index

    [faiss.IndexFlatL2] is a library outside the repository.  An index is
    the list of the vectors added to it; [ntotal] is its length. *)

Module Faiss.
Section Index.
Context {vec D : Type}.
(** The metric and its order: squared Euclidean distance on
    [float32] vectors in the library, kept abstract here. *)
Variable dist : vec -> vec -> D.
Variable le : D -> D -> bool.

Definition ntotal (index : list vec) : Z := Z.of_nat (length index).

(** Modelled from the spec: the order of the results of the library's
    search, ascending distance with ties in index order (sections 3 and
    4.2), as an insertion sort. *)
Fixpoint insert_hit (x : D * Z) (l : list (D * Z)) : list (D * Z) :=
  match l with
  | [] => [x]
  | y :: l' => if le x.1 y.1 then x :: y :: l' else y :: insert_hit x l'
  end.

Definition sort_hits (l : list (D * Z)) : list (D * Z) :=
  foldr insert_hit [] l.

(** Modelled from the spec: every vector of the index with its distance
    to the query and its position, nearest first. *)
Definition hits (index : list vec) (q : vec) : list (D * Z) :=
  sort_hits (imap (fun i v => (dist q v, Z.of_nat i)) index).

(** Modelled from the spec: [index.search(query, k)] of the library
    faiss, which is not under src/.  Section 4.2: exhaustive search,
    at most [k] results in ascending distance, ties in index order,
    padded to [k] entries with the id -1 when the index holds fewer
    than [k] vectors.  The library rejects [k <= 0]. *)
Definition search (index : list vec) (q : vec) (k : Z)
  : result (list (option D * Z)) :=
  if k <=? 0 then Raise AssertionError
  else
    let top := take (Z.to_nat k) (hits index q) in
    Ok (map (fun '(d, i) => (Some d, i)) top
        ++ replicate (Z.to_nat k - length top)%nat (None, -1)).
End Index.
End Faiss.

(** ** Files, layer builds and layer retrieval *)

Module Layers.
Section Store.
Context {vec D : Type}.
(** [SentenceTransformer.encode] on one text; a batch is encoded text
    by text. *)
Variable embed : string -> vec.
Variable dist : vec -> vec -> D.
Variable le : D -> D -> bool.

(** The files the scripts touch.  A .jsonl file is the list of its
    lines, each held as what [json.loads] makes of it ([None]: the
    line is not JSON); [json.dumps] followed by [json.loads] gives
    the value back.  An index file holds the vectors of the index. *)
Record disk : Type := Disk {
  jsonl_files : gmap string (list (option json));
  index_files : gmap string (list vec);
  npy_files : gmap string (list vec)
}.

Definition write_jsonl (path : string) (items : list json) (d : disk)
  : disk :=
  {| jsonl_files := <[path := map Some items]> (jsonl_files d);
     index_files := index_files d;
     npy_files := npy_files d |}.

Definition write_index (path : string) (vs : list vec) (d : disk) : disk :=
  {| jsonl_files := jsonl_files d;
     index_files := <[path := vs]> (index_files d);
     npy_files := npy_files d |}.

Definition np_save (path : string) (vs : list vec) (d : disk) : disk :=
  {| jsonl_files := jsonl_files d;
     index_files := index_files d;
     npy_files := <[path := vs]> (npy_files d) |}.

(** [open(path)] and [f.readlines()] *)
Definition read_lines (d : disk) (path : string)
  : result (list (option json)) :=
  match jsonl_files d !! path with
  | Some ls => Ok ls
  | None => Raise (FileNotFoundError path)
  end.

(** [json.loads(line)] *)
Definition json_loads (line : option json) : result json :=
  match line with
  | Some v => Ok v
  | None => Raise JSONDecodeError
  end.

(** [for line in f: out.append(json.loads(line))] *)
Definition read_jsonl (d : disk) (path : string) : result (list json) :=
  ls <- read_lines d path ;; traverse json_loads ls.

(** [faiss.read_index(path)] *)
Definition read_index (d : disk) (path : string) : result (list vec) :=
  match index_files d !! path with
  | Some vs => Ok vs
  | None => Raise (RuntimeError path)
  end.

(** [model.encode(texts)]: every item has to be a [str]. *)
Definition as_str (v : json) : result string :=
  match v with
  | JStr s => Ok s
  | _ => Raise TypeError
  end.

Definition encode (texts : list string) : list vec := map embed texts.

(** [embeddings.shape[1]]: an empty batch has no second axis. *)
Definition shape1 (vs : list vec) : result unit :=
  match vs with
  | [] => Raise IndexError
  | _ => Ok tt
  end.

(** *** 08_rebuild_core_from_atomic.py *)

Definition ATOMIC_PATH : string := "data/core_atomic/core_atomic_facts.jsonl".
Definition CORE_META : string := "data/embeddings/metadata.jsonl".
Definition CORE_NPY : string := "data/embeddings/embeddings.npy".
Definition CORE_INDEX : string := "data/index/faiss.index".

Definition load_atomic_facts (d : disk) : result (list json) :=
  read_jsonl d ATOMIC_PATH.

(** The state is threaded by hand: each write is visible in the disk
    returned, also when a later step raises. *)
Definition rebuild_atomic_core (d : disk) : disk * result unit :=
  match load_atomic_facts d with
  | Raise e => (d, Raise e)
  | Ok facts =>
      match traverse (fun fact => subscript fact "text") facts with
      | Raise e => (d, Raise e)
      | Ok raw =>
          match traverse as_str raw with
          | Raise e => (d, Raise e)
          | Ok texts =>
              let embeddings := encode texts in
              let d := write_jsonl CORE_META facts d in
              let d := np_save CORE_NPY embeddings d in
              match shape1 embeddings with
              | Raise e => (d, Raise e)
              | Ok _ => (write_index CORE_INDEX embeddings d, Ok tt)
              end
          end
      end
  end.

(** *** 04_build_auxiliary_layers.py *)

Definition chunk_record (file_name : json) (i : nat) (chunk : string)
  : json :=
  JObj (<["source_file" := file_name]>
        (<["chunk_id" := JInt (Z.of_nat i)]>
         (<["text" := JStr chunk]>
          (<["char_count" := JInt (Py.len chunk)]> ∅)))).

(** The body of [for doc in docs]: the records and the vectors this
    document appends to [all_chunks] and [all_embeddings].
    [doc["file_name"]] is read inside the inner loop, so only when
    there is a chunk. *)
Definition doc_entries (doc : json) : result (list (json * vec)) :=
  content <- subscript doc "content" ;;
  text <- match content with
          | JStr s => Ok s
          | _ => Raise AttributeError
          end ;;
  chunks <- Chunker.simple_token_split text Chunker.default_chunk_size
                                       Chunker.default_overlap ;;
  let embeddings := encode chunks in
  match zip chunks embeddings with
  | [] => Ok []
  | pairs =>
      file_name <- subscript doc "file_name" ;;
      Ok (imap (fun i '(chunk, emb) => (chunk_record file_name i chunk, emb))
               pairs)
  end.

Definition meta_path (output_dir layer_name : string) : string :=
  output_dir +:+ "/" +:+ layer_name +:+ "_metadata.jsonl".

Definition index_path (output_dir layer_name : string) : string :=
  output_dir +:+ "/" +:+ layer_name +:+ ".faiss".

Definition embed_and_save_layer (docs : list json)
    (layer_name output_dir : string) (d : disk) : disk * result unit :=
  match traverse doc_entries docs with
  | Raise e => (d, Raise e)
  | Ok per_doc =>
      let entries := concat per_doc in
      let all_chunks := map fst entries in
      let all_embeddings := map snd entries in
      let d := write_jsonl (meta_path output_dir layer_name) all_chunks d in
      match shape1 all_embeddings with
      | Raise e => (d, Raise e)
      | Ok _ =>
          (write_index (index_path output_dir layer_name) all_embeddings d,
           Ok tt)
      end
  end.

(** *** 05_test_layers.py *)

(** The [if]/[elif]/[else] chain that sets [index_path] and
    [meta_path]. *)
Definition layer_paths (layer : string) : result (string * string) :=
  if bool_decide (layer = "core") then
    Ok ("data/index/faiss.index", "data/embeddings/metadata.jsonl")
  else if bool_decide (layer = "context") then
    Ok ("data/context_intelligence/context_intelligence.faiss",
        "data/context_intelligence/context_intelligence_metadata.jsonl")
  else if bool_decide (layer = "strategy") then
    Ok ("data/experience_strategy/experience_strategy.faiss",
        "data/experience_strategy/experience_strategy_metadata.jsonl")
  else Raise (ValueError "Layer must be: core, context, or strategy").

Definition load_index_and_metadata (layer : string) (d : disk)
  : result (list vec * list json) :=
  paths <- layer_paths layer ;;
  index <- read_index d paths.1 ;;
  metadata <- read_jsonl d paths.2 ;;
  Ok (index, metadata).

(** [l[i]] for a Python integer [i] *)
Definition list_index {A} (l : list A) (i : Z) : result A :=
  let n := Z.of_nat (length l) in
  let j := if i <? 0 then i + n else i in
  if (0 <=? j) && (j <? n) then
    match l !! Z.to_nat j with
    | Some a => Ok a
    | None => Raise IndexError
    end
  else Raise IndexError.

Record row : Type := Row {
  row_layer : string;
  row_source : json;
  row_text_preview : json;
  row_score : option D
}.

(** [(t[:250] + "...") if len(t) > 250 else t] for [t = doc["text"]],
    which need not be a [str]: a short list or dict is returned as it
    is, a long one cannot be joined to ["..."]. *)
Definition preview250 (t : json) : result json :=
  match t with
  | JStr s => Ok (JStr (if 250 <? Py.len s
                        then Py.stake 250 s +:+ "..." else s))
  | JArr l => if 250 <? Z.of_nat (length l) then Raise TypeError else Ok t
  | JObj o => if 250 <? Z.of_nat (size o) then Raise TypeError else Ok t
  | _ => Raise TypeError
  end.

Definition hit_row (layer : string) (metadata : list json)
    (hit : option D * Z) : result (option row) :=
  let '(score, idx) := hit in
  if idx =? -1 then Ok None
  else
    doc <- list_index metadata idx ;;
    alt <- dict_get doc "source_file" JNull ;;
    source <- dict_get doc "file_name" alt ;;
    t <- subscript doc "text" ;;
    pv <- preview250 t ;;
    Ok (Some {| row_layer := layer; row_source := source;
                row_text_preview := pv; row_score := score |}).

Definition retrieve (query layer : string) (top_k : Z) (d : disk)
  : result (list row) :=
  im <- load_index_and_metadata layer d ;;
  let '(index, metadata) := im in
  let query_vec := embed query in
  found <- Faiss.search dist le index query_vec top_k ;;
  rows <- traverse (hit_row layer metadata) found ;;
  Ok (omap id rows).

(** *** 11_answer_with_llm.py *)

Definition fallback : string := "General Orlando travel guidance.".

Definition lite_meta_path (layer : string) : string :=
  if bool_decide (layer = "core") then "data/embeddings/metadata.jsonl"
  else if bool_decide (layer = "context") then
    "data/context_intelligence/context_intelligence_metadata.jsonl"
  else "data/experience_strategy/experience_strategy_metadata.jsonl".

(** [t[:300] + ("..." if len(t) > 300 else "")] for
    [t = doc.get("text", "")]: only a [str] can be sliced and joined
    to a [str]. *)
Definition preview300 (t : json) : result string :=
  match t with
  | JStr s => Ok (Py.stake 300 s +:+ (if 300 <? Py.len s then "..." else ""))
  | _ => Raise TypeError
  end.

Definition lite_line (line : option json) : result string :=
  doc <- json_loads line ;;
  t <- dict_get doc "text" (JStr "") ;;
  preview300 t.

(** The body of the [try] block. *)
Definition lite_try (layer : string) (top_k : Z) (d : disk)
  : result (list string) :=
  lines <- read_lines d (lite_meta_path layer) ;;
  let n := Z.min top_k (Z.of_nat (length lines)) in
  traverse lite_line (take (Z.to_nat n) lines).

(** [retrieve] of the answer script; each string is the
    ["text_preview"] of one result. *)
Definition lite_retrieve (query layer : string) (top_k : Z) (d : disk)
  : result (list string) :=
  match lite_try layer top_k d with
  | Ok results => Ok results
  | Raise _ => Ok [fallback]
  end.

(** *** The alignment of a layer *)

(** The metadata file and the index file of a layer hold [meta] and
    [index]. *)
Definition on_disk (d : disk) (meta_file index_file : string)
    (meta : list json) (index : list vec) : Prop :=
  jsonl_files d !! meta_file = Some (map Some meta)
  /\ index_files d !! index_file = Some index.

(** As many records as vectors, and vector [i] is the embedding of
    the text of record [i]. *)
Definition aligned (meta : list json) (index : list vec) : Prop :=
  length meta = length index
  /\ forall (i : nat) (r : json),
       meta !! i = Some r ->
       exists t : string,
         subscript r "text" = Ok (JStr t)
         /\ index !! i = Some (embed t).

(** A record and the vector written next to it. *)
Definition entry_ok (p : json * vec) : Prop :=
  exists t : string, subscript p.1 "text" = Ok (JStr t) /\ p.2 = embed t.



End Store.
End Layers.

(** ** Sample records *)

Module Samples.

Definition atomic_fact (text : string) : pydict :=
  <["entity" := JStr "Magic Kingdom"]>
  (<["attribute" := JStr "operating_hours"]>
   (<["value" := JStr "9:00 AM - 10:00 PM"]>
    (<["source_document" := JStr "Orlando_Park_Hours_Dez2025.pdf"]>
     (<["year_or_season" := JStr "December 2025"]>
      (<["text" := JStr text]> ∅))))).

Definition hours_text : string :=
  "Magic Kingdom operating hours during December 2025: 9:00 AM - 10:00 PM.".

(** A text that ends with a line break, as a line-oriented writer may
    leave it. *)
Definition text_with_newline : string :=
  "Magic Kingdom opens at 9" +:+ Validator.newline.

Definition hours_doc : string := "Orlando_Park_Hours_Dez2025.pdf".

Definition hours_page : string :=
  "Park hours.  Magic Kingdom: 9:00 AM - 10:00 PM, EPCOT: 9:00 AM - 9:00 PM, ".

(** The Magic Kingdom label is used twice, first in a remark. *)
Definition hours_page_remark : string :=
  "Magic Kingdom: hours vary, Magic Kingdom: 9:00 AM - 10:00 PM, EPCOT: 9:00 AM - 9:00 PM".

(** A sentence of exactly twenty characters that holds a keyword. *)
Definition twenty : string := "The park opens at 9.".

(** A one-dimensional stand-in for the embedding model and the
    metric, to run the builds and the search. *)
Definition toy_embed (s : string) : Z := Py.len s.
Definition toy_dist (a b : Z) : Z := (a - b) * (a - b).

Definition location_text : string :=
  "LEGOLAND Florida is located in Winter Haven, Florida.".

(** A disk that holds the atomic facts and no layer yet. *)
Definition facts_only : @Layers.disk Z :=
  {| Layers.jsonl_files :=
       {[ Layers.ATOMIC_PATH :=
            [ Some (JObj (atomic_fact hours_text));
              Some (JObj (atomic_fact location_text)) ] ]};
     Layers.index_files := ∅;
     Layers.npy_files := ∅ |}.

Definition no_files : @Layers.disk Z :=
  {| Layers.jsonl_files := ∅;
     Layers.index_files := ∅;
     Layers.npy_files := ∅ |}.

(** The strategy layer's metadata, and nothing else. *)
Definition strategy_only : @Layers.disk Z :=
  {| Layers.jsonl_files :=
       {[ "data/experience_strategy/experience_strategy_metadata.jsonl" :=
            [ Some (JObj {[ "text" := JStr "Arrive before opening." ]});
              Some (JObj {[ "text" := JStr "Rest at midday." ]});
              Some (JObj {[ "text" := JStr "Book dining early." ]}) ] ]};
     Layers.index_files := ∅;
     Layers.npy_files := ∅ |}.

Definition one_doc : list json :=
  [ JObj {[ "content" := JStr "Arrive before opening. Rest at midday.";
            "file_name" := JStr "ORLANDO_DEEPSEARCH_KB.pdf" ]} ].

End Samples.

(** ** Shapes of tokens *)

Module Shapes.

(** Every character of [s] satisfies [P]. *)
Fixpoint allb (P : ascii -> bool) (s : string) : bool :=
  match s with
  | "" => true
  | String c s' => P c && allb P s'
  end.

(** One or two digits, a colon, two digits. *)
Definition is_clock (s : string) : bool :=
  match s with
  | String d1 (String p (String a (String b ""))) =>
      Py.isdecimal d1 && bool_decide (p = ":"%char)
      && Py.isdecimal a && Py.isdecimal b
  | String d1 (String d2 (String p (String a (String b "")))) =>
      Py.isdecimal d1 && Py.isdecimal d2 && bool_decide (p = ":"%char)
      && Py.isdecimal a && Py.isdecimal b
  | _ => false
  end.

(** A typed time token: the prefix [time_] and a clock time. *)
Definition is_time_token (tok : string) : bool :=
  Py.startswith "time_" tok && is_clock (Py.sdrop 5 tok).

(** A plain word token: not empty, characters of the class [\w] only. *)
Definition is_plain_token (tok : string) : bool :=
  negb (bool_decide (tok = "")) && allb Py.isword tok.

End Shapes.

(** ** Facts as records of the fact file *)

Module FactRecords.

(** The dict that [extract_atomic_facts] appends for a fact, which is
    also what [json.loads] gives back for its line of the fact file:
    the record [fact] holds its six values. *)
Definition to_dict (f : Extractor.fact) : pydict :=
  <["entity" := JStr (Extractor.entity f)]>
  (<["attribute" := JStr (Extractor.attribute f)]>
   (<["value" := JStr (Extractor.value f)]>
    (<["source_document" := JStr (Extractor.source_document f)]>
     (<["year_or_season" := JStr (Extractor.year_or_season f)]>
      (<["text" := JStr (Extractor.text f)]> ∅))))).

(** White space in [s] is the single space only, and never two in a row;
    [prev] tells that the character before [s] was white space. *)
Fixpoint spaced (prev : bool) (s : string) : bool :=
  match s with
  | "" => true
  | String c s' =>
      if Py.isspace c
      then negb prev && bool_decide (c = " "%char) && spaced true s'
      else spaced false s'
  end.

(** The last character of [s] is a space. *)
Fixpoint ends_with_space (s : string) : bool :=
  match s with
  | "" => false
  | String c "" => bool_decide (c = " "%char)
  | String _ s' => ends_with_space s'
  end.

(** [s] starts with a character that is not white space. *)
Definition starts_solid (s : string) : bool :=
  match s with
  | "" => false
  | String c _ => negb (Py.isspace c)
  end.

Definition not_comma (c : ascii) : bool := negb (bool_decide (c = ","%char)).

(** The six values of a fact in good order: the four checked ones are
    not blank, the value has no white space around it, and the source
    is the one the call was given. *)
Definition well_formed (source_doc : string) (f : Extractor.fact) : Prop :=
  Extractor.source_document f = source_doc
  /\ Py.strip (Extractor.entity f) <> ""
  /\ Py.strip (Extractor.attribute f) <> ""
  /\ Extractor.value f <> ""
  /\ Py.strip (Extractor.value f) = Extractor.value f
  /\ Py.strip (Extractor.text f) <> "".

End FactRecords.

(** ** The other builds (06_rebuild_core_factual_index.py,
       04_build_auxiliary_layers.py [main], 09_rebuild_travel_layers.py) *)

Module Builds.
Section Store.
Context {vec : Type}.
Variable embed : string -> vec.

(** [json.loads(f.readline())] on a file just opened: an empty file gives
    the empty string, which is not JSON. *)
Definition first_line (lines : list (option json)) : result json :=
  match lines with
  | [] => Raise JSONDecodeError
  | line :: _ => Layers.json_loads line
  end.

Definition processed_path (name : string) : string :=
  "data/processed/" +:+ name +:+ ".jsonl".

(** [load_documents_by_name] of 04 and [load_factual_docs] of 06: the
    first line of every file that exists; a missing file is skipped with
    a warning. *)
Fixpoint load_documents_by_name (filenames : list string)
    (d : @Layers.disk vec) : result (list json) :=
  match filenames with
  | [] => Ok []
  | name :: rest =>
      match Layers.jsonl_files d !! processed_path name with
      | Some lines =>
          doc <- first_line lines ;;
          docs <- load_documents_by_name rest d ;;
          Ok (doc :: docs)
      | None => load_documents_by_name rest d
      end
  end.

(** *** 06_rebuild_core_factual_index.py *)

Definition FACTUAL_DOCS : list string :=
  [ "01.22.10_parkingenforce";
    "2012_UNI_brochure";
    "Guia-de-Bolso-Orlando";
    "Happiest-Handbook";
    "MK_0923_EN";
    "Orlando Travel Guide (1)";
    "universal-citywalk-orlando-map";
    "universal-studios-florida-park-map-english";
    "virtual-guide";
    "Orlando_Park_Hours_Dez2025" ].

Definition load_factual_docs (d : @Layers.disk vec) : result (list json) :=
  load_documents_by_name FACTUAL_DOCS d.

Definition core_chunk_record (file_name : json) (i : nat) (chunk : string)
  : json :=
  JObj (<["file_name" := file_name]>
        (<["chunk_id" := JInt (Z.of_nat i)]>
         (<["text" := JStr chunk]>
          (<["char_count" := JInt (Py.len chunk)]> ∅)))).

(** The body of [for doc in docs] in [rebuild_core_index]. *)
Definition core_doc_entries (doc : json) : result (list (json * vec)) :=
  content <- subscript doc "content" ;;
  text <- match content with
          | JStr s => Ok s
          | _ => Raise AttributeError
          end ;;
  chunks <- Chunker.simple_token_split text Chunker.default_chunk_size
                                       Chunker.default_overlap ;;
  let embeddings := Layers.encode embed chunks in
  match zip chunks embeddings with
  | [] => Ok []
  | pairs =>
      file_name <- subscript doc "file_name" ;;
      Ok (imap (fun i '(chunk, emb) =>
                  (core_chunk_record file_name i chunk, emb)) pairs)
  end.

(** The directories of the files the build writes. *)
Definition EMBEDDINGS_DIR : string := "data/embeddings".
Definition INDEX_DIR : string := "data/index".

(** [dirs] holds the directories that exist.  This script creates
    none: [open(..., "w")] raises when data/embeddings is missing, and
    nothing is written then; with data/index missing the library cannot
    write the index file and raises a RuntimeError, after the metadata
    and the array were written. *)
Definition rebuild_core_index (dirs : gset string) (d : @Layers.disk vec)
  : @Layers.disk vec * result unit :=
  match load_factual_docs d with
  | Raise e => (d, Raise e)
  | Ok docs =>
      match traverse core_doc_entries docs with
      | Raise e => (d, Raise e)
      | Ok per_doc =>
          let entries := concat per_doc in
          let all_chunks := map fst entries in
          let all_embeddings := map snd entries in
          if bool_decide (EMBEDDINGS_DIR ∈ dirs) then
            let d := Layers.write_jsonl Layers.CORE_META all_chunks d in
            let d := Layers.np_save Layers.CORE_NPY all_embeddings d in
            match Layers.shape1 all_embeddings with
            | Raise e => (d, Raise e)
            | Ok _ =>
                if bool_decide (INDEX_DIR ∈ dirs) then
                  (Layers.write_index Layers.CORE_INDEX all_embeddings d,
                   Ok tt)
                else (d, Raise (RuntimeError Layers.CORE_INDEX))
            end
          else (d, Raise (FileNotFoundError Layers.CORE_META))
      end
  end.

(** *** 04_build_auxiliary_layers.py, [main] *)

Definition AUX_SOURCE_DOCS : list string :=
  [ "A Strategic DeepResearch Plan for the Orlando Visitor Experience";
    "ORLANDO_DEEPSEARCH_KB" ].

Definition build_auxiliary_layers (d : @Layers.disk vec)
  : @Layers.disk vec * result unit :=
  match load_documents_by_name AUX_SOURCE_DOCS d with
  | Raise e => (d, Raise e)
  | Ok [] => (d, Ok tt)
  | Ok docs =>
      match Layers.embed_and_save_layer embed docs "context_intelligence"
              "data/context_intelligence" d with
      | (d1, Raise e) => (d1, Raise e)
      | (d1, Ok _) =>
          Layers.embed_and_save_layer embed docs "experience_strategy"
            "data/experience_strategy" d1
      end
  end.

(** *** 09_rebuild_travel_layers.py *)

Definition travel_keywords : list string :=
  [ "visitor"; "family"; "crowd"; "itinerary"; "logistics"; "wait time";
    "parking"; "transportation"; "weather"; "fatigue"; "burnout";
    "first-time"; "planning"; "schedule"; "hotel"; "dining"; "attraction";
    "experience"; "trip"; "orlando"; "disney"; "universal"; "legoland" ].

Definition irrelevant_keywords : list string :=
  [ "revenue"; "income"; "profit"; "pin trading"; "rfid"; "wristband";
    "brand partnership"; "licensing"; "gift shop"; "merchandise";
    "epic universe" ].

Definition mentions (kws : list string) (text_lower : string) : bool :=
  existsb (fun kw => Py.contains kw text_lower) kws.

Definition is_travel_relevant (text : string) : bool :=
  let text_lower := Py.lower text in
  if mentions irrelevant_keywords text_lower then false
  else mentions travel_keywords text_lower.

Definition KB_PATH : string := "data/processed/ORLANDO_DEEPSEARCH_KB.jsonl".

(** The test of the loop over the sentences, on a sentence already
    stripped. *)
Definition kept (sent : string) : bool :=
  negb ((Py.len sent <? 30) || (300 <? Py.len sent))
  && is_travel_relevant sent.

Definition extract_clean_chunks_from_kb (d : @Layers.disk vec)
  : result (list string) :=
  match Layers.jsonl_files d !! KB_PATH with
  | None => Ok []
  | Some lines =>
      doc <- first_line lines ;;
      content <- subscript doc "content" ;;
      text <- match content with
              | JStr s => Ok s
              | _ => Raise TypeError
              end ;;
      Ok (filter (fun sent => kept sent = true)
                 (map Py.strip (Extractor.split_sentences text)))
  end.

Definition travel_record (i : nat) (chunk : string) : json :=
  JObj (<["source_file" := JStr "ORLANDO_DEEPSEARCH_KB.pdf"]>
        (<["chunk_id" := JInt (Z.of_nat i)]>
         (<["text" := JStr chunk]> ∅))).

Definition layer_dir (name : string) : string := "data/" +:+ name.

Definition save_layer (name : string) (chunks : list string)
    (d : @Layers.disk vec) : @Layers.disk vec * result unit :=
  let d := Layers.write_jsonl (Layers.meta_path (layer_dir name) name)
                              (imap travel_record chunks) d in
  let embeddings := Layers.encode embed chunks in
  let d := Layers.np_save (layer_dir name +:+ "/embeddings.npy") embeddings d in
  match Layers.shape1 embeddings with
  | Raise e => (d, Raise e)
  | Ok _ =>
      (Layers.write_index (Layers.index_path (layer_dir name) name)
                          embeddings d, Ok tt)
  end.

Definition rebuild_travel_layers (d : @Layers.disk vec)
  : @Layers.disk vec * result unit :=
  match extract_clean_chunks_from_kb d with
  | Raise e => (d, Raise e)
  | Ok [] => (d, Ok tt)
  | Ok travel_chunks =>
      match save_layer "context_intelligence" travel_chunks d with
      | (d1, Raise e) => (d1, Raise e)
      | (d1, Ok _) => save_layer "experience_strategy" travel_chunks d1
      end
  end.

End Store.
End Builds.

(** ** The other retrievers (03_retrieve.py,
       src/retrieve/context_fusion.py) *)

Module Retrieval.
Section Store.
Context {vec D : Type}.
Variable embed : string -> vec.
Variable dist : vec -> vec -> D.
Variable le : D -> D -> bool.

(** [t[:300] + "..." if len(t) > 300 else t], for a [t] that need not
    be a [str]: as in [Layers.preview250], a short list or dict is
    returned as it is, a long one cannot be joined to ["..."]. *)
Definition cut300 (t : json) : result json :=
  match t with
  | JStr s => Ok (JStr (if 300 <? Py.len s
                        then Py.stake 300 s +:+ "..." else s))
  | JArr l => if 300 <? Z.of_nat (length l) then Raise TypeError else Ok t
  | JObj o => if 300 <? Z.of_nat (size o) then Raise TypeError else Ok t
  | _ => Raise TypeError
  end.

(** *** 03_retrieve.py *)

Definition INDEX_PATH : string := "data/index/faiss.index".
Definition METADATA_PATH : string := "data/embeddings/metadata.jsonl".

Definition load_resources (d : @Layers.disk vec)
  : result (list vec * list json) :=
  index <- Layers.read_index d INDEX_PATH ;;
  metadata <- Layers.read_jsonl d METADATA_PATH ;;
  Ok (index, metadata).

(** One result; the field [retrieval_time_sec], a reading of the clock,
    is left out. *)
Record ranked : Type := Ranked {
  rank : Z;
  file_name : json;
  chunk_id : json;
  text : json;
  score : option D
}.

(** The loop [for i, (idx, score) in enumerate(zip(indices[0],
    scores[0]))], from position [i] on. *)
Fixpoint collect (metadata : list json) (i : nat)
    (found : list (option D * Z)) : result (list ranked) :=
  match found with
  | [] => Ok []
  | (sc, idx) :: rest =>
      if idx =? -1 then collect metadata (S i) rest
      else
        doc <- Layers.list_index metadata idx ;;
        fn <- subscript doc "file_name" ;;
        cid <- subscript doc "chunk_id" ;;
        t <- subscript doc "text" ;;
        pv <- cut300 t ;;
        rs <- collect metadata (S i) rest ;;
        Ok ({| rank := Z.of_nat i + 1; file_name := fn; chunk_id := cid;
               text := pv; score := sc |} :: rs)
  end.

Definition retrieve (query : string) (top_k : Z) (d : @Layers.disk vec)
  : result (list ranked) :=
  r <- load_resources d ;;
  let '(index, metadata) := r in
  found <- Faiss.search dist le index (embed query) top_k ;;
  collect metadata O found.

(** *** src/retrieve/context_fusion.py *)

Record engine : Type := Engine {
  eng_index : list vec;
  eng_metadata : list json
}.

(** [ContextFusionEngine.__init__] *)
Definition engine_init (d : @Layers.disk vec) : result engine :=
  index <- Layers.read_index d "data/index/faiss.index" ;;
  metadata <- Layers.read_jsonl d "data/embeddings/metadata.jsonl" ;;
  Ok {| eng_index := index; eng_metadata := metadata |}.

Definition is_slash (v : json) : bool :=
  match v with
  | JStr s => bool_decide (s = "/")
  | _ => false
  end.

(** [if "/" in source: source = source.split("/")[-1]]: the test needs
    something to look into, and only a [str] has [split]. *)
Definition clean_source (source : json) : result unit :=
  match source with
  | JStr _ => Ok tt
  | JArr l => if existsb is_slash l then Raise AttributeError else Ok tt
  | JObj o =>
      match o !! "/" with
      | Some _ => Raise AttributeError
      | None => Ok tt
      end
  | _ => Raise TypeError
  end.

Definition fusion_hit (metadata : list json) (hit : option D * Z)
  : result (option json) :=
  let '(_, idx) := hit in
  if idx =? -1 then Ok None
  else
    doc <- Layers.list_index metadata idx ;;
    t <- dict_get doc "text" (JStr "") ;;
    source <- dict_get doc "source_document" (JStr "Unknown Source") ;;
    _ <- clean_source source ;;
    Ok (Some t).

(** [ContextFusionEngine.retrieve] *)
Definition fusion_retrieve (e : engine) (query : string) (top_k : Z)
  : result (list json) :=
  found <- Faiss.search dist le (eng_index e) (embed query) top_k ;;
  rows <- traverse (fusion_hit (eng_metadata e)) found ;;
  Ok (omap id rows).

End Store.
End Retrieval.

(** ** The fact file, and sample disks for the builds *)

Module FactFile.

(** The line [json.dumps] writes for a fact, as [json.loads] reads it
    back. *)
Definition fact_line (f : Extractor.fact) : option json :=
  Some (JObj (FactRecords.to_dict f)).

End FactFile.

Module BuildSamples.

Definition kb_doc : json :=
  JObj {[ "content" :=
            JStr "Arrive before opening to avoid the crowd at Magic Kingdom. Merchandise revenue grew again for the operator last year. Rest.";
          "file_name" := JStr "ORLANDO_DEEPSEARCH_KB.pdf" ]}.

(** The processed knowledge base, and nothing else. *)
Definition kb_only : @Layers.disk Z :=
  {| Layers.jsonl_files := {[ Builds.KB_PATH := [ Some kb_doc ] ]};
     Layers.index_files := ∅;
     Layers.npy_files := ∅ |}.

(** The processed park hours document, and nothing else. *)
Definition hours_only : @Layers.disk Z :=
  {| Layers.jsonl_files :=
       {[ "data/processed/Orlando_Park_Hours_Dez2025.jsonl" :=
            [ Some (JObj {[ "content" := JStr Samples.hours_page;
                            "file_name" := JStr Samples.hours_doc ]}) ] ]};
     Layers.index_files := ∅;
     Layers.npy_files := ∅ |}.

(** The facts the extractor finds on the sample hours page, as the
    fact file holds them. *)
Definition page_facts : list Extractor.fact :=
  Extractor.extract_atomic_facts Samples.hours_page Samples.hours_doc.

Definition page_facts_only : @Layers.disk Z :=
  {| Layers.jsonl_files :=
       {[ Layers.ATOMIC_PATH := map FactFile.fact_line page_facts ]};
     Layers.index_files := ∅;
     Layers.npy_files := ∅ |}.

(** The core layer built from the two sample facts. *)
Definition built_core : @Layers.disk Z :=
  (Layers.rebuild_atomic_core Samples.toy_embed Samples.facts_only).1.

(** The same disk once the fact file has been written again with no
    fact in it, as the extractor leaves it when it finds none. *)
Definition emptied_facts : @Layers.disk Z :=
  Layers.write_jsonl Layers.ATOMIC_PATH [] built_core.

(** The two directories of the core layer. *)
Definition core_dirs : gset string := {[ "data/embeddings"; "data/index" ]}.

End BuildSamples.

(** ** Ingestion (01_parse_pdfs.py)

    The two PDF libraries are outside the repository: each is a
    parameter that gives the texts it reads from a file, or raises.
    The log and the directories are not modelled. *)

Module Ingest.
Section Parsers.
Context {vec : Type}.
(** [partition_pdf(filename=..., strategy="fast", ...)] of the library
    unstructured, each element read through [str]. *)
Variable partition_pdf : string -> result (list string).
(** The pages of [PdfReader(pdf_path)] of the library pypdf, each read
    through [extract_text()]. *)
Variable page_texts : string -> result (list string).
(** [str] of a list of paths, in the message of [validate_outputs]. *)
Variable repr_paths : list string -> string.

(** A file the glob has found, as pathlib presents it:
    [pdf_path.name], [pdf_path.stem] and [str(pdf_path)]. *)
Record pdf : Type := Pdf {
  pdf_name : string;
  pdf_stem : string;
  pdf_path : string
}.

Definition paragraph_break : string := Validator.newline +:+ Validator.newline.

(** [not text.strip()] *)
Definition blank (text : string) : bool := bool_decide (Py.strip text = "").

Definition parse_pdf_unstructured (path : string) : string :=
  match partition_pdf path with
  | Ok elements =>
      Py.join paragraph_break (filter (fun el => blank el = false) elements)
  | Raise _ => ""
  end.

(** [text += page_text + "\n\n"] for the pages that have text. *)
Definition add_page (text page_text : string) : string :=
  if bool_decide (page_text = "") then text
  else text +:+ (page_text +:+ paragraph_break).

Definition parse_pdf_pypdf (path : string) : string :=
  match page_texts path with
  | Ok pages => fold_left add_page pages ""
  | Raise _ => ""
  end.

(** The text of a PDF: the primary parser, and the fallback when the
    primary gives nothing but white space. *)
Definition extract_text (p : pdf) : string :=
  let text := parse_pdf_unstructured (pdf_path p) in
  if blank text then parse_pdf_pypdf (pdf_path p) else text.

Definition document (p : pdf) (text : string) : json :=
  JObj (<["file_name" := JStr (pdf_name p)]>
        (<["source_path" := JStr (pdf_path p)]>
         (<["content" := JStr (Py.strip text)]>
          (<["char_count" := JInt (Py.len (Py.strip text))]>
           (<["word_count" :=
                JInt (Z.of_nat (length (Py.split (Py.strip text))))]> ∅))))).

(** [PROCESSED_DIR / f"{pdf_path.stem}.jsonl"] *)
Definition output_path (p : pdf) : string :=
  "data/processed/" +:+ pdf_stem p +:+ ".jsonl".

(** [process_pdfs], on the sorted list of the PDFs found; with no PDF
    the loop has nothing to do and the answer is the empty list, as in
    the early return. *)
Fixpoint process_pdfs (pdf_files : list pdf) (d : @Layers.disk vec)
  : @Layers.disk vec * list string :=
  match pdf_files with
  | [] => (d, [])
  | p :: rest =>
      let text := extract_text p in
      if blank text then process_pdfs rest d
      else
        let d1 := Layers.write_jsonl (output_path p) [document p text] d in
        let '(d2, processed_files) := process_pdfs rest d1 in
        (d2, output_path p :: processed_files)
  end.




(** What a processed file holds: one line, a document with a content
    that is not blank and has no white space around it, and the two
    counts taken on it. *)
Definition is_document (p : pdf) (line : json) : Prop :=
  exists content : string,
    line = JObj (<["file_name" := JStr (pdf_name p)]>
                 (<["source_path" := JStr (pdf_path p)]>
                  (<["content" := JStr content]>
                   (<["char_count" := JInt (Py.len content)]>
                    (<["word_count" :=
                         JInt (Z.of_nat (length (Py.split content)))]> ∅)))))
    /\ content <> ""
    /\ Py.strip content = content
    /\ Py.split content <> [].

End Parsers.
End Ingest.

Module IngestSamples.

Definition hours_pdf : Ingest.pdf :=
  {| Ingest.pdf_name := "Orlando_Park_Hours_Dez2025.pdf";
     Ingest.pdf_stem := "Orlando_Park_Hours_Dez2025";
     Ingest.pdf_path := "data/raw_pdfs/Orlando_Park_Hours_Dez2025.pdf" |}.

Definition scan_pdf : Ingest.pdf :=
  {| Ingest.pdf_name := "scan.pdf";
     Ingest.pdf_stem := "scan";
     Ingest.pdf_path := "data/raw_pdfs/scan.pdf" |}.

(** The primary parser fails on every file. *)
Definition no_partition (path : string) : result (list string) :=
  Raise (RuntimeError "unstructured is not installed").

(** The fallback reads the hours page, and nothing from a scan. *)
Definition toy_pages (path : string) : result (list string) :=
  if bool_decide (path = "data/raw_pdfs/Orlando_Park_Hours_Dez2025.pdf")
  then Ok [ ""; Samples.hours_page ]
  else Ok [ "" ].


End IngestSamples.

(** ** The service (src/api/main.py)

    The chat model and the prompt template are LangChain's: the call
    is a parameter that gives the text of the answer, or raises.  The
    latency, a reading of the clock, is left out. *)

Module Api.
Section Service.
Context {vec D : Type}.
Variable embed : string -> vec.
Variable dist : vec -> vec -> D.
Variable le : D -> D -> bool.
(** [chain.invoke({"question": q, "context": c}).content] *)
Variable llm : string -> string -> result string.
(** The pushpin sign that opens a badge, a character outside Latin-1. *)
Variable pin : string.

(** [c in chars] *)
Fixpoint has_char (c : ascii) (chars : string) : bool :=
  match chars with
  | "" => false
  | String a chars' => bool_decide (a = c) || has_char c chars'
  end.

(** [s.rstrip(chars)] *)
Fixpoint rstrip_chars (chars : string) (s : string) : string :=
  match s with
  | "" => ""
  | String c s' =>
      match rstrip_chars chars s' with
      | "" => if has_char c chars then "" else String c ""
      | r => String c r
      end
  end.

(** [s.replace(old, new)] for one-character [old] and [new]. *)
Fixpoint replace_char (old new : ascii) (s : string) : string :=
  match s with
  | "" => ""
  | String c s' =>
      String (if bool_decide (c = old) then new else c)
             (replace_char old new s')
  end.

Definition line_feed : ascii := ascii_of_N 10.

(** The body of the loop of [_format_sources]. *)
Definition badge (ctx : string) : string :=
  let parts := Py.split (replace_char line_feed " " ctx) in
  if 2 <? Z.of_nat (length parts) then
    let entity := Py.join " " (take 3 parts) in
    let entity := rstrip_chars ".,;:" entity in
    pin +:+ " Source: " +:+ entity
  else pin +:+ " Source Document".

Definition _format_sources (context_list : list string) : list string :=
  map badge context_list.

(** What a request ends in: an [HTTPException] raised by the
    endpoint, with its status, the fixed part of its detail and the
    exception whose [str] follows it; an exception the endpoint does
    not catch; or the response. *)
Inductive outcome : Type :=
  | HTTPException (status_code : Z) (detail : string) (cause : option exn)
  | Unhandled (e : exn)
  | QueryResponse (response : string) (grounding_score : Q)
                  (sources : list string).

(** The module-level [try]: the engine, or [None] when its
    initialisation raises. *)
Definition startup (d : @Layers.disk vec) : option (@Retrieval.engine vec) :=
  match Retrieval.engine_init d with
  | Ok e => Some e
  | Raise _ => None
  end.

Definition query_endpoint (fusion_engine : option (@Retrieval.engine vec))
    (question : string) : outcome :=
  match fusion_engine with
  | None => HTTPException 503 "Fusion Engine not initialized." None
  | Some engine =>
      match Retrieval.fusion_retrieve embed dist le engine question 3 with
      | Raise e => HTTPException 500 "Retrieval failed: " (Some e)
      | Ok context_list =>
          (* ["\n".join(context_list)] needs every item to be a [str] *)
          match traverse Layers.as_str context_list with
          | Raise e => Unhandled e
          | Ok contexts =>
              let context_str := Py.join Validator.newline contexts in
              match llm question context_str with
              | Raise e =>
                  HTTPException 500 "LLM Generation failed: " (Some e)
              | Ok response_text =>
                  match Grounding.check_grounding question contexts
                          response_text with
                  | Raise e => Unhandled e
                  | Ok score =>
                      QueryResponse response_text score
                                    (_format_sources contexts)
                  end
              end
          end
      end
  end.

(** [health_check]: the value of ["engine_ready"]. *)
Definition engine_ready (fusion_engine : option (@Retrieval.engine vec))
  : bool :=
  match fusion_engine with Some _ => true | None => false end.

End Service.
End Api.

Module ApiSamples.

(** A chat model that answers with the context up to its first comma. *)
Definition echo_llm (question context_str : string) : result string :=
  Ok (Extractor.until_comma context_str).

Definition silent_llm (question context_str : string) : result string :=
  Raise (RuntimeError "Connection error.").

End ApiSamples.

(** * Properties *)

(** ** Strings and words *)

Module PyFacts.
Import Py.

Lemma app_cons (c : ascii) (a b : string) :
  String c a +:+ b = String c (a +:+ b).
Proof. reflexivity. Qed.

Lemma app_nil_l (s : string) : "" +:+ s = s.
Proof. reflexivity. Qed.

Lemma app_nil_r (s : string) : s +:+ "" = s.
Proof. induction s as [|c s IH]; [done | by rewrite app_cons, IH]. Qed.

Lemma app_assoc (a b c : string) : (a +:+ b) +:+ c = a +:+ (b +:+ c).
Proof. induction a as [|x a IH]; [done | by rewrite !app_cons, IH]. Qed.

Lemma app_snoc (a : string) (c : ascii) (b : string) :
  (a +:+ String c "") +:+ b = a +:+ String c b.
Proof. by rewrite app_assoc. Qed.

Lemma app_eq_nil (a b : string) : a +:+ b = "" -> a = "" /\ b = "".
Proof. destruct a; [done | discriminate]. Qed.

Lemma length_app (a b : string) :
  String.length (a +:+ b) = (String.length a + String.length b)%nat.
Proof.
  induction a as [|x a IH]; [done|]. rewrite app_cons. simpl. by rewrite IH.
Qed.

Lemma nospace_app (a b : string) :
  nospace (a +:+ b) = nospace a && nospace b.
Proof.
  induction a as [|x a IH]; [done|].
  rewrite app_cons. simpl. by rewrite IH, andb_assoc.
Qed.

Lemma flush_word (w : string) : w <> "" -> flush w = [w].
Proof. by destruct w. Qed.

Lemma split_go_word (w cur rest : string) :
  nospace w = true -> split_go cur (w +:+ rest) = split_go (cur +:+ w) rest.
Proof.
  revert cur. induction w as [|c w IH]; intros cur Hw.
  - by rewrite app_nil_l, app_nil_r.
  - simpl in Hw. apply andb_true_iff in Hw as [Hc Hw].
    apply negb_true_iff in Hc. rewrite app_cons. simpl.
    rewrite Hc, IH by done. by rewrite app_snoc.
Qed.

Lemma split_go_space (cur rest : string) :
  cur <> "" -> split_go cur (String " " rest) = cur :: split_go "" rest.
Proof. intros H. simpl. by rewrite flush_word. Qed.

(** Splitting what [" ".join] made of words gives the words back. *)
Lemma split_join (ws : list string) :
  Forall is_word ws -> split (join " " ws) = ws.
Proof.
  unfold split. induction 1 as [|w ws [Hne Hw] Hws IH]; [done|].
  destruct ws as [|w2 ws].
  - simpl. rewrite <- (app_nil_r w) at 1.
    rewrite split_go_word by done. simpl. by rewrite flush_word.
  - change (join " " (w :: w2 :: ws))
      with (w +:+ String " " (join " " (w2 :: ws))).
    rewrite split_go_word by done. rewrite app_nil_l.
    rewrite split_go_space by done. by rewrite IH.
Qed.

Lemma split_go_words (cur s : string) :
  nospace cur = true -> Forall is_word (split_go cur s).
Proof.
  revert cur. induction s as [|c s IH]; intros cur Hcur; simpl.
  - destruct cur; [constructor|]. repeat constructor; done.
  - destruct (isspace c) eqn:Hc.
    + apply Forall_app. split; [|by apply IH].
      destruct cur; [constructor|]. repeat constructor; done.
    + apply IH. rewrite nospace_app, Hcur. simpl. by rewrite Hc.
Qed.

Lemma split_words (s : string) : Forall is_word (split s).
Proof. by apply split_go_words. Qed.

(** A window of a list, read as a slice. *)
Lemma slice_window {A} (l : list A) (i w : Z) :
  0 <= i <= Z.of_nat (length l) -> 0 <= w ->
  slice l i (i + w) = take (Z.to_nat w) (drop (Z.to_nat i) l).
Proof.
  intros Hi Hw. unfold slice, clamp.
  destruct (Z.ltb_spec i 0); [lia|].
  destruct (Z.ltb_spec (i + w) 0); [lia|].
  rewrite (Z.min_l i) by lia.
  destruct (Z.le_ge_cases (i + w) (Z.of_nat (length l))) as [Hle|Hge].
  - rewrite Z.min_l by lia. f_equal. lia.
  - rewrite Z.min_r by lia.
    rewrite !take_ge; [done | rewrite length_drop; lia..].
Qed.

Lemma range0_pos (stop step : Z) :
  0 < step -> 0 < stop ->
  range0 stop step
  = Ok (map (fun k => Z.of_nat k * step)
            (seq 0 (Z.to_nat ((stop + step - 1) / step)))).
Proof.
  intros Hs Hn. unfold range0.
  destruct (Z.eqb_spec step 0); [lia|].
  destruct (Z.ltb_spec 0 step); [|lia].
  by destruct (Z.ltb_spec 0 stop); [|lia].
Qed.

End PyFacts.

(** ** The chunker *)

Module ChunkerSpec.
Import Py PyFacts Chunker.

Section Windows.
Variables (words : list string) (W O : Z).
Hypothesis HO : 0 <= O < W.
Hypothesis Hlong : W < Z.of_nat (length words).

(** The number of windows is the word count divided by the step, rounded
    up: the last window starts below the word count, and one more would
    start at or after it. *)
Lemma count_bounds :
  ((Z.of_nat (length words) + (W - O) - 1) / (W - O) - 1) * (W - O)
  < Z.of_nat (length words)
  <= (Z.of_nat (length words) + (W - O) - 1) / (W - O) * (W - O).
Proof using HO Hlong.
  pose proof (Z.div_mod (Z.of_nat (length words) + (W - O) - 1) (W - O))
    as Hdm.
  pose proof (Z.mod_pos_bound (Z.of_nat (length words) + (W - O) - 1)
                              (W - O)) as Hmod.
  nia.
Qed.

Lemma count_pos : 0 < (Z.of_nat (length words) + (W - O) - 1) / (W - O).
Proof using HO Hlong. pose proof count_bounds. nia. Qed.

Lemma start_in_range (k : nat) :
  Z.of_nat k < (Z.of_nat (length words) + (W - O) - 1) / (W - O) ->
  0 <= Z.of_nat k * (W - O) < Z.of_nat (length words).
Proof using HO Hlong. pose proof count_bounds. nia. Qed.

Lemma window_slice (k : nat) :
  Z.of_nat k < (Z.of_nat (length words) + (W - O) - 1) / (W - O) ->
  slice words (Z.of_nat k * (W - O)) (Z.of_nat k * (W - O) + W)
  = window words W O k.
Proof using HO Hlong.
  intros Hk. pose proof (start_in_range k Hk).
  apply slice_window; lia.
Qed.

Lemma window_length (k : nat) :
  Z.of_nat (length (window words W O k)) <= W.
Proof using HO. unfold window. rewrite length_take. lia. Qed.

(** Word [j] lies in window [j / step], at offset [j mod step]. *)
Lemma window_lookup (j : nat) (w : string) :
  words !! j = Some w ->
  Z.of_nat (Z.to_nat (Z.of_nat j / (W - O)))
  < (Z.of_nat (length words) + (W - O) - 1) / (W - O)
  /\ window words W O (Z.to_nat (Z.of_nat j / (W - O)))
       !! (j - Z.to_nat (Z.of_nat (Z.to_nat (Z.of_nat j / (W - O)))
                         * (W - O)))%nat
     = Some w.
Proof using HO Hlong.
  intros Hj. apply lookup_lt_Some in Hj as Hlt.
  assert (0 < W - O) as Hstep by lia.
  pose proof (Z.div_mod (Z.of_nat j) (W - O)) as Hdm.
  pose proof (Z.mod_pos_bound (Z.of_nat j) (W - O)) as Hmod.
  pose proof (Z.div_pos (Z.of_nat j) (W - O)) as Hq.
  pose proof count_bounds as Hc.
  remember (Z.to_nat (Z.of_nat j / (W - O))) as k eqn:Ek.
  assert (Z.of_nat k = Z.of_nat j / (W - O)) as Hk by lia.
  split; [nia|].
  unfold window. rewrite lookup_take_lt by nia.
  rewrite lookup_drop. rewrite <- Hj. f_equal. nia.
Qed.

(** The last window runs to the end of the text. *)
Lemma last_window :
  window words W O
    (Z.to_nat ((Z.of_nat (length words) + (W - O) - 1) / (W - O) - 1))
  = drop (Z.to_nat
            (((Z.of_nat (length words) + (W - O) - 1) / (W - O) - 1)
             * (W - O)))
         words.
Proof using HO Hlong.
  pose proof count_bounds. pose proof count_pos.
  unfold window. rewrite Z2Nat.id by lia.
  apply take_ge. rewrite length_drop. nia.
Qed.
End Windows.

Lemma window_words (text : string) (W O : Z) (k : nat) :
  Forall is_word (window (split text) W O k).
Proof.
  unfold window. apply Forall_take, Forall_drop, split_words.
Qed.

(** C2.  For [window_size > overlap >= 0]: a text of at most
    [window_size] words comes back as the single chunk [text]; a longer
    one is cut into the windows that start at the multiples of
    [window_size - overlap] below the word count.  Chunk [k] is the join
    of at most [window_size] words from position [k * step] on, every
    word of the text is found again in a chunk at its own offset, and
    the last chunk holds all the words from its start to the end of the
    text. *)
Theorem simple_token_split_contract (text : string) (W O : Z) :
  0 <= O < W ->
  let words := split text in
  let n := Z.of_nat (length words) in
  let step := W - O in
  (n <= W -> simple_token_split text W O = Ok [text])
  /\ (W < n ->
      exists chunks : list string,
        simple_token_split text W O = Ok chunks
        /\ Z.of_nat (length chunks) = (n + step - 1) / step
        /\ (forall (k : nat) (c : string),
              chunks !! k = Some c ->
              c = join " " (slice words (Z.of_nat k * step)
                                        (Z.of_nat k * step + W))
              /\ split c = take (Z.to_nat W)
                             (drop (Z.to_nat (Z.of_nat k * step)) words)
              /\ Z.of_nat (length (split c)) <= W)
        /\ (forall (j : nat) (w : string),
              words !! j = Some w ->
              exists (k : nat) (c : string),
                chunks !! k = Some c
                /\ split c !! (j - Z.to_nat (Z.of_nat k * step))%nat
                   = Some w)
        /\ (exists c : string,
              last chunks = Some c
              /\ split c
                 = drop (Z.to_nat ((Z.of_nat (length chunks) - 1) * step))
                        words)).
Proof.
  intros HO words n step. split.
  - intros Hn. unfold simple_token_split. fold words.
    by destruct (Z.leb_spec (Z.of_nat (length words)) W); [|lia].
  - intros Hn.
    set (m := (n + step - 1) / step).
    set (f := fun i : Z => join " " (slice words i (i + W))).
    set (starts := map (fun k : nat => Z.of_nat k * step)
                       (seq 0 (Z.to_nat m))).
    assert (0 < m) as Hm by apply (count_pos words W O HO Hn).
    assert (simple_token_split text W O = Ok (map f starts)) as Hrun.
    { unfold simple_token_split. fold words.
      destruct (Z.leb_spec (Z.of_nat (length words)) W); [lia|].
      rewrite range0_pos by lia. done. }
    assert (forall k c, map f starts !! k = Some c ->
              Z.of_nat k < m /\ c = f (Z.of_nat k * step)) as Hget.
    { intros k c Hk. unfold starts in Hk.
      rewrite !list_lookup_fmap in Hk.
      destruct (seq 0 (Z.to_nat m) !! k) as [k'|] eqn:Hseq; [|done].
      apply lookup_seq in Hseq as [-> Hlt]. simpl in Hk.
      split; [lia | congruence]. }
    assert (forall k : nat, Z.of_nat k < m ->
              map f starts !! k = Some (f (Z.of_nat k * step))) as Hput.
    { intros k Hk. unfold starts. rewrite !list_lookup_fmap.
      rewrite lookup_seq_lt by lia. done. }
    assert (forall k : nat, Z.of_nat k < m ->
              split (f (Z.of_nat k * step)) = window words W O k) as Hsplit.
    { intros k Hk. unfold f, step.
      rewrite (window_slice words W O HO Hn k Hk).
      apply split_join, window_words. }
    exists (map f starts). split; [done|].
    assert (Z.of_nat (length (map f starts)) = m) as Hlen.
    { unfold starts. rewrite !length_map, length_seq. lia. }
    split; [done|]. split; [|split].
    + intros k c Hk. apply Hget in Hk as [Hk ->].
      split; [done|]. rewrite Hsplit by done.
      split; [done | apply window_length; done].
    + intros j w Hj.
      destruct (window_lookup words W O HO Hn j w Hj) as [Hk Hw].
      eexists _, _. split; [by apply Hput|].
      rewrite Hsplit by done. exact Hw.
    + exists (f (Z.of_nat (Z.to_nat (m - 1)) * step)). split.
      * rewrite last_lookup.
        replace (pred (length (map f starts))) with (Z.to_nat (m - 1))
          by lia.
        apply Hput. lia.
      * rewrite Hsplit by lia. rewrite Hlen.
        apply (last_window words W O HO Hn).
Qed.

(** Seven words, windows of three, overlap one. *)
Lemma simple_token_split_contract_witness :
  0 <= 1 < 3
  /\ simple_token_split "a b c d e f g" 3 1
     = Ok ["a b c"; "c d e"; "e f g"; "g"]
  /\ exists chunks : list string,
       simple_token_split "a b c d e f g" 3 1 = Ok chunks
       /\ Z.of_nat (length chunks) = 4.
Proof.
  split; [lia|]. split; [reflexivity|].
  destruct (simple_token_split_contract "a b c d e f g" 3 1 ltac:(lia))
    as [_ Hlong].
  destruct Hlong as (chunks & Hrun & Hlen & _); [vm_compute; reflexivity|].
  exists chunks. split; [exact Hrun | exact Hlen].
Defined.

End ChunkerSpec.

(** ** Rounding to four decimals *)

Module RoundFacts.
Import Grounding.
Local Open Scope Q_scope.

Lemma round_half_even_near (x : Q) :
  (Qfloor x <= round_half_even x <= Qfloor x + 1)%Z.
Proof.
  unfold round_half_even.
  destruct (x - inject_Z (Qfloor x) ?= 1 # 2); [|lia..].
  destruct (Z.even (Qfloor x)); lia.
Qed.

Lemma round_half_even_Z (x : Q) (z : Z) :
  x == inject_Z z -> round_half_even x = z.
Proof.
  intros Hx. unfold round_half_even.
  assert (Qfloor x = z) as ->.
  { rewrite <- (Qfloor_Z z). apply Z.le_antisymm;
      apply Qfloor_resp_le; rewrite Hx; apply Qle_refl. }
  assert ((x - inject_Z z ?= 1 # 2) = Lt) as ->; [|done].
  assert (x - inject_Z z == 0) as -> by (rewrite Hx; ring).
  reflexivity.
Qed.

Lemma round_half_even_range (x : Q) :
  0 <= x <= 10000 -> (0 <= round_half_even x <= 10000)%Z.
Proof.
  intros [H0 H1].
  pose proof (round_half_even_near x) as Hnear.
  pose proof (Qfloor_resp_le _ _ H0) as Hf0.
  pose proof (Qfloor_resp_le _ _ H1) as Hf1.
  change (Qfloor 0) with 0%Z in Hf0.
  change (Qfloor 10000) with 10000%Z in Hf1.
  destruct (Z.eq_dec (Qfloor x) 10000%Z) as [Heq|Hne]; [|lia].
  rewrite (round_half_even_Z x 10000%Z); [lia|].
  apply Qle_antisym; [exact H1|].
  rewrite <- Heq. apply Qfloor_le.
Qed.

Lemma decimal4_range (x : Q) : 0 <= x <= 1 -> 0 <= decimal4 x <= 1.
Proof.
  intros [H0 H1]. unfold decimal4.
  assert (0 <= x * 10000 <= 10000) as Hx.
  { split.
    - apply Qmult_le_0_compat; [done | by vm_compute].
    - rewrite <- (Qmult_1_l 10000) at 2.
      apply Qmult_le_compat_r; [done | by vm_compute]. }
  apply round_half_even_range in Hx.
  unfold Qle; simpl. lia.
Qed.

Lemma decimal4_0 (x : Q) : x == 0 -> decimal4 x = 0 # 10000.
Proof.
  intros Hx. unfold decimal4.
  rewrite (round_half_even_Z _ 0%Z); [done|]. by rewrite Hx.
Qed.

Lemma decimal4_1 (x : Q) : x == 1 -> decimal4 x = 10000 # 10000.
Proof.
  intros Hx. unfold decimal4.
  rewrite (round_half_even_Z _ 10000%Z); [done|]. by rewrite Hx.
Qed.

Lemma ratio_range (i u : Z) :
  (0 <= i <= u)%Z -> (0 < u)%Z -> 0 <= inject_Z i / inject_Z u <= 1.
Proof.
  intros Hi Hu.
  assert (0 < inject_Z u) as Hu' by (unfold Qlt; simpl; lia).
  split.
  - apply Qle_shift_div_l; [done|]. unfold Qle; simpl; lia.
  - apply Qle_shift_div_r; [done|]. unfold Qle; simpl; lia.
Qed.

Lemma ratio_same (u : Z) : (0 < u)%Z -> inject_Z u / inject_Z u == 1.
Proof.
  intros Hu. apply Qmult_inv_r. unfold Qeq; simpl; lia.
Qed.

Lemma ratio_zero (u : Z) : inject_Z 0 / inject_Z u == 0.
Proof. unfold Qdiv. apply Qmult_0_l. Qed.

Lemma round_half_even_bound (y : Q) (N : Z) :
  0 <= y <= inject_Z N -> (0 <= round_half_even y <= N)%Z.
Proof.
  intros [H0 H1].
  pose proof (round_half_even_near y) as Hnear.
  pose proof (Qfloor_resp_le _ _ H0) as Hf0.
  pose proof (Qfloor_resp_le _ _ H1) as Hf1.
  change (Qfloor 0) with 0%Z in Hf0. rewrite Qfloor_Z in Hf1.
  destruct (Z.eq_dec (Qfloor y) N) as [Heq|Hne]; [|lia].
  rewrite (round_half_even_Z y N); [lia|].
  apply Qle_antisym; [exact H1|].
  rewrite <- Heq. apply Qfloor_le.
Qed.

Lemma round_half_even_small (y : Q) :
  0 <= y <= 1 # 2 -> round_half_even y = 0%Z.
Proof.
  intros [H0 H1].
  assert (Qfloor y = 0%Z) as Hf.
  { pose proof (Qfloor_resp_le _ _ H0) as Hf0.
    change (Qfloor 0) with 0%Z in Hf0.
    pose proof (Qle_trans _ _ _ (Qfloor_le y) H1) as Hle.
    unfold Qle in Hle. simpl in Hle. lia. }
  unfold round_half_even. rewrite Hf.
  assert (y - inject_Z 0 <= 1 # 2) as Hc.
  { assert (y - inject_Z 0 == y) as -> by ring. exact H1. }
  pose proof (proj1 (Qle_alt _ _) Hc) as Hgt.
  destruct (y - inject_Z 0 ?= 1 # 2) eqn:E;
    [reflexivity | reflexivity | congruence].
Qed.

Lemma scale2_nonneg (x : Q) (e : Z) :
  (0 <= e)%Z -> scale2 x e = x * inject_Z (2 ^ e).
Proof. intros He. unfold scale2. by destruct (Z.leb_spec 0 e); [|lia]. Qed.

Lemma scale2_neg (x : Q) (e : Z) :
  (e < 0)%Z -> scale2 x e = x / inject_Z (2 ^ (- e)).
Proof. intros He. unfold scale2. by destruct (Z.leb_spec 0 e); [lia|]. Qed.

(** Whatever the exponent, rounding a number of [0, 1] at that exponent
    stays in [0, 1]. *)
Lemma scaled_range (x : Q) (e : Z) :
  0 <= x <= 1 ->
  0 <= scale2 (inject_Z (round_half_even (scale2 x e))) (- e) <= 1.
Proof.
  intros [H0 H1].
  destruct (Z.le_gt_cases 0 e) as [He|He].
  - rewrite (scale2_nonneg x e He).
    assert (0 < 2 ^ e)%Z as Hp by (by apply Z.pow_pos_nonneg).
    remember (2 ^ e)%Z as N eqn:EN.
    assert (0 <= x * inject_Z N <= inject_Z N) as Hy.
    { split.
      - apply Qmult_le_0_compat; [done|]. unfold Qle; simpl; lia.
      - rewrite <- (Qmult_1_l (inject_Z N)) at 2.
        apply Qmult_le_compat_r; [done|]. unfold Qle; simpl; lia. }
    apply round_half_even_bound in Hy.
    remember (round_half_even (x * inject_Z N)) as m eqn:Em.
    destruct (Z.eq_dec e 0%Z) as [->|Hne].
    + simpl in EN. subst N. rewrite scale2_nonneg by done.
      simpl. unfold Qle; simpl. lia.
    + rewrite scale2_neg by lia.
      rewrite Z.opp_involutive, <- EN. by apply ratio_range.
  - rewrite (scale2_neg x e He).
    assert (2 <= 2 ^ (- e))%Z as Hp.
    { change 2%Z with (2 ^ 1)%Z at 1. apply Z.pow_le_mono_r; lia. }
    remember (2 ^ (- e))%Z as M eqn:EM.
    assert (0 < inject_Z M) as HM by (unfold Qlt; simpl; lia).
    rewrite (round_half_even_small (x / inject_Z M)).
    + rewrite scale2_nonneg by lia. unfold Qle; simpl. lia.
    + split.
      * apply Qle_shift_div_l; [done|]. by rewrite Qmult_0_l.
      * apply Qle_shift_div_r; [done|].
        apply (Qle_trans _ 1); [done|]. unfold Qle; simpl. lia.
Qed.

Lemma to_double_0 (x : Q) : x == 0 -> to_double x = 0.
Proof.
  intros Hx. unfold to_double.
  assert (Qnum x = 0%Z) as -> by (unfold Qeq in Hx; simpl in Hx; lia).
  reflexivity.
Qed.

Lemma to_double_1 (x : Q) : x == 1 -> to_double x == 1.
Proof.
  intros Hx.
  assert (Qnum x = Zpos (Qden x)) as Hn
    by (unfold Qeq in Hx; simpl in Hx; lia).
  unfold to_double. rewrite Hn.
  destruct (Z.eqb_spec (Zpos (Qden x)) 0); [lia|].
  destruct (Z.ltb_spec (Zpos (Qden x)) 0); [lia|].
  unfold nearest_float.
  assert (ilog2 x = 0%Z) as ->.
  { unfold ilog2. rewrite Hn, Z.sub_diag. simpl Z.max. simpl Z.pow.
    by rewrite Z.ltb_irrefl. }
  rewrite (round_half_even_Z _ (2 ^ 52)%Z); [by vm_compute|].
  rewrite scale2_nonneg by done. rewrite Hx. apply Qmult_1_l.
Qed.

Lemma to_double_range (x : Q) : 0 <= x <= 1 -> 0 <= to_double x <= 1.
Proof.
  intros Hx. unfold to_double.
  destruct (Z.eqb_spec (Qnum x) 0); [done|].
  destruct (Z.ltb_spec (Qnum x) 0) as [Hneg|_].
  { destruct Hx as [H0 _]. unfold Qle in H0. simpl in H0. lia. }
  by apply scaled_range.
Qed.

Lemma round4_range (x : Q) : 0 <= x <= 1 -> 0 <= round4 x <= 1.
Proof.
  intros Hx. unfold round4. rewrite Qred_correct.
  by apply to_double_range, decimal4_range.
Qed.

Lemma round4_0 (x : Q) : x == 0 -> round4 x = 0.
Proof. intros Hx. unfold round4. by rewrite (decimal4_0 x Hx). Qed.

Lemma round4_1 (x : Q) : x == 1 -> round4 x = 1.
Proof.
  intros Hx. unfold round4. rewrite (decimal4_1 x Hx).
  change 1 with (Qred 1). apply Qred_complete. by apply to_double_1.
Qed.

(** The score: the quotient made a float, then rounded. *)
Lemma score_0 (x : Q) : x == 0 -> round4 (to_double x) = 0.
Proof. intros Hx. rewrite (to_double_0 x Hx). by apply round4_0. Qed.

Lemma score_1 (x : Q) : x == 1 -> round4 (to_double x) = 1.
Proof. intros Hx. by apply round4_1, to_double_1. Qed.

Lemma score_range (x : Q) :
  0 <= x <= 1 -> 0 <= round4 (to_double x) <= 1.
Proof. intros Hx. by apply round4_range, to_double_range. Qed.

(** The float is not the quotient: 1/160 as a float lies above the
    tie and rounds up to 0.0063, where the quotient itself is the tie
    62.5 and would go down; 1/32 is a float and a tie, and goes to the
    even 0.0312.  The result is the float nearest to the decimal. *)
Lemma score_ties :
  decimal4 (to_double (1 # 160)) = 63 # 10000
  /\ round_half_even ((1 # 160) * 10000) = 62%Z
  /\ decimal4 (to_double (1 # 32)) = 312 # 10000
  /\ decimal4 (to_double (1 # 3)) = 3333 # 10000
  /\ round4 (to_double (1 # 160)) = Qred (to_double (63 # 10000))
  /\ round4 (to_double (1 # 160)) = 226981421219473 # 36028797018963968.
Proof. repeat split; vm_compute; reflexivity. Qed.

End RoundFacts.

(** ** The grounding verifier *)

Module GroundingSpec.
Import Grounding RoundFacts.

Lemma tokenize_empty : _tokenize "" = ∅.
Proof. reflexivity. Qed.

(** The score once both guards are passed. *)
Lemma check_grounding_score (query : string) (ctx : list string)
    (a : string) (c r : gset string) :
  ctx <> [] -> a <> "" ->
  c = _tokenize (Py.join " " ctx) -> r = _tokenize a ->
  size (c ∪ r) <> 0%nat ->
  check_grounding query ctx a
  = Ok (round4 (to_double (inject_Z (Z.of_nat (size (c ∩ r)))
                           / inject_Z (Z.of_nat (size (c ∪ r)))))).
Proof.
  intros Hctx Ha -> -> Hu. unfold check_grounding.
  rewrite (bool_decide_eq_false_2 _ Hctx), (bool_decide_eq_false_2 _ Ha).
  simpl orb. cbv iota.
  rewrite (bool_decide_eq_false_2 _ Hu).
  unfold truediv.
  destruct (Z.eqb_spec
              (Z.of_nat (size (_tokenize (Py.join " " ctx) ∪ _tokenize a)))
              0) as [Hz|Hz]; [|done].
  destruct Hu. by apply Nat2Z.inj.
Qed.

Lemma check_grounding_guard (query : string) (ctx : list string)
    (a : string) :
  ctx = [] \/ a = "" \/ size (_tokenize (Py.join " " ctx) ∪ _tokenize a) = 0%nat ->
  check_grounding query ctx a = Ok 0%Q.
Proof.
  intros H. unfold check_grounding.
  destruct (bool_decide (ctx = [])) eqn:Hc; [done|].
  destruct (bool_decide (a = "")) eqn:Ha; [done|].
  apply bool_decide_eq_false in Hc, Ha.
  destruct H as [?|[?|Hu]]; [done..|].
  simpl orb. cbv iota. by rewrite (bool_decide_eq_true_2 _ Hu).
Qed.

(** Two sides without a common token score 0.0. *)
Lemma check_grounding_no_common (query : string) (ctx : list string)
    (a : string) :
  _tokenize (Py.join " " ctx) ∩ _tokenize a = ∅ ->
  check_grounding query ctx a = Ok 0%Q.
Proof.
  intros Hi.
  remember (_tokenize (Py.join " " ctx)) as c eqn:Ec.
  remember (_tokenize a) as r eqn:Er.
  destruct (decide (ctx = [])) as [Hc|Hc];
    [by apply check_grounding_guard; left|].
  destruct (decide (a = "")) as [Ha|Ha];
    [by apply check_grounding_guard; right; left|].
  destruct (decide (size (c ∪ r) = 0%nat)) as [Hu|Hu];
    [apply check_grounding_guard; right; right; by subst|].
  rewrite (check_grounding_score _ _ _ c r) by done.
  rewrite Hi, size_empty.
  rewrite score_0; [done | apply ratio_zero].
Qed.

(** C3.  With no context, with an empty answer, when neither side
    leaves a token, or when one side leaves none, whatever the other
    holds, the score is 0.0; the division is never reached with a zero
    denominator, so the call returns for all inputs, and what it returns
    lies between 0 and 1. *)
Theorem check_grounding_empty_inputs (query : string)
    (context_list : list string) (response : string) :
  check_grounding query [] response = Ok 0%Q
  /\ check_grounding query context_list "" = Ok 0%Q
  /\ (_tokenize (Py.join " " context_list) ∪ _tokenize response = ∅ ->
      check_grounding query context_list response = Ok 0%Q)
  /\ (_tokenize (Py.join " " context_list) = ∅
      \/ _tokenize response = ∅ ->
      check_grounding query context_list response = Ok 0%Q)
  /\ exists score : Q,
       check_grounding query context_list response = Ok score
       /\ (0 <= score <= 1)%Q.
Proof.
  split; [by apply check_grounding_guard; left|].
  split; [by apply check_grounding_guard; right; left|].
  split.
  { intros Hu. apply check_grounding_guard. right; right.
    rewrite Hu. apply size_empty. }
  split.
  { intros [He|He]; apply check_grounding_no_common; rewrite He.
    - apply (left_absorb_L ∅ (∩)).
    - apply (right_absorb_L ∅ (∩)). }
  destruct (decide (context_list = [])) as [Hc|Hc].
  { exists 0%Q. split; [by apply check_grounding_guard; left | done]. }
  destruct (decide (response = "")) as [Ha|Ha].
  { exists 0%Q. split; [by apply check_grounding_guard; right; left | done]. }
  remember (_tokenize (Py.join " " context_list)) as c eqn:Ec.
  remember (_tokenize response) as r eqn:Er.
  destruct (decide (size (c ∪ r) = 0%nat)) as [Hu|Hu].
  { exists 0%Q.
    split; [apply check_grounding_guard; right; right; by subst | done]. }
  eexists. split; [by apply (check_grounding_score _ _ _ c r)|].
  apply score_range, ratio_range; [|lia].
  assert (size (c ∩ r) <= size (c ∪ r))%nat; [|lia].
  apply subseteq_size. intros x.
  rewrite elem_of_intersection, elem_of_union. tauto.
Qed.

(** A context and an answer made of punctuation only: the union of the
    token sets is empty and the score is 0.0.  A context of punctuation
    against an answer of two words, and two words of context against an
    answer of punctuation: one side is empty and the score is 0.0. *)
Lemma check_grounding_empty_inputs_witness :
  _tokenize (Py.join " " ["?"]) ∪ _tokenize "!" = ∅
  /\ check_grounding "hours" ["?"] "!" = Ok 0%Q
  /\ (_tokenize (Py.join " " ["?"]) = ∅ \/ _tokenize "Open daily" = ∅)
  /\ check_grounding "hours" ["?"] "Open daily" = Ok 0%Q
  /\ (_tokenize (Py.join " " ["Open daily"]) = ∅ \/ _tokenize "?" = ∅)
  /\ check_grounding "hours" ["Open daily"] "?" = Ok 0%Q.
Proof.
  assert (_tokenize (Py.join " " ["?"]) ∪ _tokenize "!" = ∅) as H
    by reflexivity.
  assert (_tokenize (Py.join " " ["?"]) = ∅ \/ _tokenize "Open daily" = ∅)
    as H1 by (left; reflexivity).
  assert (_tokenize (Py.join " " ["Open daily"]) = ∅ \/ _tokenize "?" = ∅)
    as H2 by (right; reflexivity).
  split; [exact H|]. split.
  { exact (proj1 (proj2 (proj2
             (check_grounding_empty_inputs "hours" ["?"] "!"))) H). }
  split; [exact H1|]. split.
  { exact (proj1 (proj2 (proj2 (proj2
             (check_grounding_empty_inputs "hours" ["?"] "Open daily"))))
             H1). }
  split; [exact H2|].
  exact (proj1 (proj2 (proj2 (proj2
           (check_grounding_empty_inputs "hours" ["Open daily"] "?")))) H2).
Defined.

(** C5, as the code has it.  A text that leaves at least one token
    scores 1.0 against itself, and an answer that shares no token with
    the joined context scores 0.0. *)
Theorem self_grounding (query t : string) (context_list : list string)
    (answer : string) :
  (_tokenize t <> ∅ -> check_grounding query [t] t = Ok 1%Q)
  /\ (_tokenize (Py.join " " context_list) ∩ _tokenize answer = ∅ ->
      check_grounding query context_list answer = Ok 0%Q).
Proof.
  split.
  - intros Ht.
    assert (t <> "") as Hne by (intros ->; by apply Ht).
    assert (size (_tokenize t) <> 0%nat) as Hu.
    { intros Hz. apply size_empty_inv in Hz. by apply Ht, leibniz_equiv. }
    rewrite (check_grounding_score _ _ _ (_tokenize t) (_tokenize t));
      [|by rewrite ?(idemp_L (∪))..].
    rewrite (idemp_L (∩)), (idemp_L (∪)).
    f_equal. apply score_1, ratio_same. lia.
  - intros Hi.
    remember (_tokenize (Py.join " " context_list)) as c eqn:Ec.
    remember (_tokenize answer) as r eqn:Er.
    destruct (decide (context_list = [])) as [Hc|Hc];
      [by apply check_grounding_guard; left|].
    destruct (decide (answer = "")) as [Ha|Ha];
      [by apply check_grounding_guard; right; left|].
    destruct (decide (size (c ∪ r) = 0%nat)) as [Hu|Hu];
      [apply check_grounding_guard; right; right; by subst|].
    rewrite (check_grounding_score _ _ _ c r) by done.
    rewrite Hi, size_empty.
    rewrite score_0; [done | apply ratio_zero].
Qed.

Lemma self_grounding_witness :
  _tokenize "Open 9h00 to 22:00." <> ∅
  /\ _tokenize (Py.join " " ["Open daily."]) ∩ _tokenize "No idea" = ∅
  /\ check_grounding "hours" ["Open 9h00 to 22:00."] "Open 9h00 to 22:00."
     = Ok 1%Q
  /\ check_grounding "hours" ["Open daily."] "No idea" = Ok 0%Q.
Proof.
  assert (_tokenize "Open 9h00 to 22:00." <> ∅) as H1
    by (intros H; vm_compute in H; discriminate).
  assert (_tokenize (Py.join " " ["Open daily."]) ∩ _tokenize "No idea" = ∅)
    as H2 by reflexivity.
  split; [exact H1|]. split; [exact H2|]. split.
  - exact (proj1 (self_grounding "hours" "Open 9h00 to 22:00." [] "") H1).
  - exact (proj2 (self_grounding "hours" "" ["Open daily."] "No idea") H2).
Defined.

(** C5 as it is written fails: a text without a letter or digit is not
    empty, leaves no token, and scores 0.0 against itself. *)
Lemma self_grounding_punctuation :
  ~ (forall query t : string,
       t <> "" -> check_grounding query [t] t = Ok 1%Q).
Proof.
  intros H. specialize (H "hours" "?" ltac:(discriminate)).
  vm_compute in H. discriminate.
Qed.

(** Every match of the time pattern gives its typed token, with [h]
    turned into a colon. *)
Lemma time_step_keeps (l : list string) (st : gset string * string)
    (x : string) :
  x ∈ st.1 -> x ∈ (fold_left time_step l st).1.
Proof.
  revert st. induction l as [|t l IH]; intros [tokens txt] Hx; [done|].
  simpl. apply IH. simpl in *. apply elem_of_union. by right.
Qed.

Lemma time_step_adds (l : list string) (st : gset string * string)
    (t : string) :
  t ∈ l -> "time_" +:+ h_to_colon t ∈ (fold_left time_step l st).1.
Proof.
  revert st. induction l as [|t' l IH]; intros [tokens txt] Ht.
  - by apply elem_of_nil in Ht.
  - apply elem_of_cons in Ht as [->|Ht]; simpl.
    + apply time_step_keeps. simpl. apply elem_of_union. left.
      by apply elem_of_singleton.
    + by apply IH.
Qed.

Lemma tokenize_split (text : string) :
  _tokenize text = time_tokens text ∪ plain_tokens (residual text).
Proof.
  unfold _tokenize, time_tokens, residual, plain_tokens.
  by destruct (fold_left time_step _ _).
Qed.

Lemma time_token_in (text t : string) :
  t ∈ findall_times (Py.lower text) ->
  "time_" +:+ h_to_colon t ∈ _tokenize text.
Proof.
  intros Ht. rewrite tokenize_split. apply elem_of_union. left.
  by apply time_step_adds.
Qed.

Lemma h_and_colon_agree (d1 d2 a b : ascii) :
  d1 <> "h"%char -> d2 <> "h"%char -> a <> "h"%char -> b <> "h"%char ->
  h_to_colon (String d1 (String d2 (String "h" (String a (String b "")))))
  = String d1 (String d2 (String ":" (String a (String b "")))).
Proof.
  intros H1 H2 Ha Hb. simpl.
  by rewrite !bool_decide_eq_false_2 by done.
Qed.

(** The example of the specification: both separators give the same
    typed tokens, and the times leave no plain token. *)
Lemma tokenize_example :
  _tokenize "open 9h00 to 22:00"
  = {[ "time_9:00"; "time_22:00"; "open"; "to" ]}
  /\ _tokenize "open 9:00 to 22h00" = _tokenize "open 9h00 to 22:00".
Proof. split; reflexivity. Qed.

(** C4 at the input "open 2:30 to 12:30".  Both times are matched and
    both typed tokens are made, but deleting every occurrence of the
    string "2:30" also cuts it out of the later match "12:30": the text
    left is "open  to 1" where deleting the matched spans leaves
    "open  to ", and the digit 1 of the second time is counted as a
    plain word. *)
Theorem tokenize_time_leftover :
  findall_times (Py.lower "open 2:30 to 12:30") = ["2:30"; "12:30"]
  /\ residual "open 2:30 to 12:30" = "open  to 1"
  /\ residual_spec "open 2:30 to 12:30" = "open  to "
  /\ _tokenize "open 2:30 to 12:30"
     = {[ "time_2:30"; "time_12:30"; "open"; "to"; "1" ]}
  /\ "1" ∈ plain_tokens (residual "open 2:30 to 12:30")
  /\ "1" ∉ plain_tokens (residual_spec "open 2:30 to 12:30").
Proof.
  split; [reflexivity|]. split; [reflexivity|]. split; [reflexivity|].
  split; [reflexivity|]. split.
  - apply (bool_decide_unpack _). by vm_compute.
  - apply (bool_decide_unpack _). by vm_compute.
Qed.

End GroundingSpec.

(** ** The validator *)

Module ValidatorSpec.
Import Py PyFacts Validator.

Lemma count_lstrip (c : ascii) (s : string) :
  isspace c = false -> count_char c (lstrip s) = count_char c s.
Proof.
  intros Hc. induction s as [|a s IH]; [done|]. simpl.
  destruct (isspace a) eqn:Ha; [|done].
  rewrite IH. destruct (decide (a = c)) as [->|]; [congruence | lia].
Qed.

Lemma count_rstrip (c : ascii) (s : string) :
  isspace c = false -> count_char c (rstrip s) = count_char c s.
Proof.
  intros Hc. induction s as [|a s IH]; [done|]. simpl.
  destruct (rstrip s) as [|b r] eqn:Hr.
  - simpl in IH. rewrite <- IH.
    destruct (isspace a) eqn:Ha; simpl; [|lia].
    destruct (decide (a = c)) as [->|]; [congruence | lia].
  - simpl in *. lia.
Qed.

Lemma count_strip (c : ascii) (s : string) :
  isspace c = false -> count_char c (strip s) = count_char c s.
Proof.
  intros Hc. unfold strip. by rewrite count_rstrip, count_lstrip.
Qed.

Lemma split_lstrip (s : string) : split (lstrip s) = split s.
Proof.
  unfold split. induction s as [|a s IH]; [done|]. simpl.
  by destruct (isspace a) eqn:Ha; simpl; [|rewrite Ha].
Qed.

Lemma split_go_rstrip (cur s : string) :
  split_go cur (rstrip s) = split_go cur s.
Proof.
  revert cur. induction s as [|a s IH]; intros cur; [done|]. simpl.
  destruct (rstrip s) as [|b r] eqn:Hr.
  - destruct (isspace a) eqn:Ha; simpl.
    + rewrite <- IH. simpl. by rewrite (right_id_L [] (++)).
    + rewrite Ha, <- IH. done.
  - simpl. destruct (isspace a) eqn:Ha.
    + by rewrite <- IH.
    + by rewrite <- IH.
Qed.

Lemma split_strip (s : string) : split (strip s) = split s.
Proof.
  unfold strip. rewrite <- (split_lstrip s). apply split_go_rstrip.
Qed.

Lemma missing_fields_elem (order : list string) (chunk : pydict)
    (f : string) :
  f ∈ order -> chunk !! f = None ->
  "Missing field: " +:+ f ∈ missing_fields order chunk.
Proof.
  intros Hf Hnone. unfold missing_fields. apply list_elem_of_omap.
  exists f. by rewrite Hnone.
Qed.

Lemma missing_fields_none (order : list string) (chunk : pydict) :
  (forall f, f ∈ order -> is_Some (chunk !! f)) ->
  missing_fields order chunk = [].
Proof.
  intros Hall. unfold missing_fields.
  induction order as [|f order IH]; [done|]. simpl.
  destruct (Hall f) as [v ->]; [by left|]. simpl.
  apply IH. intros g Hg. apply Hall. by right.
Qed.

Lemma check_str_ok (chunk : pydict) (f msg v : string) :
  chunk !! f = Some (JStr v) -> strip v <> "" -> check_str chunk f msg = [].
Proof.
  intros Hf Hv. unfold check_str, not_nonempty_str. rewrite Hf.
  by rewrite bool_decide_eq_false_2.
Qed.

(** What decides whether the sentence check fires, read on the text
    as stored: [strip] removes neither a period nor a word. *)
Lemma not_single_sentence_strip (s : string) :
  not_single_sentence (strip s)
  = (1 <? count_char "." s) || contains newline (strip s)
    || (40 <? Z.of_nat (length (split s))).
Proof.
  unfold not_single_sentence. by rewrite count_strip, split_strip.
Qed.

(** C6, as the code has it.  For a record whose [text] is a string the
    call returns, and every message it returns carries the index.  The
    sentence message is among them when the text has two periods or
    more, or more than 40 words, or a newline that is still there after
    the text is trimmed; a missing required field is reported by name;
    and a record with all required fields, with the four checked fields
    non-empty strings after trimming, and a text of at most one period,
    at most 40 words and no inner newline gets no message at all. *)
Theorem validate_chunk_contract (order : list string) (chunk : pydict)
    (idx : Z) (s : string) :
  order ≡ₚ REQUIRED_FIELDS ->
  chunk !! "text" = Some (JStr s) ->
  exists errs : list string,
    validate_chunk order chunk idx = Ok (map (tag idx) errs)
    /\ (1 < count_char "." s -> sentence_msg ∈ errs)
    /\ (40 < Z.of_nat (length (split s)) -> sentence_msg ∈ errs)
    /\ (contains newline (strip s) = true -> sentence_msg ∈ errs)
    /\ (forall f : string,
          f ∈ REQUIRED_FIELDS -> chunk !! f = None ->
          "Missing field: " +:+ f ∈ errs)
    /\ ((forall f : string, f ∈ REQUIRED_FIELDS -> is_Some (chunk !! f)) ->
        (forall f : string,
           f ∈ ["entity"; "attribute"; "value"; "text"] ->
           exists v : string,
             chunk !! f = Some (JStr v) /\ strip v <> "") ->
        count_char "." s <= 1 ->
        contains newline (strip s) = false ->
        Z.of_nat (length (split s)) <= 40 ->
        errs = []).
Proof.
  intros Horder Htext. eexists. split.
  { unfold validate_chunk, text_stripped, getitem. rewrite Htext.
    simpl. reflexivity. }
  rewrite not_single_sentence_strip.
  split; [|split; [|split; [|split]]].
  - intros Hp. rewrite !elem_of_app. repeat right.
    destruct (Z.ltb_spec 1 (count_char "." s)); [|lia].
    simpl. by left.
  - intros Hw. rewrite !elem_of_app. repeat right.
    destruct (Z.ltb_spec 40 (Z.of_nat (length (split s)))); [|lia].
    rewrite !orb_true_r. by left.
  - intros Hn. rewrite !elem_of_app. repeat right.
    rewrite Hn, orb_true_r. simpl. by left.
  - intros f Hf Hnone. rewrite !elem_of_app. left; left.
    apply missing_fields_elem; [|done]. by rewrite Horder.
  - intros Hall Hstr Hp Hn Hw.
    rewrite missing_fields_none
      by (intros f Hf; apply Hall; by rewrite <- Horder).
    destruct (Hstr "entity") as (v1 & H1 & N1); [set_solver|].
    destruct (Hstr "attribute") as (v2 & H2 & N2); [set_solver|].
    destruct (Hstr "value") as (v3 & H3 & N3); [set_solver|].
    destruct (Hstr "text") as (v4 & H4 & N4); [set_solver|].
    rewrite (check_str_ok _ _ _ _ H1 N1), (check_str_ok _ _ _ _ H2 N2),
      (check_str_ok _ _ _ _ H3 N3), (check_str_ok _ _ _ _ H4 N4).
    rewrite Hn.
    destruct (Z.ltb_spec 1 (count_char "." s)); [lia|].
    by destruct (Z.ltb_spec 40 (Z.of_nat (length (split s)))); [lia|].
Qed.

Lemma validate_chunk_contract_witness :
  REQUIRED_FIELDS ≡ₚ REQUIRED_FIELDS
  /\ Samples.atomic_fact Samples.hours_text !! "text"
     = Some (JStr Samples.hours_text)
  /\ validate_chunk REQUIRED_FIELDS
       (Samples.atomic_fact Samples.hours_text) 1 = Ok []
  /\ exists errs : list string,
       validate_chunk REQUIRED_FIELDS
         (Samples.atomic_fact Samples.hours_text) 1
       = Ok (map (tag 1) errs).
Proof.
  assert (Samples.atomic_fact Samples.hours_text !! "text"
          = Some (JStr Samples.hours_text)) as Htext by reflexivity.
  split; [reflexivity|]. split; [exact Htext|].
  split; [vm_compute; reflexivity|].
  destruct (validate_chunk_contract REQUIRED_FIELDS
              (Samples.atomic_fact Samples.hours_text) 1
              Samples.hours_text (reflexivity _) Htext)
    as (errs & Hrun & _).
  exists errs. exact Hrun.
Defined.

(** C6 as it is written fails: the text below contains a newline, the
    record has every required field, and no violation is returned,
    because the newline is looked for after the text is trimmed. *)
Lemma validate_trailing_newline :
  contains newline Samples.text_with_newline = true
  /\ validate_chunk REQUIRED_FIELDS
       (Samples.atomic_fact Samples.text_with_newline) 7 = Ok [].
Proof. split; vm_compute; reflexivity. Qed.

(** Without a [text] field the call does not return a list: the
    missing fields are collected, then [chunk["text"]] raises. *)
Lemma validate_missing_text_raises :
  validate_chunk REQUIRED_FIELDS ∅ 1 = Raise (KeyError "text")
  /\ validate_chunk REQUIRED_FIELDS {[ "text" := JNull ]} 1
     = Raise AttributeError.
Proof. split; reflexivity. Qed.

Lemma validate_flags_example :
  validate_chunk REQUIRED_FIELDS
    (delete "entity" (Samples.atomic_fact "One. Two.")) 3
  = Ok [ "[Chunk 3] Missing field: entity";
         "[Chunk 3] Entity must be a non-empty string";
         "[Chunk 3] Text should be a single factual sentence (not a paragraph or list)" ].
Proof. vm_compute. reflexivity. Qed.

End ValidatorSpec.

(** ** The atomic fact extractor *)

Module ExtractorSpec.
Import Py PyFacts Extractor.

Lemma search_unfold (lit s : string) :
  search lit s
  = match match_at lit s with
    | Some g => Some g
    | None => match s with
              | "" => None
              | String _ s' => search lit s'
              end
    end.
Proof. by destruct s. Qed.

(** The leftmost match wins: when the pattern matches nowhere in front
    of [rest], [search] returns the group read at [rest]. *)
Lemma search_first (lit pre rest g : string) :
  (forall k : nat,
     (k < String.length pre)%nat ->
     match_at lit (sdrop k (pre +:+ rest)) = None) ->
  match_at lit rest = Some g ->
  search lit (pre +:+ rest) = Some g.
Proof.
  induction pre as [|c pre IH]; intros Hnone Hhere.
  - rewrite app_nil_l, search_unfold. by rewrite Hhere.
  - rewrite search_unfold.
    pose proof (Hnone 0%nat ltac:(simpl; lia)) as H0.
    change (sdrop 0 (String c pre +:+ rest))
      with (String c pre +:+ rest) in H0.
    rewrite H0, app_cons. apply IH; [|done].
    intros k Hk. apply (Hnone (S k)). simpl. lia.
Qed.

Lemma magic_kingdom_here (post : string) :
  match_at "Magic Kingdom: "
           ("Magic Kingdom: 9:00 AM - 10:00 PM, " +:+ post)
  = Some "9:00 AM - 10:00 PM".
Proof. reflexivity. Qed.

(** C7, as the code has it.  For a document recognised as the hours
    document, when the normalised text holds the line
    "Magic Kingdom: 9:00 AM - 10:00 PM, " and the Magic Kingdom pattern
    matches nowhere before it, the first fact extracted is the Magic
    Kingdom fact with attribute operating_hours and value
    "9:00 AM - 10:00 PM". *)
Theorem magic_kingdom_hours (text source_doc pre post : string) :
  is_hours_doc source_doc = true ->
  normalize text = pre +:+ "Magic Kingdom: 9:00 AM - 10:00 PM, " +:+ post ->
  (forall k : nat,
     (k < String.length pre)%nat ->
     match_at "Magic Kingdom: " (sdrop k (normalize text)) = None) ->
  exists others : list fact,
    extract_atomic_facts text source_doc
    = {| entity := "Magic Kingdom";
         attribute := "operating_hours";
         value := "9:00 AM - 10:00 PM";
         source_document := source_doc;
         year_or_season := "December 2025";
         text := "Magic Kingdom operating hours during December 2025: 9:00 AM - 10:00 PM." |}
      :: others.
Proof.
  intros Hdoc Hnorm Hnone. unfold extract_atomic_facts. rewrite Hdoc.
  assert (search "Magic Kingdom: " (normalize text)
          = Some "9:00 AM - 10:00 PM") as Hs.
  { rewrite Hnorm. apply search_first; [|apply magic_kingdom_here].
    intros k Hk. rewrite <- Hnorm. by apply Hnone. }
  unfold rule_facts, park_rules.
  cbn [omap list_omap]. rewrite Hs. cbn [mbind option_bind].
  eexists. reflexivity.
Qed.

Lemma magic_kingdom_hours_witness :
  is_hours_doc Samples.hours_doc = true
  /\ normalize Samples.hours_page
     = "Park hours. " +:+ "Magic Kingdom: 9:00 AM - 10:00 PM, "
       +:+ "EPCOT: 9:00 AM - 9:00 PM,"
  /\ exists others : list fact,
       extract_atomic_facts Samples.hours_page Samples.hours_doc
       = hours_fact Samples.hours_doc "Magic Kingdom" "9:00 AM - 10:00 PM"
         :: others.
Proof.
  split; [reflexivity|]. split; [reflexivity|].
  apply (magic_kingdom_hours Samples.hours_page Samples.hours_doc
           "Park hours. " "EPCOT: 9:00 AM - 9:00 PM,");
    [reflexivity | reflexivity |].
  intros k Hk.
  do 12 (destruct k as [|k]; [reflexivity|]).
  simpl in Hk. lia.
Defined.

(** C7 as it is written fails: the normalised text holds the line, but
    the pattern first matches the remark in front of it, and the only
    Magic Kingdom fact has the remark as its value. *)
Lemma magic_kingdom_first_match :
  is_hours_doc Samples.hours_doc = true
  /\ contains "Magic Kingdom: 9:00 AM - 10:00 PM, "
              (normalize Samples.hours_page_remark) = true
  /\ extract_atomic_facts Samples.hours_page_remark Samples.hours_doc
     = [ hours_fact Samples.hours_doc "Magic Kingdom" "hours vary";
         hours_fact Samples.hours_doc "EPCOT" "9:00 AM - 9:00 PM" ].
Proof. repeat split; vm_compute; reflexivity. Qed.

Lemma keep_spec (sent : string) :
  keep sent = true
  <-> 20 < len sent < 120
      /\ exists kw : string,
           kw ∈ keywords /\ contains kw (lower sent) = true.
Proof.
  unfold keep, has_keyword.
  rewrite !andb_true_iff, existsb_exists, Z.ltb_lt, Z.ltb_lt.
  setoid_rewrite <- list_elem_of_In. tauto.
Qed.

(** C8, as the code has it.  For a source that is not the hours
    document the facts are, in order, the sentences of the normalised
    text that are longer than 20 and shorter than 120 characters and
    hold a keyword in lower case, each with entity "unknown"; nothing
    else is emitted. *)
Theorem generic_extraction_filter (text source_doc : string) :
  is_hours_doc source_doc = false ->
  extract_atomic_facts text source_doc
  = map (generic_fact source_doc)
        (filter (fun sent => keep sent = true)
                (sentences (normalize text)))
  /\ forall f : fact,
       f ∈ extract_atomic_facts text source_doc
       <-> exists sent : string,
             sent ∈ sentences (normalize text)
             /\ 20 < len sent < 120
             /\ (exists kw : string,
                   kw ∈ keywords /\ contains kw (lower sent) = true)
             /\ f = {| entity := "unknown";
                       attribute := "generic_factual";
                       value := sent;
                       source_document := source_doc;
                       year_or_season := "unknown";
                       text := sent |}.
Proof.
  intros Hdoc. unfold extract_atomic_facts. rewrite Hdoc.
  split; [done|]. intros f.
  rewrite list_elem_of_fmap. split.
  - intros (sent & -> & Hin). apply list_elem_of_filter in Hin as [Hk Hin].
    apply keep_spec in Hk as [Hlen Hkw]. by exists sent.
  - intros (sent & Hin & Hlen & Hkw & ->). exists sent. split; [done|].
    apply list_elem_of_filter. split; [|done]. by apply keep_spec.
Qed.

Lemma generic_extraction_filter_witness :
  is_hours_doc "Happiest-Handbook.pdf" = false
  /\ extract_atomic_facts
       "Hi!  The park opens at nine every day.  Bring water." 
       "Happiest-Handbook.pdf"
     = [ generic_fact "Happiest-Handbook.pdf"
           "The park opens at nine every day." ].
Proof.
  split; [reflexivity|].
  rewrite (proj1 (generic_extraction_filter
                    "Hi!  The park opens at nine every day.  Bring water."
                    "Happiest-Handbook.pdf" (reflexivity _))).
  vm_compute. reflexivity.
Defined.

(** C8 as it is written fails at the lower bound: a sentence of exactly
    20 characters with a keyword is not emitted. *)
Lemma generic_twenty_dropped :
  is_hours_doc "Happiest-Handbook.pdf" = false
  /\ sentences (normalize Samples.twenty) = [Samples.twenty]
  /\ len Samples.twenty = 20
  /\ has_keyword Samples.twenty = true
  /\ extract_atomic_facts Samples.twenty "Happiest-Handbook.pdf" = [].
Proof. repeat split; vm_compute; reflexivity. Qed.

End ExtractorSpec.

(** ** The vector index *)

Module FaissSpec.
Import Faiss.

Section Index.
Context {vec D : Type}.
Variable dist : vec -> vec -> D.
Variable le : D -> D -> bool.

Lemma insert_hit_elem (x y : D * Z) (l : list (D * Z)) :
  y ∈ insert_hit le x l <-> y = x \/ y ∈ l.
Proof.
  induction l as [|z l IH]; simpl.
  - rewrite list_elem_of_singleton, elem_of_nil. tauto.
  - destruct (le x.1 z.1).
    + by rewrite elem_of_cons.
    + rewrite !elem_of_cons, IH. tauto.
Qed.

Lemma sort_hits_elem (y : D * Z) (l : list (D * Z)) :
  y ∈ sort_hits le l <-> y ∈ l.
Proof.
  induction l as [|x l IH]; simpl; [done|].
  by rewrite insert_hit_elem, IH, elem_of_cons.
Qed.

Lemma sort_hits_length (l : list (D * Z)) :
  length (sort_hits le l) = length l.
Proof.
  induction l as [|x l IH]; simpl; [done|]. rewrite <- IH.
  generalize (sort_hits le l). intros s.
  induction s as [|z s IHs]; simpl; [done|].
  destruct (le x.1 z.1); simpl; [done | by rewrite IHs].
Qed.

Lemma hits_ids (index : list vec) (q : vec) (sc : D) (id : Z) :
  (sc, id) ∈ hits dist le index q -> 0 <= id < ntotal index.
Proof.
  unfold hits. rewrite sort_hits_elem. intros Hin.
  apply list_elem_of_lookup in Hin as [i Hi].
  rewrite list_lookup_imap in Hi.
  destruct (index !! i) as [v|] eqn:Hv; [|done].
  apply lookup_lt_Some in Hv. simpl in Hi. injection Hi as _ <-.
  unfold ntotal. lia.
Qed.

(** Every id a search returns is the sentinel or the position of a
    vector of the index, and the answer has [k] entries. *)
Lemma search_ids (index : list vec) (q : vec) (k : Z)
    (found : list (option D * Z)) :
  search dist le index q k = Ok found ->
  length found = Z.to_nat k
  /\ forall (sc : option D) (id : Z),
       (sc, id) ∈ found -> id = -1 \/ 0 <= id < ntotal index.
Proof.
  unfold search. destruct (k <=? 0); [done|]. intros [= <-]. split.
  - rewrite length_app, length_map, length_replicate, length_take. lia.
  - intros sc id Hin. apply elem_of_app in Hin as [Hin|Hin].
    + apply list_elem_of_fmap in Hin as ([d i] & [= -> ->] & Hin).
      right. apply (hits_ids index q d).
      by apply (subseteq_take (Z.to_nat k)).
    + apply elem_of_replicate in Hin as [[= -> ->] _]. by left.
Qed.
End Index.
End FaissSpec.

(** ** Layer builds and layer retrieval *)

Module LayersSpec.
Import Layers.

Lemma traverse_Forall2 {A B} (f : A -> result B) (l : list A)
    (bs : list B) :
  traverse f l = Ok bs <-> Forall2 (fun a b => f a = Ok b) l bs.
Proof.
  revert bs. induction l as [|a l IH]; intros bs; simpl.
  - split; [intros [= <-]; constructor | by inversion 1].
  - destruct (f a) as [b|e] eqn:Hf; simpl.
    + destruct (traverse f l) as [bs'|e] eqn:Ht; simpl.
      * split; [intros [= <-]; constructor; [done | by apply IH]|].
        inversion 1 as [|? b' ? bs'' Hb Hrest]; subst.
        apply IH in Hrest. congruence.
      * split; [done|].
        inversion 1 as [|? b' ? bs'' Hb Hrest]; subst.
        apply IH in Hrest. congruence.
    + split; [done|]. inversion 1; congruence.
Qed.


Section Store.
Context {vec D : Type}.
Variable embed : string -> vec.
Variable dist : vec -> vec -> D.
Variable le : D -> D -> bool.

Lemma aligned_entries (entries : list (json * vec)) :
  Forall (entry_ok embed) entries ->
  aligned embed (map fst entries) (map snd entries).
Proof.
  intros Hall. split; [by rewrite !length_map|].
  intros i r Hi. rewrite list_lookup_fmap in Hi.
  destruct (entries !! i) as [[r' v]|] eqn:He; [|done].
  simpl in Hi. injection Hi as ->.
  rewrite Forall_lookup in Hall.
  destruct (Hall i _ He) as (t & Ht & Hv). simpl in *.
  exists t. split; [done|]. by rewrite list_lookup_fmap, He, <- Hv.
Qed.

Lemma zip_encode (chunks : list string) :
  Forall (fun p : string * vec => p.2 = embed p.1)
         (zip chunks (encode embed chunks)).
Proof. induction chunks; simpl; constructor; done. Qed.

Lemma chunk_record_text (file_name : json) (i : nat) (chunk : string) :
  subscript (chunk_record file_name i chunk) "text" = Ok (JStr chunk).
Proof. reflexivity. Qed.

Lemma imap_entries (file_name : json) (pairs : list (string * vec)) :
  Forall (fun p : string * vec => p.2 = embed p.1) pairs ->
  Forall (entry_ok embed)
    (imap (fun i '(chunk, emb) => (chunk_record file_name i chunk, emb))
          pairs).
Proof.
  intros Hz. apply Forall_lookup. intros k [r v] Hk.
  rewrite list_lookup_imap in Hk.
  destruct (pairs !! k) as [[c emb]|] eqn:Hp; [|done].
  simpl in Hk. injection Hk as <- <-.
  rewrite Forall_lookup in Hz. specialize (Hz k _ Hp). simpl in Hz.
  exists c. split; [apply chunk_record_text | done].
Qed.

Lemma doc_entries_ok (doc : json) (es : list (json * vec)) :
  doc_entries embed doc = Ok es -> Forall (entry_ok embed) es.
Proof.
  unfold doc_entries.
  destruct (subscript doc "content") as [content|]; [|done]. simpl.
  destruct content as [| | | |s| |]; try done. simpl.
  destruct (Chunker.simple_token_split _ _ _) as [chunks|]; [|done].
  simpl. pose proof (zip_encode chunks) as Hz.
  destruct (zip chunks (encode embed chunks)) as [|p pairs] eqn:Hzip.
  { intros [= <-]. constructor. }
  destruct (subscript doc "file_name") as [fn|]; [|done].
  intros [= <-]. exact (imap_entries fn (p :: pairs) Hz).
Qed.

Lemma all_entries_ok (docs : list json)
    (per_doc : list (list (json * vec))) :
  traverse (doc_entries embed) docs = Ok per_doc ->
  Forall (entry_ok embed) (concat per_doc).
Proof.
  intros Ht. apply Forall_concat. apply traverse_Forall2 in Ht.
  induction Ht as [|doc es docs' per' Hdoc _ IH]; [constructor|].
  constructor; [exact (doc_entries_ok doc es Hdoc) | done].
Qed.

Lemma embed_and_save_layer_aligned (docs : list json)
    (layer_name output_dir : string) (d d' : disk) :
  embed_and_save_layer embed docs layer_name output_dir d = (d', Ok tt) ->
  exists (meta : list json) (index : list vec),
    on_disk d' (meta_path output_dir layer_name)
            (index_path output_dir layer_name) meta index
    /\ aligned embed meta index.
Proof.
  unfold embed_and_save_layer.
  destruct (traverse (doc_entries embed) docs) as [per_doc|] eqn:Ht;
    [|intros [= _ ?]; done].
  destruct (shape1 _); [|intros [= _ ?]; done].
  intros [= <-].
  exists (map fst (concat per_doc)), (map snd (concat per_doc)).
  split.
  - split; simpl; apply lookup_insert_eq.
  - by apply aligned_entries, (all_entries_ok docs).
Qed.

Lemma rebuild_atomic_core_aligned (d d' : disk) :
  rebuild_atomic_core embed d = (d', Ok tt) ->
  exists (meta : list json) (index : list vec),
    on_disk d' CORE_META CORE_INDEX meta index
    /\ aligned embed meta index.
Proof.
  unfold rebuild_atomic_core.
  destruct (load_atomic_facts d) as [facts|]; [|intros [= _ ?]; done].
  destruct (traverse _ facts) as [raw|] eqn:Hraw;
    [|intros [= _ ?]; done].
  destruct (traverse as_str raw) as [texts|] eqn:Htexts;
    [|intros [= _ ?]; done].
  destruct (shape1 _); [|intros [= _ ?]; done].
  intros [= <-]. exists facts, (encode embed texts). split.
  - split; simpl; apply lookup_insert_eq.
  - apply traverse_Forall2 in Hraw, Htexts.
    split.
    + unfold encode. rewrite length_map.
      apply Forall2_length in Hraw, Htexts. congruence.
    + intros i r Hi.
      destruct (Forall2_lookup_l _ _ _ _ _ Hraw Hi) as (v & Hv & Hsub).
      destruct (Forall2_lookup_l _ _ _ _ _ Htexts Hv) as (t & Ht & Hstr).
      exists t. destruct v; try done. simpl in Hstr.
      injection Hstr as ->. split; [done|].
      unfold encode. by rewrite list_lookup_fmap, Ht.
Qed.

(** A build of the atomic core returns when the fact file is there
    and every fact has a [text] that is a string, if there is at
    least one fact. *)
Lemma rebuild_atomic_core_runs (d : disk) (facts : list json) :
  load_atomic_facts d = Ok facts ->
  facts <> [] ->
  Forall (fun r => exists t, subscript r "text" = Ok (JStr t)) facts ->
  exists d' : disk, rebuild_atomic_core embed d = (d', Ok tt).
Proof.
  intros Hload Hne Hall. unfold rebuild_atomic_core. rewrite Hload.
  assert (exists texts, Forall2 (fun r t => subscript r "text" = Ok (JStr t))
                                facts texts) as [texts Htexts].
  { clear Hload Hne. induction Hall as [|r facts [t Ht] _ [ts IH]].
    - exists []. constructor.
    - exists (t :: ts). by constructor. }
  assert (traverse (fun fact => subscript fact "text") facts
          = Ok (map JStr texts)) as ->.
  { apply traverse_Forall2. by apply Forall2_fmap_r. }
  assert (traverse as_str (map JStr texts) = Ok texts) as ->.
  { apply traverse_Forall2, Forall2_fmap_l, Forall_Forall2_diag.
    by apply Forall_forall. }
  destruct texts as [|t texts].
  { apply Forall2_length in Htexts. by destruct facts. }
  by eexists.
Qed.

(** With a fact file that holds no fact, [texts] is empty and the
    build writes an empty metadata file and an empty array, then stops
    at [embeddings.shape[1]]: no index is written, and the index file
    is the one that was there before. *)
Lemma rebuild_atomic_core_no_facts (d : disk) :
  load_atomic_facts d = Ok [] ->
  rebuild_atomic_core embed d
  = (np_save CORE_NPY [] (write_jsonl CORE_META [] d), Raise IndexError).
Proof. intros Hload. unfold rebuild_atomic_core. by rewrite Hload. Qed.

(** The function of 04 called with no document does the same; its
    [main] returns before the call when no document was loaded. *)
Lemma embed_and_save_layer_no_docs (layer_name output_dir : string)
    (d : disk) :
  embed_and_save_layer embed [] layer_name output_dir d
  = (write_jsonl (meta_path output_dir layer_name) [] d, Raise IndexError).
Proof. reflexivity. Qed.

Lemma list_index_valid {A} (l : list A) (i : Z) :
  0 <= i < Z.of_nat (length l) -> exists a : A, list_index l i = Ok a.
Proof.
  intros Hi. unfold list_index.
  destruct (Z.ltb_spec i 0); [lia|].
  destruct (Z.leb_spec 0 i); [|lia].
  destruct (Z.ltb_spec i (Z.of_nat (length l))); [|lia]. simpl.
  destruct (lookup_lt_is_Some_2 l (Z.to_nat i)) as [a ->]; [lia|].
  by exists a.
Qed.

(** Alignment after a build that completes.  Such a build leaves on
    disk a metadata file and an index file that are aligned: as many records as vectors, and
    vector [i] is the embedding of the text of record [i].  This
    holds for the rebuild of the core from the atomic facts and for
    the build of an auxiliary layer.  A search over an aligned layer
    returns, besides the sentinel -1, only ids below the record
    count, each of which reads a record of the metadata. *)
Theorem index_metadata_alignment :
  (forall d d' : disk,
     rebuild_atomic_core embed d = (d', Ok tt) ->
     exists (meta : list json) (index : list vec),
       on_disk d' CORE_META CORE_INDEX meta index
       /\ aligned embed meta index)
  /\ (forall (docs : list json) (layer_name output_dir : string)
             (d d' : disk),
        embed_and_save_layer embed docs layer_name output_dir d
        = (d', Ok tt) ->
        exists (meta : list json) (index : list vec),
          on_disk d' (meta_path output_dir layer_name)
                  (index_path output_dir layer_name) meta index
          /\ aligned embed meta index)
  /\ (forall (meta : list json) (index : list vec) (q : vec) (k : Z)
             (found : list (option D * Z)),
        aligned embed meta index ->
        Faiss.search dist le index q k = Ok found ->
        length meta = length index
        /\ forall (sc : option D) (id : Z),
             (sc, id) ∈ found ->
             id = -1
             \/ (0 <= id < Z.of_nat (length meta)
                 /\ exists r : json, list_index meta id = Ok r)).
Proof.
  split; [exact rebuild_atomic_core_aligned|].
  split; [exact embed_and_save_layer_aligned|].
  intros meta index q k found [Hlen _] Hsearch. split; [done|].
  intros sc id Hin.
  destruct (FaissSpec.search_ids dist le index q k found Hsearch)
    as [_ Hids].
  destruct (Hids sc id Hin) as [->|Hid]; [by left|]. right.
  unfold Faiss.ntotal in Hid. rewrite <- Hlen in Hid.
  split; [done | by apply list_index_valid].
Qed.

Lemma layer_paths_unknown (layer : string) :
  layer ∉ ["core"; "context"; "strategy"] ->
  layer_paths layer
  = Raise (ValueError "Layer must be: core, context, or strategy").
Proof.
  intros Hl. unfold layer_paths.
  rewrite !bool_decide_eq_false_2; [done|..];
    intros ->; apply Hl; set_solver.
Qed.

Lemma layer_paths_known (layer : string) :
  layer ∈ ["core"; "context"; "strategy"] ->
  exists paths : string * string, layer_paths layer = Ok paths.
Proof.
  intros Hl. unfold layer_paths.
  repeat (apply elem_of_cons in Hl as [->|Hl]; [by eexists|]).
  by apply elem_of_nil in Hl.
Qed.

(** C9, as the code has it.  In the layer test script a layer name
    other than core, context and strategy makes the load, and with it
    the retrieval, fail with the ValueError that names the three
    layers; a recognised layer whose index file or metadata file is
    missing makes them fail too, nothing is put in its place.  The
    retrieval of the answer script returns the fixed fallback context
    when the metadata file of the layer is missing. *)
Theorem layer_dispatch (query layer : string) (top_k : Z) (d : disk) :
  (layer ∉ ["core"; "context"; "strategy"] ->
   load_index_and_metadata layer d
   = Raise (ValueError "Layer must be: core, context, or strategy")
   /\ retrieve embed dist le query layer top_k d
      = Raise (ValueError "Layer must be: core, context, or strategy"))
  /\ (forall paths : string * string,
        layer_paths layer = Ok paths ->
        index_files d !! paths.1 = None
        \/ jsonl_files d !! paths.2 = None ->
        exists e : exn,
          load_index_and_metadata layer d = Raise e
          /\ retrieve embed dist le query layer top_k d = Raise e)
  /\ (jsonl_files d !! lite_meta_path layer = None ->
      lite_retrieve query layer top_k d = Ok [fallback]).
Proof.
  split; [|split].
  - intros Hl. unfold retrieve, load_index_and_metadata.
    by rewrite (layer_paths_unknown layer Hl).
  - intros paths Hp Hmiss.
    unfold retrieve, load_index_and_metadata. rewrite Hp. simpl.
    unfold read_index, read_jsonl, read_lines.
    destruct (index_files d !! paths.1) as [vs|] eqn:Hi; simpl.
    + destruct Hmiss as [?|Hm]; [done|]. rewrite Hm. simpl.
      by eexists.
    + by eexists.
  - intros Hm. unfold lite_retrieve, lite_try, read_lines.
    by rewrite Hm.
Qed.



End Store.

Lemma index_metadata_alignment_witness :
  rebuild_atomic_core Samples.toy_embed Samples.facts_only
  = ((rebuild_atomic_core Samples.toy_embed Samples.facts_only).1, Ok tt)
  /\ (exists (meta : list json) (index : list Z),
        on_disk (rebuild_atomic_core Samples.toy_embed Samples.facts_only).1
                CORE_META CORE_INDEX meta index
        /\ aligned Samples.toy_embed meta index)
  /\ (exists (meta : list json) (index : list Z),
        on_disk (embed_and_save_layer Samples.toy_embed Samples.one_doc
                   "context_intelligence" "data/context_intelligence"
                   Samples.no_files).1
                "data/context_intelligence/context_intelligence_metadata.jsonl"
                "data/context_intelligence/context_intelligence.faiss"
                meta index
        /\ aligned Samples.toy_embed meta index).
Proof.
  split; [vm_compute; reflexivity|]. split.
  - apply (proj1 (index_metadata_alignment
                    Samples.toy_embed Samples.toy_dist Z.leb)
             Samples.facts_only).
    vm_compute; reflexivity.
  - apply (proj1 (proj2 (index_metadata_alignment
                           Samples.toy_embed Samples.toy_dist Z.leb))
             Samples.one_doc "context_intelligence"
             "data/context_intelligence" Samples.no_files).
    vm_compute; reflexivity.
Defined.

(** C1.  The alignment does not hold for every rebuild.  The disk
    [BuildSamples.emptied_facts] holds an aligned core layer of two
    records and two vectors, and a fact file with no fact in it.  The
    rebuild of 08 on this disk overwrites the metadata with an empty
    file and then raises [IndexError] at [embeddings.shape[1]], before
    it writes the index: the layer left on disk has no record and two
    vectors, so the record count differs from the number of vectors.
    The [main] of 04 and of 09 return before the build when there is
    nothing to embed; 08 has no such test. *)
Theorem rebuild_empty_fact_file_misaligned :
  (exists (meta : list json) (index : list Z),
     on_disk BuildSamples.emptied_facts CORE_META CORE_INDEX meta index
     /\ aligned Samples.toy_embed meta index
     /\ length meta = 2%nat)
  /\ load_atomic_facts BuildSamples.emptied_facts = Ok []
  /\ exists d' : @disk Z,
       rebuild_atomic_core Samples.toy_embed BuildSamples.emptied_facts
       = (d', Raise IndexError)
       /\ on_disk d' CORE_META CORE_INDEX [] [71; 53]
       /\ ~ aligned Samples.toy_embed [] [71; 53]
       /\ forall (meta : list json) (index : list Z),
            on_disk d' CORE_META CORE_INDEX meta index ->
            length meta = 0%nat /\ length index = 2%nat.
Proof.
  split; [|split; [reflexivity|]].
  - exists [JObj (Samples.atomic_fact Samples.hours_text);
            JObj (Samples.atomic_fact Samples.location_text)], [71; 53].
    split; [split; vm_compute; reflexivity|].
    split; [|reflexivity]. split; [reflexivity|].
    intros [|[|i]] r Hi; simpl in Hi; [| |done]; injection Hi as <-.
    + exists Samples.hours_text. split; reflexivity.
    + exists Samples.location_text. split; reflexivity.
  - eexists. split; [apply rebuild_atomic_core_no_facts; reflexivity|].
    split; [split; vm_compute; reflexivity|].
    split; [intros [Hlen _]; discriminate Hlen|].
    intros meta index [Hm Hi].
    assert (map Some meta = @nil (option json)) as Hnil.
    { vm_compute in Hm. by injection Hm. }
    assert (index = [71; 53]) as ->.
    { vm_compute in Hi. by injection Hi. }
    destruct meta; [done | discriminate Hnil].
Qed.

(** What a retrieval finds on the layer that this rebuild leaves: the
    search returns the position of a vector of the old index, and no
    record is there to read. *)
Lemma retrieve_after_failed_rebuild :
  retrieve Samples.toy_embed Samples.toy_dist Z.leb
    "When does Magic Kingdom open?" "core" 2
    (rebuild_atomic_core Samples.toy_embed BuildSamples.emptied_facts).1
  = Raise IndexError.
Proof. vm_compute. reflexivity. Qed.

(** The core layer built from the sample facts, searched: both facts
    come back, then the sentinel, and each id reads its record. *)
Lemma search_after_rebuild :
  Faiss.search Samples.toy_dist Z.leb
    (map Samples.toy_embed [Samples.hours_text; Samples.location_text])
    (Samples.toy_embed "LEGOLAND location") 3
  = Ok [(Some 1296, 1); (Some 2916, 0); (None, -1)].
Proof. vm_compute. reflexivity. Qed.

Lemma layer_dispatch_witness :
  ("bogus" ∉ ["core"; "context"; "strategy"])
  /\ retrieve Samples.toy_embed Samples.toy_dist Z.leb
       "When does Magic Kingdom open?" "bogus" 2 Samples.strategy_only
     = Raise (ValueError "Layer must be: core, context, or strategy")
  /\ jsonl_files Samples.no_files !! lite_meta_path "core" = None
  /\ lite_retrieve "When does Magic Kingdom open?" "core" 2 Samples.no_files
     = Ok [fallback].
Proof.
  assert ("bogus" ∉ ["core"; "context"; "strategy"]) as Hl.
  { intros H.
    repeat (apply elem_of_cons in H as [H|H]; [discriminate|]).
    by apply elem_of_nil in H. }
  assert (jsonl_files Samples.no_files !! lite_meta_path "core" = None)
    as Hm by reflexivity.
  split; [exact Hl|]. split; [|split; [exact Hm|]].
  - exact (proj2 (proj1 (layer_dispatch Samples.toy_embed Samples.toy_dist
                           Z.leb "When does Magic Kingdom open?" "bogus" 2
                           Samples.strategy_only) Hl)).
  - exact (proj2 (proj2 (layer_dispatch Samples.toy_embed Samples.toy_dist
                           Z.leb "When does Magic Kingdom open?" "core" 2
                           Samples.no_files)) Hm).
Defined.

(** C9 as it is written fails on the answer script: an unknown layer
    name is answered from the strategy layer, and a missing metadata
    file is answered with the fallback context; neither raises. *)
Lemma lite_retrieve_defaults :
  ("bogus" ∉ ["core"; "context"; "strategy"])
  /\ lite_retrieve "When does Magic Kingdom open?" "bogus" 2
       Samples.strategy_only
     = Ok ["Arrive before opening."; "Rest at midday."]
  /\ jsonl_files Samples.strategy_only !! "data/embeddings/metadata.jsonl"
     = None
  /\ lite_retrieve "When does Magic Kingdom open?" "core" 2
       Samples.strategy_only
     = Ok ["General Orlando travel guidance."].
Proof.
  split; [|repeat split; vm_compute; reflexivity].
  intros H.
  repeat (apply elem_of_cons in H as [H|H]; [discriminate|]).
  by apply elem_of_nil in H.
Qed.


End LayersSpec.

(** ** More on the chunker *)

Module ChunkerMore.
Import Py PyFacts Chunker.

(** Cutting a list into consecutive pieces of [w] elements and gluing
    them again gives the list back. *)
Lemma concat_pieces {A} (w : nat) (m : nat) (l : list A) :
  (length l <= m * w)%nat ->
  concat (map (fun k => take w (drop (k * w) l)) (seq 0 m)) = l.
Proof.
  revert l. induction m as [|m IH]; intros l Hl.
  - destruct l; [done | simpl in Hl; lia].
  - simpl seq. rewrite <- fmap_S_seq. simpl.
    transitivity (take w l ++ drop w l); [|apply take_drop]. f_equal.
    transitivity
      (concat (map (fun k => take w (drop (k * w) (drop w l))) (seq 0 m)));
      [|apply IH; rewrite length_drop; simpl in Hl; lia].
    f_equal. rewrite <- list_fmap_compose. apply map_ext. intros k. simpl.
    rewrite drop_drop. do 2 f_equal; lia.
Qed.

(** Without overlap the chunks cut the words of the text into
    consecutive pieces: read one after the other they are the words of
    the text, each once. *)
Theorem zero_overlap_partition (text : string) (W : Z) :
  0 < W ->
  exists chunks : list string,
    simple_token_split text W 0 = Ok chunks
    /\ concat (map split chunks) = split text.
Proof.
  intros HW.
  destruct (Z.le_gt_cases (Z.of_nat (length (split text))) W) as [Hs|Hl].
  - exists [text]. split; [|simpl; by rewrite (right_id_L [] (++))].
    unfold simple_token_split.
    by destruct (Z.leb_spec (Z.of_nat (length (split text))) W); [|lia].
  - set (m := (Z.of_nat (length (split text)) + (W - 0) - 1) / (W - 0)).
    pose proof (ChunkerSpec.count_bounds (split text) W 0 ltac:(lia) Hl)
      as Hb.
    pose proof (ChunkerSpec.count_pos (split text) W 0 ltac:(lia) Hl) as Hm.
    fold m in Hb, Hm.
    eexists. split.
    { unfold simple_token_split.
      destruct (Z.leb_spec (Z.of_nat (length (split text))) W); [lia|].
      rewrite range0_pos by lia. reflexivity. }
    rewrite <- !list_fmap_compose. fold m.
    etransitivity;
      [|apply (concat_pieces (Z.to_nat W) (Z.to_nat m) (split text)); nia].
    f_equal. apply Forall_fmap_ext, Forall_forall. intros k Hk.
    apply list_elem_of_In, in_seq in Hk. simpl.
    replace (Z.of_nat k * (W - 0) + W) with (Z.of_nat k * W + W) by lia.
    replace (Z.of_nat k * (W - 0)) with (Z.of_nat k * W) by lia.
    rewrite slice_window by nia.
    rewrite split_join
      by (apply Forall_take, Forall_drop, split_words).
    do 2 f_equal. lia.
Qed.

Lemma zero_overlap_partition_witness :
  0 < 3
  /\ simple_token_split "a b c d e f g" 3 0 = Ok ["a b c"; "d e f"; "g"]
  /\ exists chunks : list string,
       simple_token_split "a b c d e f g" 3 0 = Ok chunks
       /\ concat (map split chunks) = split "a b c d e f g".
Proof.
  split; [lia|]. split; [reflexivity|].
  exact (zero_overlap_partition "a b c d e f g" 3 ltac:(lia)).
Defined.

(** The number of words of every chunk is at most the window size. *)
Lemma chunk_sizes (text : string) (W O : Z) (chunks : list string) :
  0 <= O < W ->
  simple_token_split text W O = Ok chunks ->
  Forall (fun c => Z.of_nat (length (split c)) <= W) chunks.
Proof.
  intros HO Hrun.
  destruct (Z.le_gt_cases (Z.of_nat (length (split text))) W) as [Hs|Hl].
  - unfold simple_token_split in Hrun.
    destruct (Z.leb_spec (Z.of_nat (length (split text))) W); [|lia].
    injection Hrun as <-. by repeat constructor.
  - unfold simple_token_split in Hrun.
    destruct (Z.leb_spec (Z.of_nat (length (split text))) W); [lia|].
    rewrite range0_pos in Hrun by lia. simpl in Hrun.
    injection Hrun as <-. rewrite <- list_fmap_compose.
    apply Forall_fmap, Forall_forall. intros k Hk.
    apply list_elem_of_In, in_seq in Hk. simpl.
    assert (Z.of_nat k
            < (Z.of_nat (length (split text)) + (W - O) - 1) / (W - O))
      as Hk' by lia.
    rewrite (ChunkerSpec.window_slice (split text) W O HO Hl k Hk').
    rewrite split_join by apply ChunkerSpec.window_words.
    apply ChunkerSpec.window_length. done.
Qed.

(** A chunk is a fixed point of the chunker: chunked again with the same
    parameters it comes back as it is, alone. *)
Theorem rechunk_chunk (text : string) (W O : Z) (chunks : list string)
    (c : string) :
  0 <= O < W ->
  simple_token_split text W O = Ok chunks ->
  c ∈ chunks ->
  simple_token_split c W O = Ok [c].
Proof.
  intros HO Hrun Hc.
  pose proof (chunk_sizes text W O chunks HO Hrun) as Hall.
  rewrite Forall_forall in Hall. specialize (Hall c Hc).
  unfold simple_token_split.
  by destruct (Z.leb_spec (Z.of_nat (length (split c))) W); [|lia].
Qed.

Lemma rechunk_chunk_witness :
  0 <= 1 < 3
  /\ simple_token_split "a b c d e f g" 3 1
     = Ok ["a b c"; "c d e"; "e f g"; "g"]
  /\ "c d e" ∈ ["a b c"; "c d e"; "e f g"; "g"]
  /\ simple_token_split "c d e" 3 1 = Ok ["c d e"].
Proof.
  assert (simple_token_split "a b c d e f g" 3 1
          = Ok ["a b c"; "c d e"; "e f g"; "g"]) as Hrun by reflexivity.
  assert ("c d e" ∈ ["a b c"; "c d e"; "e f g"; "g"]) as Hin
    by (right; left).
  split; [lia|]. split; [exact Hrun|]. split; [exact Hin|].
  exact (rechunk_chunk "a b c d e f g" 3 1 _ "c d e" ltac:(lia) Hrun Hin).
Defined.

(** Outside the precondition, on a text with more words than the window:
    an overlap equal to the window size makes the step zero and the call
    raises, a larger overlap makes the step negative and the call returns
    no chunk at all. *)
Theorem degenerate_overlap (text : string) (W O : Z) :
  W < Z.of_nat (length (split text)) ->
  (O = W ->
   simple_token_split text W O
   = Raise (ValueError "range() arg 3 must not be zero"))
  /\ (W < O -> simple_token_split text W O = Ok []).
Proof.
  intros Hl. unfold simple_token_split, range0.
  destruct (Z.leb_spec (Z.of_nat (length (split text))) W); [lia|].
  split.
  - intros ->. by rewrite Z.sub_diag.
  - intros HO.
    destruct (Z.eqb_spec (W - O) 0); [lia|].
    destruct (Z.ltb_spec 0 (W - O)); [lia|].
    by destruct (Z.ltb_spec (Z.of_nat (length (split text))) 0); [lia|].
Qed.

Lemma degenerate_overlap_witness :
  2 < Z.of_nat (length (split "a b c d"))
  /\ simple_token_split "a b c d" 2 2
     = Raise (ValueError "range() arg 3 must not be zero")
  /\ simple_token_split "a b c d" 2 3 = Ok [].
Proof.
  assert (2 < Z.of_nat (length (split "a b c d"))) as Hl
    by (vm_compute; reflexivity).
  split; [exact Hl|]. split.
  - exact (proj1 (degenerate_overlap "a b c d" 2 2 Hl) eq_refl).
  - exact (proj2 (degenerate_overlap "a b c d" 2 3 Hl) ltac:(lia)).
Defined.

(** With the parameters of the signature the call never raises and
    returns at least one chunk. *)
Lemma default_split_nonempty (text : string) :
  exists (c : string) (chunks : list string),
    simple_token_split text default_chunk_size default_overlap
    = Ok (c :: chunks).
Proof.
  unfold simple_token_split, default_chunk_size, default_overlap.
  destruct (Z.leb_spec (Z.of_nat (length (split text))) 512) as [Hs|Hl];
    [by eexists _, _|].
  rewrite range0_pos by lia. simpl.
  assert (0 < (Z.of_nat (length (split text)) + (512 - 50) - 1) / (512 - 50))
    as Hm by (apply Z.div_str_pos; lia).
  destruct (Z.to_nat _) as [|m] eqn:Em; [lia|].
  simpl. by eexists _, _.
Qed.

End ChunkerMore.

(** ** More on the grounding verifier *)

Module GroundingMore.
Import Py PyFacts Grounding RoundFacts Shapes.

Lemma lower_char_idem (c : ascii) : lower_char (lower_char c) = lower_char c.
Proof. destruct c as [[] [] [] [] [] [] [] []]; reflexivity. Qed.

Lemma lower_idem (s : string) : lower (lower s) = lower s.
Proof.
  induction s as [|c s IH]; [done|]. simpl. by rewrite lower_char_idem, IH.
Qed.

Lemma lower_app (a b : string) : lower (a +:+ b) = lower a +:+ lower b.
Proof.
  induction a as [|c a IH]; [done|]. rewrite app_cons. simpl.
  by rewrite IH.
Qed.

Lemma lower_join (l : list string) :
  lower (join " " l) = join " " (map lower l).
Proof.
  induction l as [|a l IH]; [done|].
  destruct l as [|b l]; [done|].
  change (join " " (a :: b :: l)) with (a +:+ " " +:+ join " " (b :: l)).
  rewrite !lower_app, IH. done.
Qed.

Lemma lower_nil (s : string) : lower s = "" <-> s = "".
Proof. by destruct s. Qed.

Lemma tokenize_lower (text : string) : _tokenize (lower text) = _tokenize text.
Proof. unfold _tokenize. by rewrite lower_idem. Qed.

(** The score does not see the case of letters: lowering the answer and
    every context leaves it as it is. *)
Theorem check_grounding_case (query : string) (context_list : list string)
    (response : string) :
  check_grounding query (map lower context_list) (lower response)
  = check_grounding query context_list response.
Proof.
  unfold check_grounding.
  rewrite <- lower_join, !tokenize_lower.
  assert (bool_decide (map lower context_list = [])
          = bool_decide (context_list = [])) as ->.
  { apply bool_decide_ext. by destruct context_list. }
  assert (bool_decide (lower response = "")
          = bool_decide (response = "")) as ->.
  { apply bool_decide_ext, lower_nil. }
  done.
Qed.

(** Token sets that share nothing give 0.0. *)
Lemma check_grounding_disjoint (query : string) (ctx : list string)
    (a : string) :
  _tokenize (join " " ctx) ∩ _tokenize a = ∅ ->
  check_grounding query ctx a = Ok 0%Q.
Proof.
  intros Hi.
  destruct (decide (ctx = [])) as [Hc|Hc];
    [by apply GroundingSpec.check_grounding_guard; left|].
  destruct (decide (a = "")) as [Ha|Ha];
    [by apply GroundingSpec.check_grounding_guard; right; left|].
  destruct (decide (size (_tokenize (join " " ctx) ∪ _tokenize a) = 0%nat))
    as [Hu|Hu];
    [by apply GroundingSpec.check_grounding_guard; right; right|].
  rewrite (GroundingSpec.check_grounding_score _ _ _ _ _ Hc Ha
             eq_refl eq_refl Hu).
  rewrite Hi, size_empty.
  rewrite score_0; [done | apply ratio_zero].
Qed.

(** The score of an answer against one context is the score of that
    context, taken as the answer, against the answer: the measure is
    symmetric. *)
Theorem check_grounding_symmetric (query context response : string) :
  check_grounding query [context] response
  = check_grounding query [response] context.
Proof.
  destruct (decide (context = "")) as [->|Hc].
  { rewrite (GroundingSpec.check_grounding_guard query [response] "")
      by (right; by left).
    apply check_grounding_disjoint.
    change (join " " [""]) with "". rewrite GroundingSpec.tokenize_empty.
    apply (left_absorb_L ∅ (∩)). }
  destruct (decide (response = "")) as [->|Ha].
  { rewrite (GroundingSpec.check_grounding_guard query [context] "")
      by (right; by left).
    symmetry. apply check_grounding_disjoint.
    change (join " " [""]) with "". rewrite GroundingSpec.tokenize_empty.
    apply (left_absorb_L ∅ (∩)). }
  pose proof (union_comm_L (_tokenize context) (_tokenize response)) as Eu.
  pose proof (intersection_comm_L (_tokenize context) (_tokenize response))
    as Ei.
  destruct (decide (size (_tokenize context ∪ _tokenize response) = 0%nat))
    as [Hu|Hu].
  - rewrite (GroundingSpec.check_grounding_guard query [context] response)
      by (right; right; exact Hu).
    rewrite (GroundingSpec.check_grounding_guard query [response] context);
      [done|].
    right; right. change (join " " [response]) with response.
    by rewrite <- Eu.
  - rewrite (GroundingSpec.check_grounding_score query [context] response
               (_tokenize context) (_tokenize response));
      [|done..].
    rewrite (GroundingSpec.check_grounding_score query [response] context
               (_tokenize response) (_tokenize context));
      [|done|done|done|done|by rewrite <- Eu].
    by rewrite Ei, Eu.
Qed.

(** Typed time tokens and plain word tokens *)

Lemma digit_not_h (c : ascii) :
  isdecimal c = true -> bool_decide (c = "h"%char) = false.
Proof.
  intros Hd. apply bool_decide_eq_false. intros ->. discriminate Hd.
Qed.

Lemma sep_to_colon (p : ascii) :
  is_sep p = true ->
  (if bool_decide (p = "h"%char) then ":"%char else p) = ":"%char.
Proof.
  unfold is_sep. intros Hp.
  destruct (bool_decide (p = "h"%char)) eqn:Hh; [done|].
  rewrite orb_false_r in Hp. by apply bool_decide_eq_true in Hp.
Qed.

Lemma time_at_token (s : string) (n : nat) :
  time_at s = Some n ->
  is_time_token ("time_" +:+ h_to_colon (stake n s)) = true.
Proof.
  unfold time_at. destruct (time2 s) eqn:H2.
  - intros [= <-]. unfold time2 in H2.
    destruct s as [|d1 [|d2 [|p [|a [|b s]]]]]; try done.
    do 4 (apply andb_true_iff in H2 as [H2 ?]).
    unfold is_time_token. simpl.
    rewrite (digit_not_h d1), (digit_not_h d2), (digit_not_h a),
      (digit_not_h b), (sep_to_colon p) by done.
    rewrite bool_decide_eq_true_2 by done.
    repeat match goal with H : _ = true |- _ => rewrite H; clear H end.
    done.
  - destruct (time1 s) eqn:H1; [|done].
    intros [= <-]. unfold time1 in H1.
    destruct s as [|d1 [|p [|a [|b s]]]]; try done.
    do 3 (apply andb_true_iff in H1 as [H1 ?]).
    unfold is_time_token. simpl.
    rewrite (digit_not_h d1), (digit_not_h a), (digit_not_h b),
      (sep_to_colon p) by done.
    rewrite bool_decide_eq_true_2 by done.
    repeat match goal with H : _ = true |- _ => rewrite H; clear H end.
    done.
Qed.

Lemma findall_go_matches (skip : nat) (s t : string) :
  t ∈ findall_go skip s ->
  exists (s' : string) (n : nat), time_at s' = Some n /\ t = stake n s'.
Proof.
  revert skip. induction s as [|c s IH]; intros skip Ht; simpl in Ht.
  - by apply elem_of_nil in Ht.
  - destruct skip as [|k]; [|by apply (IH k)].
    destruct (time_at (String c s)) as [n|] eqn:Hn; [|by apply (IH 0%nat)].
    apply elem_of_cons in Ht as [->|Ht]; [by eexists _, _|].
    by apply (IH (n - 1)%nat).
Qed.

Lemma time_step_only (l : list string) (st : gset string * string)
    (x : string) :
  x ∈ (fold_left time_step l st).1 ->
  x ∈ st.1 \/ exists t : string, t ∈ l /\ x = "time_" +:+ h_to_colon t.
Proof.
  revert st. induction l as [|t l IH]; intros [tokens txt] Hx; [by left|].
  simpl in Hx. apply IH in Hx as [Hx|(t' & Ht' & ->)].
  - simpl in Hx. apply elem_of_union in Hx as [Hx|Hx]; [|by left].
    apply elem_of_singleton in Hx as ->. right.
    exists t. split; [by left | done].
  - right. exists t'. split; [by right | done].
Qed.

Lemma allb_app (P : ascii -> bool) (a b : string) :
  allb P (a +:+ b) = allb P a && allb P b.
Proof.
  induction a as [|c a IH]; [done|]. rewrite app_cons. simpl.
  by rewrite IH, andb_assoc.
Qed.

Lemma split_go_all (P : ascii -> bool) (cur s : string) :
  allb P cur = true -> allb P s = true ->
  Forall (fun w => allb P w = true) (split_go cur s).
Proof.
  revert cur. induction s as [|c s IH]; intros cur Hcur Hs; simpl.
  - destruct cur; repeat constructor; done.
  - simpl in Hs. apply andb_true_iff in Hs as [Hc Hs].
    destruct (isspace c).
    + apply Forall_app. split; [|by apply IH].
      destruct cur; repeat constructor; done.
    + apply IH; [|done]. rewrite allb_app, Hcur. simpl. by rewrite Hc.
Qed.

Lemma strip_punct_chars (s : string) :
  allb (fun c => isword c || isspace c) (strip_punct s) = true.
Proof.
  induction s as [|c s IH]; [done|]. simpl.
  destruct (isword c || isspace c) eqn:Hc; [|done]. simpl. by rewrite Hc.
Qed.

Lemma word_chars (w : string) :
  allb (fun c => isword c || isspace c) w = true -> nospace w = true ->
  allb isword w = true.
Proof.
  induction w as [|c w IH]; [done|]. simpl. intros Ha Hn.
  apply andb_true_iff in Ha as [Hc Ha]. apply andb_true_iff in Hn as [Hs Hn].
  apply negb_true_iff in Hs. rewrite Hs, orb_false_r in Hc.
  rewrite Hc. by apply IH.
Qed.

Lemma plain_tokens_shape (r tok : string) :
  tok ∈ plain_tokens r -> is_plain_token tok = true.
Proof.
  unfold plain_tokens. rewrite elem_of_list_to_set, list_elem_of_filter.
  intros [Hne Hin]. unfold is_plain_token.
  rewrite bool_decide_eq_false_2 by done. simpl.
  pose proof (split_go_all _ "" (strip_punct r) eq_refl
                (strip_punct_chars r)) as Hall.
  pose proof (split_words (strip_punct r)) as Hw.
  rewrite Forall_forall in Hall, Hw.
  apply word_chars; [by apply Hall | by apply Hw].
Qed.

Lemma time_token_not_plain (tok : string) :
  is_time_token tok = true -> is_plain_token tok = false.
Proof.
  unfold is_time_token, is_plain_token. intros H.
  apply andb_true_iff in H as [Hp Hc].
  destruct tok as [|c1 [|c2 [|c3 [|c4 [|c5 rest]]]]]; try done.
  simpl in Hp.
  repeat (destruct (decide _) as [<-|]; [|done]).
  simpl in Hc. unfold is_clock in Hc.
  rewrite bool_decide_eq_false_2 by done.
  destruct rest as [|d1 [|d2 [|p [|a [|b [|x rest]]]]]]; try done.
  - repeat (apply andb_true_iff in Hc as [Hc ?]).
    match goal with H : bool_decide (_ = ":"%char) = true |- _ =>
      apply bool_decide_eq_true in H as -> end.
    simpl. by rewrite !andb_false_r.
  - repeat (apply andb_true_iff in Hc as [Hc ?]).
    match goal with H : bool_decide (_ = ":"%char) = true |- _ =>
      apply bool_decide_eq_true in H as -> end.
    simpl. by rewrite !andb_false_r.
Qed.

(** Every token is of one of two kinds that cannot be confused: a typed
    time token, [time_] followed by one or two digits, a colon and two
    digits (never the letter h), or a plain token, which is not empty and
    made of characters of the class [\w] only, so without a colon. *)
Theorem token_shapes (text tok : string) :
  tok ∈ _tokenize text ->
  (is_time_token tok = true /\ is_plain_token tok = false)
  \/ (is_plain_token tok = true /\ is_time_token tok = false).
Proof.
  rewrite GroundingSpec.tokenize_split. intros Hin.
  apply elem_of_union in Hin as [Hin|Hin].
  - left. unfold time_tokens in Hin.
    apply time_step_only in Hin as [Hin|(t & Ht & ->)];
      [by apply elem_of_empty in Hin|].
    apply findall_go_matches in Ht as (s' & n & Hn & ->).
    pose proof (time_at_token s' n Hn) as Htok.
    split; [done | by apply time_token_not_plain].
  - right. pose proof (plain_tokens_shape _ _ Hin) as Hp.
    split; [done|].
    destruct (is_time_token tok) eqn:Ht; [|done].
    apply time_token_not_plain in Ht. congruence.
Qed.

Lemma token_shapes_witness :
  "time_9:00" ∈ _tokenize "Open 9h00 to 22:00!"
  /\ is_time_token "time_9:00" = true
  /\ is_plain_token "time_9:00" = false.
Proof.
  assert ("time_9:00" ∈ _tokenize "Open 9h00 to 22:00!") as Hin
    by (apply (bool_decide_unpack _); by vm_compute).
  split; [exact Hin|].
  destruct (token_shapes "Open 9h00 to 22:00!" "time_9:00" Hin)
    as [[Ht Hp]|[Hp Ht]].
  - split; [exact Ht | exact Hp].
  - discriminate Ht.
Defined.

End GroundingMore.

(** ** More on the extractor, and the validator on its output *)

Module ExtractorMore.
Import Py PyFacts Extractor Validator Shapes FactRecords.

(** *** Trimming *)

Lemma rstrip_solid (c : ascii) (r : string) :
  isspace c = false -> exists r' : string, rstrip (String c r) = String c r'.
Proof.
  intros Hc. simpl. destruct (rstrip r); rewrite ?Hc; by eexists.
Qed.

Lemma strip_solid (s : string) :
  starts_solid s = true ->
  exists (c : ascii) (r : string), strip s = String c r /\ isspace c = false.
Proof.
  destruct s as [|c r]; [done|]. simpl. intros Hc.
  apply negb_true_iff in Hc. unfold strip. simpl. rewrite Hc.
  destruct (rstrip_solid c r Hc) as [r' Hr]. by exists c, r'.
Qed.

Lemma lstrip_head (s : string) :
  lstrip s = "" \/ starts_solid (lstrip s) = true.
Proof.
  induction s as [|c s IH]; [by left|]. simpl.
  destruct (isspace c) eqn:Hc; [done|]. right. simpl. by rewrite Hc.
Qed.

Lemma strip_head (s : string) : strip s = "" \/ starts_solid (strip s) = true.
Proof.
  unfold strip. destruct (lstrip_head s) as [->|Hs]; [by left|].
  right. destruct (lstrip s) as [|c r]; [done|]. simpl in Hs.
  apply negb_true_iff in Hs. destruct (rstrip_solid c r Hs) as [r' ->].
  simpl. by rewrite Hs.
Qed.

Lemma rstrip_idem (s : string) : rstrip (rstrip s) = rstrip s.
Proof.
  induction s as [|c s IH]; [done|]. simpl.
  destruct (rstrip s) as [|a r] eqn:Hr.
  - destruct (isspace c) eqn:Hc; [done|]. simpl. by rewrite Hc.
  - change (rstrip (String c (String a r))
            = String c (String a r)).
    simpl. simpl in IH. by rewrite IH.
Qed.

Lemma lstrip_solid (s : string) : starts_solid s = true -> lstrip s = s.
Proof.
  destruct s as [|c r]; [done|]. simpl. intros Hc.
  apply negb_true_iff in Hc. by rewrite Hc.
Qed.

Lemma strip_idem (s : string) : strip (strip s) = strip s.
Proof.
  destruct (strip_head s) as [Hs|Hs]; [by rewrite Hs|].
  unfold strip at 1. rewrite lstrip_solid by done.
  unfold strip. apply rstrip_idem.
Qed.

Lemma strip_solid_nonempty (s : string) :
  starts_solid s = true -> strip s <> "".
Proof. intros Hs. by destruct (strip_solid s Hs) as (c & r & -> & _). Qed.

Lemma starts_solid_app (a b : string) :
  starts_solid a = true -> starts_solid (a +:+ b) = true.
Proof. by destruct a. Qed.

Lemma allb_lstrip (P : ascii -> bool) (s : string) :
  allb P s = true -> allb P (lstrip s) = true.
Proof.
  induction s as [|c s IH]; [done|]. simpl. intros H.
  destruct (isspace c); [|done].
  apply andb_true_iff in H as [_ H]. by apply IH.
Qed.

Lemma allb_rstrip (P : ascii -> bool) (s : string) :
  allb P s = true -> allb P (rstrip s) = true.
Proof.
  induction s as [|c s IH]; [done|]. simpl. intros H.
  apply andb_true_iff in H as [Hc H]. specialize (IH H).
  destruct (rstrip s) as [|a r].
  - destruct (isspace c); [done|]. simpl. by rewrite Hc.
  - simpl. simpl in IH. by rewrite Hc, IH.
Qed.

Lemma allb_strip (P : ascii -> bool) (s : string) :
  allb P s = true -> allb P (strip s) = true.
Proof. intros H. unfold strip. by apply allb_rstrip, allb_lstrip. Qed.

(** *** The normalised text *)

Lemma collapse_spaced (b : bool) (s : string) :
  spaced b (collapse b s) = true.
Proof.
  revert b. induction s as [|c s IH]; intros b; [done|]. simpl.
  destruct (isspace c) eqn:Hc.
  - destruct b; [apply IH|]. simpl. by rewrite IH.
  - simpl. rewrite Hc. apply IH.
Qed.

Lemma spaced_tail (b : bool) (c : ascii) (s : string) :
  spaced b (String c s) = true -> spaced (isspace c) s = true.
Proof.
  simpl. destruct (isspace c); [|done]. intros H.
  by apply andb_true_iff in H as [_ H].
Qed.

Lemma startswith_split (lit s : string) :
  startswith lit s = true -> s = lit +:+ sdrop (String.length lit) s.
Proof.
  revert s. induction lit as [|a lit IH]; intros s H; [done|].
  destruct s as [|b s]; [done|]. simpl in H.
  destruct (decide (a = b)) as [->|]; [|done].
  rewrite app_cons. simpl. f_equal. by apply IH.
Qed.

Lemma spaced_after (lit s : string) (b : bool) :
  ends_with_space lit = true -> startswith lit s = true ->
  spaced b s = true -> spaced true (sdrop (String.length lit) s) = true.
Proof.
  revert s b. induction lit as [|a lit IH]; intros s b He Hs Hsp; [done|].
  destruct s as [|c s]; [done|]. simpl in Hs.
  destruct (decide (a = c)) as [->|]; [|done].
  apply spaced_tail in Hsp. destruct lit as [|a' lit].
  - simpl in He. apply bool_decide_eq_true in He as ->. done.
  - exact (IH s (isspace c) He Hs Hsp).
Qed.

Lemma until_comma_chars (s : string) : allb not_comma (until_comma s) = true.
Proof.
  induction s as [|c s IH]; [done|]. simpl.
  destruct (bool_decide (c = ","%char)) eqn:Hc; [done|]. simpl.
  unfold not_comma at 1. by rewrite Hc.
Qed.

(** The group a rule reads from a normalised text starts with a
    character that is not white space, and holds no comma. *)
Lemma match_at_group (lit s g : string) (b : bool) :
  ends_with_space lit = true -> spaced b s = true ->
  match_at lit s = Some g ->
  starts_solid g = true /\ allb not_comma g = true.
Proof.
  intros He Hsp. unfold match_at.
  destruct (startswith lit s) eqn:Hs; [|done].
  pose proof (spaced_after lit s b He Hs Hsp) as Hrest.
  pose proof (until_comma_chars (sdrop (String.length lit) s)) as Hnc.
  destruct (sdrop (String.length lit) s) as [|c r]; [done|].
  simpl in *. destruct (bool_decide (c = ","%char)); [done|].
  intros [= <-]. split; [|done]. simpl.
  destruct (isspace c); [done | done].
Qed.

Lemma search_group (lit s g : string) (b : bool) :
  ends_with_space lit = true -> spaced b s = true ->
  search lit s = Some g ->
  starts_solid g = true /\ allb not_comma g = true.
Proof.
  intros He. revert b. induction s as [|c s IH]; intros b Hsp Hg.
  - rewrite ExtractorSpec.search_unfold in Hg.
    destruct (match_at lit "") eqn:Hm; [|done].
    injection Hg as ->. by apply (match_at_group lit "" g b).
  - rewrite ExtractorSpec.search_unfold in Hg.
    destruct (match_at lit (String c s)) eqn:Hm.
    + injection Hg as ->. by apply (match_at_group lit (String c s) g b).
    + apply (IH (isspace c)); [|done]. by apply spaced_tail in Hsp.
Qed.

Lemma normalize_spaced (text : string) : spaced false (normalize text) = true.
Proof. apply collapse_spaced. Qed.

(** Every rule names a park that starts with a solid character, and
    its literal ends with a space. *)
Lemma park_rules_shape :
  Forall (fun rule : string * string =>
            starts_solid rule.1 = true /\ ends_with_space rule.2 = true)
         park_rules.
Proof. repeat constructor. Qed.

Lemma rule_fact_inv (source_doc text : string) (f : fact) :
  f ∈ rule_facts source_doc (normalize text) ->
  exists park lit g : string,
    (park, lit) ∈ park_rules
    /\ search lit (normalize text) = Some g
    /\ f = hours_fact source_doc park (strip g).
Proof.
  unfold rule_facts. rewrite list_elem_of_omap.
  intros ([park lit] & Hin & Hf).
  destruct (search lit (normalize text)) as [g|] eqn:Hs; [|done].
  injection Hf as <-. by exists park, lit, g.
Qed.

Lemma sentences_inv (text sent : string) :
  sent ∈ sentences text -> sent <> "" /\ strip sent = sent.
Proof.
  unfold sentences. rewrite list_elem_of_filter, list_elem_of_fmap.
  intros [Hne (x & -> & _)]. split; [done | apply strip_idem].
Qed.

Lemma nonempty_strip (s : string) : s <> "" -> strip s = s -> strip s <> "".
Proof. intros Hne Hs. by rewrite Hs. Qed.

Lemma hours_fact_well_formed (source_doc park g : string) :
  starts_solid park = true -> starts_solid g = true ->
  well_formed source_doc (hours_fact source_doc park (strip g)).
Proof.
  intros Hp Hg. unfold well_formed, hours_fact. simpl.
  split; [done|]. split; [by apply strip_solid_nonempty|].
  split; [by apply strip_solid_nonempty|].
  split; [by apply strip_solid_nonempty|].
  split; [apply strip_idem|].
  by apply strip_solid_nonempty, starts_solid_app.
Qed.

Lemma generic_fact_well_formed (source_doc sent : string) :
  sent <> "" -> strip sent = sent ->
  well_formed source_doc (generic_fact source_doc sent).
Proof.
  intros Hne Hs. unfold well_formed, generic_fact. simpl.
  split; [done|]. split; [by apply strip_solid_nonempty|].
  split; [by apply strip_solid_nonempty|].
  split; [done|]. split; [done|]. by rewrite Hs.
Qed.

Lemma fixed_facts_well_formed (source_doc : string) :
  well_formed source_doc (early_entry_fact source_doc)
  /\ well_formed source_doc (early_admission_fact source_doc)
  /\ well_formed source_doc (location_fact source_doc "LEGOLAND Florida")
  /\ well_formed source_doc
       (location_fact source_doc "Peppa Pig Theme Park").
Proof.
  repeat split; simpl; try done; by apply strip_solid_nonempty.
Qed.

(** Every fact the extractor emits, on either path, names the source it
    was given and has an entity, an attribute, a value and a text that
    are not blank; its value has no white space around it. *)
Theorem extracted_facts_well_formed (text source_doc : string) (f : fact) :
  f ∈ extract_atomic_facts text source_doc -> well_formed source_doc f.
Proof.
  unfold extract_atomic_facts.
  destruct (is_hours_doc source_doc).
  - destruct (fixed_facts_well_formed source_doc) as (W1 & W2 & W3 & W4).
    rewrite !elem_of_app. intros [Hf|[Hf|[Hf|Hf]]].
    + apply rule_fact_inv in Hf as (park & lit & g & Hin & Hs & ->).
      pose proof park_rules_shape as Hshape.
      rewrite Forall_forall in Hshape.
      destruct (Hshape _ Hin) as [Hp Hl]. simpl in Hp, Hl.
      destruct (search_group lit (normalize text) g false Hl
                  (normalize_spaced text) Hs) as [Hg _].
      by apply hours_fact_well_formed.
    + destruct (contains "Early Entry" (normalize text));
        [|by apply elem_of_nil in Hf].
      by apply list_elem_of_singleton in Hf as ->.
    + destruct (contains "Early Park Admission" (normalize text));
        [|by apply elem_of_nil in Hf].
      by apply list_elem_of_singleton in Hf as ->.
    + destruct (contains "Winter Haven" (normalize text));
        [|by apply elem_of_nil in Hf].
      apply elem_of_cons in Hf as [->|Hf]; [done|].
      by apply list_elem_of_singleton in Hf as ->.
  - rewrite list_elem_of_fmap. intros (sent & -> & Hin).
    apply list_elem_of_filter in Hin as [_ Hin].
    apply sentences_inv in Hin as [Hne Hs].
    by apply generic_fact_well_formed.
Qed.

Lemma extracted_facts_well_formed_witness :
  hours_fact Samples.hours_doc "Magic Kingdom" "9:00 AM - 10:00 PM"
  ∈ extract_atomic_facts Samples.hours_page Samples.hours_doc
  /\ well_formed Samples.hours_doc
       (hours_fact Samples.hours_doc "Magic Kingdom" "9:00 AM - 10:00 PM").
Proof.
  assert (hours_fact Samples.hours_doc "Magic Kingdom" "9:00 AM - 10:00 PM"
          ∈ extract_atomic_facts Samples.hours_page Samples.hours_doc) as Hin
    by (vm_compute; left).
  split; [exact Hin|].
  exact (extracted_facts_well_formed _ _ _ Hin).
Defined.

Lemma omap_sublist {A B C} (f : A -> option B) (g : B -> C) (h : A -> C)
    (l : list A) :
  (forall a b, f a = Some b -> g b = h a) ->
  map g (omap f l) `sublist_of` map h l.
Proof.
  intros Hfg. induction l as [|a l IH]; [done|]. simpl.
  destruct (f a) as [b|] eqn:Hf; simpl.
  - rewrite (Hfg a b Hf). by apply sublist_skip.
  - by apply sublist_cons.
Qed.

(** The hours facts of a document come in the order of the rule list,
    at most one for each park, and the value of each is cut at the first
    comma of the text that follows the park's label: it holds no
    comma. *)
Theorem hours_facts_in_rule_order (text source_doc : string) :
  map entity (rule_facts source_doc (normalize text))
    `sublist_of` map fst park_rules
  /\ Forall (fun f => attribute f = "operating_hours"
                      /\ allb not_comma (value f) = true)
            (rule_facts source_doc (normalize text)).
Proof.
  split.
  - unfold rule_facts. apply omap_sublist. intros [park lit] f.
    destruct (search lit (normalize text)); [|done]. by intros [= <-].
  - apply Forall_forall. intros f Hf.
    apply rule_fact_inv in Hf as (park & lit & g & Hin & Hs & ->).
    split; [done|]. simpl.
    pose proof park_rules_shape as Hshape. rewrite Forall_forall in Hshape.
    destruct (Hshape _ Hin) as [_ Hl]. simpl in Hl.
    destruct (search_group lit (normalize text) g false Hl
                (normalize_spaced text) Hs) as [_ Hc].
    by apply allb_strip.
Qed.

(** *** The validator on extracted facts *)

Lemma to_dict_fields (f : fact) (field : string) :
  field ∈ REQUIRED_FIELDS -> is_Some (to_dict f !! field).
Proof.
  intros H. unfold REQUIRED_FIELDS in H.
  repeat (apply elem_of_cons in H as [->|H]; [by eexists|]).
  by apply elem_of_nil in H.
Qed.

(** On the record of a fact whose entity, attribute, value and text are
    not blank (every fact the extractor emits is such a fact) the
    validator does not raise and reports no missing or blank field: the
    answer is empty, or the one message about the sentence when the text
    has two periods or more, or more than 40 words, or an inner
    newline. *)
Theorem validate_well_formed (order : list string) (source_doc : string)
    (f : fact) (idx : Z) :
  order ≡ₚ REQUIRED_FIELDS ->
  well_formed source_doc f ->
  validate_chunk order (to_dict f) idx
  = Ok (if not_single_sentence (strip (Extractor.text f))
        then [tag idx sentence_msg] else []).
Proof.
  intros Horder (_ & He & Ha & Hv & Hvs & Ht).
  unfold validate_chunk, text_stripped, getitem.
  change (to_dict f !! "text") with (Some (JStr (Extractor.text f))).
  simpl.
  rewrite ValidatorSpec.missing_fields_none
    by (intros field Hin; apply to_dict_fields; by rewrite <- Horder).
  rewrite (ValidatorSpec.check_str_ok _ "entity" _ (entity f)),
    (ValidatorSpec.check_str_ok _ "attribute" _ (attribute f)),
    (ValidatorSpec.check_str_ok _ "value" _ (value f)),
    (ValidatorSpec.check_str_ok _ "text" _ (Extractor.text f));
    [|done|done|done|by rewrite Hvs|done|done|done|done].
  simpl. by destruct (not_single_sentence _).
Qed.

(** Hours written with periods: the fact is well formed and the
    validator flags its text. *)
Lemma validate_well_formed_witness :
  REQUIRED_FIELDS ≡ₚ REQUIRED_FIELDS
  /\ extract_atomic_facts "Magic Kingdom: 9 a.m. to 10 p.m., " Samples.hours_doc
     = [hours_fact Samples.hours_doc "Magic Kingdom" "9 a.m. to 10 p.m."]
  /\ validate_chunk REQUIRED_FIELDS
       (to_dict (hours_fact Samples.hours_doc "Magic Kingdom"
                            "9 a.m. to 10 p.m.")) 1
     = Ok [tag 1 sentence_msg].
Proof.
  split; [reflexivity|]. split; [vm_compute; reflexivity|].
  rewrite (validate_well_formed REQUIRED_FIELDS Samples.hours_doc
             (hours_fact Samples.hours_doc "Magic Kingdom"
                         "9 a.m. to 10 p.m.") 1 (reflexivity _)).
  - vm_compute. reflexivity.
  - repeat split; vm_compute; congruence.
Defined.

End ExtractorMore.


(** ** The other builds *)

Module BuildsSpec.
Import Layers Builds.

Lemma traverse_Some (l : list json) :
  traverse json_loads (map Some l) = Ok l.
Proof. induction l as [|a l IH]; [done|]. simpl. by rewrite IH. Qed.

Lemma concat_length_ge {A} (ls : list (list A)) :
  Forall (fun l => l <> []) ls -> (length ls <= length (concat ls))%nat.
Proof.
  induction 1 as [|l ls Hl _ IH]; [done|]. simpl. rewrite length_app.
  destruct l; [done|]. simpl. lia.
Qed.

Lemma context_paths :
  meta_path "data/context_intelligence" "context_intelligence"
  = "data/context_intelligence/context_intelligence_metadata.jsonl"
  /\ index_path "data/context_intelligence" "context_intelligence"
     = "data/context_intelligence/context_intelligence.faiss".
Proof. split; reflexivity. Qed.

Lemma strategy_paths :
  meta_path "data/experience_strategy" "experience_strategy"
  = "data/experience_strategy/experience_strategy_metadata.jsonl"
  /\ index_path "data/experience_strategy" "experience_strategy"
     = "data/experience_strategy/experience_strategy.faiss".
Proof. split; reflexivity. Qed.

Section Store.
Context {vec : Type}.
Variable embed : string -> vec.

(** Two layers written one after the other, with the same records and
    vectors, are both read back by the layer loader. *)
Lemma two_layers_loaded (meta : list json) (index : list vec)
    (d : @disk vec) :
  let d' :=
    write_index "data/experience_strategy/experience_strategy.faiss" index
      (write_jsonl
         "data/experience_strategy/experience_strategy_metadata.jsonl" meta
         (write_index "data/context_intelligence/context_intelligence.faiss"
            index
            (write_jsonl
               "data/context_intelligence/context_intelligence_metadata.jsonl"
               meta d))) in
  load_index_and_metadata "context" d' = Ok (index, meta)
  /\ load_index_and_metadata "strategy" d' = Ok (index, meta).
Proof.
  intros d'. split.
  - unfold load_index_and_metadata.
    change (layer_paths "context")
      with (@Ok (string * string)
              ("data/context_intelligence/context_intelligence.faiss",
               "data/context_intelligence/context_intelligence_metadata.jsonl")).
    unfold read_index, read_jsonl, read_lines, d'. simpl.
    rewrite lookup_insert_ne by done. rewrite lookup_insert_eq. simpl.
    rewrite lookup_insert_ne by done. rewrite lookup_insert_eq. simpl.
    by rewrite traverse_Some.
  - unfold load_index_and_metadata.
    change (layer_paths "strategy")
      with (@Ok (string * string)
              ("data/experience_strategy/experience_strategy.faiss",
               "data/experience_strategy/experience_strategy_metadata.jsonl")).
    unfold read_index, read_jsonl, read_lines, d'. simpl.
    rewrite !lookup_insert_eq. simpl.
    by rewrite traverse_Some.
Qed.

(** *** 06_rebuild_core_factual_index.py *)

Lemma core_imap_entries (fn : json) (chunks : list string) :
  Forall (fun p : json * vec =>
            exists (fn : json) (i : nat) (chunk : string),
              p = (core_chunk_record fn i chunk, embed chunk))
    (imap (fun i '(chunk, emb) => (core_chunk_record fn i chunk, emb))
          (zip chunks (encode embed chunks))).
Proof.
  apply Forall_lookup. intros k [r v] Hk.
  rewrite list_lookup_imap in Hk.
  destruct (zip chunks (encode embed chunks) !! k) as [[ch emb]|] eqn:Hp;
    [|done].
  simpl in Hk. injection Hk as <- <-.
  pose proof (LayersSpec.zip_encode embed chunks) as Hz.
  rewrite Forall_lookup in Hz. specialize (Hz k _ Hp). simpl in Hz.
  subst emb. by exists fn, k, ch.
Qed.

Lemma core_doc_entries_shape (doc : json) (es : list (json * vec)) :
  core_doc_entries embed doc = Ok es ->
  es <> []
  /\ Forall (fun p : json * vec =>
               exists (fn : json) (i : nat) (chunk : string),
                 p = (core_chunk_record fn i chunk, embed chunk)) es.
Proof.
  unfold core_doc_entries.
  destruct (subscript doc "content") as [content|]; [|done]. simpl.
  destruct content as [| | | |s| |]; try done. simpl.
  destruct (ChunkerMore.default_split_nonempty s) as (c & chunks & ->).
  simpl.
  destruct (subscript doc "file_name") as [fn|]; [|done]. simpl.
  intros [= <-]. split; [done|].
  exact (core_imap_entries fn (c :: chunks)).
Qed.

Lemma core_doc_entries_runs (doc : json) :
  (exists (o : pydict) (t : string),
     doc = JObj o /\ o !! "content" = Some (JStr t)
     /\ is_Some (o !! "file_name")) ->
  exists es : list (json * vec), core_doc_entries embed doc = Ok es.
Proof.
  intros (o & t & -> & Hc & [fn Hfn]).
  unfold core_doc_entries, subscript, getitem. rewrite Hc. simpl.
  destruct (ChunkerMore.default_split_nonempty t) as (c & chunks & ->).
  simpl. rewrite Hfn. simpl. by eexists.
Qed.

Lemma core_entries_all (docs : list json)
    (per_doc : list (list (json * vec))) :
  traverse (core_doc_entries embed) docs = Ok per_doc ->
  Forall (fun es => es <> []) per_doc
  /\ Forall (fun p : json * vec =>
               exists (fn : json) (i : nat) (chunk : string),
                 p = (core_chunk_record fn i chunk, embed chunk))
            (concat per_doc).
Proof.
  intros Ht. apply LayersSpec.traverse_Forall2 in Ht.
  induction Ht as [|doc es docs' per' Hdoc _ [IH1 IH2]].
  - split; constructor.
  - destruct (core_doc_entries_shape doc es Hdoc) as [Hne Hes].
    split; [by constructor|]. simpl. by apply Forall_app.
Qed.

Lemma rebuild_core_index_inv (dirs : gset string) (d d' : @disk vec) :
  rebuild_core_index embed dirs d = (d', Ok tt) ->
  exists (docs : list json) (per_doc : list (list (json * vec))),
    load_factual_docs d = Ok docs
    /\ traverse (core_doc_entries embed) docs = Ok per_doc
    /\ map snd (concat per_doc) <> []
    /\ d' = write_index CORE_INDEX (map snd (concat per_doc))
              (np_save CORE_NPY (map snd (concat per_doc))
                 (write_jsonl CORE_META (map fst (concat per_doc)) d)).
Proof.
  unfold rebuild_core_index.
  destruct (load_factual_docs d) as [docs|] eqn:Hl; [|intros [= _ ?]; done].
  destruct (traverse _ docs) as [per_doc|] eqn:Ht; [|intros [= _ ?]; done].
  destruct (bool_decide (EMBEDDINGS_DIR ∈ dirs)); [|intros [= _ ?]; done].
  destruct (shape1 (map snd (concat per_doc))) eqn:Hs;
    [|intros [= _ ?]; done].
  destruct (bool_decide (INDEX_DIR ∈ dirs)); [|intros [= _ ?]; done].
  intros [= <-]. exists docs, per_doc.
  split; [done|]. split; [done|]. split; [|done].
  intros E. rewrite E in Hs. done.
Qed.

(** A core build from the factual documents that completes leaves an
    aligned layer: the metadata file and the index file hold as many
    records as vectors, vector [i] is the embedding of the text of record
    [i], the same vectors are in the array file, there is at least one,
    and every record has the four keys of a chunk record, [char_count]
    being the length of [text]. *)
Theorem rebuild_core_index_aligned (dirs : gset string)
    (d d' : @disk vec) :
  rebuild_core_index embed dirs d = (d', Ok tt) ->
  exists (meta : list json) (index : list vec),
    on_disk d' CORE_META CORE_INDEX meta index
    /\ npy_files d' !! CORE_NPY = Some index
    /\ aligned embed meta index
    /\ index <> []
    /\ Forall (fun r => exists (fn : json) (i : nat) (chunk : string),
                 r = core_chunk_record fn i chunk) meta.
Proof.
  intros H.
  destruct (rebuild_core_index_inv dirs d d' H)
    as (docs & per_doc & _ & Ht & Hne & ->).
  destruct (core_entries_all docs per_doc Ht) as [_ Hes].
  exists (map fst (concat per_doc)), (map snd (concat per_doc)).
  split; [split; simpl; apply lookup_insert_eq|].
  split; [simpl; apply lookup_insert_eq|].
  split; [|split; [done|]].
  - apply LayersSpec.aligned_entries.
    eapply Forall_impl; [exact Hes|].
    intros p (fn & i & chunk & ->). by exists chunk.
  - apply Forall_fmap. eapply Forall_impl; [exact Hes|].
    intros p (fn & i & chunk & ->). by exists fn, i, chunk.
Qed.

Lemma core_entries_run (docs : list json) :
  Forall (fun doc => exists (o : pydict) (t : string),
            doc = JObj o /\ o !! "content" = Some (JStr t)
            /\ is_Some (o !! "file_name")) docs ->
  exists per_doc : list (list (json * vec)),
    traverse (core_doc_entries embed) docs = Ok per_doc.
Proof.
  induction 1 as [|doc docs Hdoc _ [per IH]].
  - by exists [].
  - destruct (core_doc_entries_runs doc Hdoc) as [es Hes].
    exists (es :: per). simpl. by rewrite Hes, IH.
Qed.

(** The core build needs its two directories, which it does not
    create.  When at least one factual document is there and each one
    read is an object with a string [content] and a [file_name]: with
    data/embeddings and data/index in place the build completes, and
    every document gives at least one record, also a document whose
    content is empty; with data/embeddings missing it raises
    FileNotFoundError and writes nothing. *)
Theorem rebuild_core_index_runs (dirs : gset string) (d : @disk vec)
    (docs : list json) :
  load_factual_docs d = Ok docs ->
  docs <> [] ->
  Forall (fun doc => exists (o : pydict) (t : string),
            doc = JObj o /\ o !! "content" = Some (JStr t)
            /\ is_Some (o !! "file_name")) docs ->
  (EMBEDDINGS_DIR ∈ dirs -> INDEX_DIR ∈ dirs ->
   exists (d' : @disk vec) (meta : list json),
     rebuild_core_index embed dirs d = (d', Ok tt)
     /\ jsonl_files d' !! CORE_META = Some (map Some meta)
     /\ (length docs <= length meta)%nat)
  /\ (EMBEDDINGS_DIR ∉ dirs ->
      rebuild_core_index embed dirs d
      = (d, Raise (FileNotFoundError CORE_META))).
Proof.
  intros Hload Hne Hall.
  destruct (core_entries_run docs Hall) as [per_doc Ht].
  split.
  - intros Hemb Hidx.
    destruct (core_entries_all docs per_doc Ht) as [Hnes _].
    pose proof (concat_length_ge per_doc Hnes) as Hlen.
    assert (length per_doc = length docs) as Hpd.
    { apply LayersSpec.traverse_Forall2, Forall2_length in Ht. done. }
    unfold rebuild_core_index. rewrite Hload, Ht.
    rewrite (bool_decide_eq_true_2 _ Hemb), (bool_decide_eq_true_2 _ Hidx).
    destruct (concat per_doc) as [|p entries] eqn:Hc.
    { simpl in Hlen. destruct docs; [done | simpl in Hpd; lia]. }
    eexists _, (map fst (p :: entries)). split; [reflexivity|].
    split; [simpl; apply lookup_insert_eq|].
    rewrite length_map. lia.
  - intros Hemb. unfold rebuild_core_index. rewrite Hload, Ht.
    by rewrite (bool_decide_eq_false_2 _ Hemb).
Qed.

Lemma load_none (names : list string) (d : @disk vec) :
  (forall name : string,
     name ∈ names -> jsonl_files d !! processed_path name = None) ->
  load_documents_by_name names d = Ok [].
Proof.
  induction names as [|name names IH]; intros Hnone; [done|]. simpl.
  rewrite (Hnone name) by apply list_elem_of_here.
  apply IH. intros n Hn. apply Hnone. by apply list_elem_of_further.
Qed.

(** With none of the factual documents on disk the core build fails.
    When data/embeddings is there it fails with an IndexError, and only
    after it has replaced the metadata file and the array file by empty
    ones; the index file is left as it was.  When data/embeddings is
    missing it fails with FileNotFoundError at the first file it opens,
    and the disk is left as it was. *)
Theorem rebuild_core_index_no_docs (dirs : gset string) (d : @disk vec) :
  (forall name : string,
     name ∈ FACTUAL_DOCS -> jsonl_files d !! processed_path name = None) ->
  (EMBEDDINGS_DIR ∈ dirs ->
   exists d' : @disk vec,
     rebuild_core_index embed dirs d = (d', Raise IndexError)
     /\ jsonl_files d' !! CORE_META = Some []
     /\ npy_files d' !! CORE_NPY = Some []
     /\ index_files d' = index_files d)
  /\ (EMBEDDINGS_DIR ∉ dirs ->
      rebuild_core_index embed dirs d
      = (d, Raise (FileNotFoundError CORE_META))).
Proof.
  intros Hnone. split; intros Hemb.
  - unfold rebuild_core_index, load_factual_docs.
    rewrite (load_none FACTUAL_DOCS d Hnone). simpl.
    rewrite (bool_decide_eq_true_2 _ Hemb).
    eexists. split; [reflexivity|]. simpl.
    split; [apply lookup_insert_eq|]. split; [apply lookup_insert_eq | done].
  - unfold rebuild_core_index, load_factual_docs.
    rewrite (load_none FACTUAL_DOCS d Hnone). simpl.
    by rewrite (bool_decide_eq_false_2 _ Hemb).
Qed.

(** *** 04_build_auxiliary_layers.py, [main] *)

Lemma embed_and_save_layer_inv (docs : list json)
    (layer_name output_dir : string) (d d' : @disk vec) :
  embed_and_save_layer embed docs layer_name output_dir d = (d', Ok tt) ->
  exists per_doc : list (list (json * vec)),
    traverse (doc_entries embed) docs = Ok per_doc
    /\ map snd (concat per_doc) <> []
    /\ d' = write_index (index_path output_dir layer_name)
              (map snd (concat per_doc))
              (write_jsonl (meta_path output_dir layer_name)
                 (map fst (concat per_doc)) d).
Proof.
  unfold embed_and_save_layer.
  destruct (traverse (doc_entries embed) docs) as [per_doc|] eqn:Ht;
    [|intros [= _ ?]; done].
  destruct (shape1 (map snd (concat per_doc))) eqn:Hs;
    [|intros [= _ ?]; done].
  intros [= <-]. exists per_doc.
  split; [done|]. split; [|done].
  intros E. rewrite E in Hs. done.
Qed.

(** When the build of the auxiliary layers completes, either no source
    document was found and nothing was written, or both layers are on
    disk with the same records and the same vectors, aligned and not
    empty, under the paths the layer loader reads for the layers
    context and strategy. *)
Theorem build_auxiliary_layers_outcome (d d' : @disk vec) :
  build_auxiliary_layers embed d = (d', Ok tt) ->
  (load_documents_by_name AUX_SOURCE_DOCS d = Ok [] /\ d' = d)
  \/ exists (meta : list json) (index : list vec),
       load_index_and_metadata "context" d' = Ok (index, meta)
       /\ load_index_and_metadata "strategy" d' = Ok (index, meta)
       /\ aligned embed meta index
       /\ index <> [].
Proof.
  unfold build_auxiliary_layers.
  destruct (load_documents_by_name AUX_SOURCE_DOCS d) as [docs|];
    [|intros [= _ ?]; done].
  destruct docs as [|doc docs]; [intros [= <-]; by left|].
  destruct (embed_and_save_layer embed (doc :: docs) "context_intelligence"
              "data/context_intelligence" d) as [d1 [[]|e]] eqn:H1;
    [|intros [= _ ?]; done].
  intros H2. right.
  destruct (embed_and_save_layer_inv _ _ _ _ _ H1) as (per & Ht & Hne & ->).
  destruct (embed_and_save_layer_inv _ _ _ _ _ H2) as (per' & Ht' & _ & ->).
  rewrite Ht in Ht'. injection Ht' as <-.
  destruct context_paths as [-> ->]. destruct strategy_paths as [-> ->].
  exists (map fst (concat per)), (map snd (concat per)).
  destruct (two_layers_loaded (map fst (concat per)) (map snd (concat per)) d)
    as [Hc Hs].
  split; [exact Hc|]. split; [exact Hs|]. split; [|done].
  by apply LayersSpec.aligned_entries, (LayersSpec.all_entries_ok embed
                                          (doc :: docs)).
Qed.

(** *** 09_rebuild_travel_layers.py *)

(** Every chunk the travel filter keeps is a sentence without white
    space around it, of 30 to 300 characters, that names, in any case,
    one of the travel keywords and none of the excluded ones. *)
Theorem clean_chunks_kept (d : @disk vec) (chunks : list string)
    (c : string) :
  extract_clean_chunks_from_kb d = Ok chunks ->
  c ∈ chunks ->
  Py.strip c = c
  /\ 30 <= Py.len c <= 300
  /\ mentions irrelevant_keywords (Py.lower c) = false
  /\ mentions travel_keywords (Py.lower c) = true.
Proof.
  unfold extract_clean_chunks_from_kb.
  destruct (jsonl_files d !! KB_PATH) as [lines|];
    [|intros [= <-] Hc; by apply elem_of_nil in Hc].
  destruct (first_line lines) as [doc|]; [|done]. simpl.
  destruct (subscript doc "content") as [content|]; [|done]. simpl.
  destruct content as [| | | |text| |]; try done. simpl.
  intros [= <-] Hc.
  apply list_elem_of_filter in Hc as [Hk Hc].
  apply list_elem_of_fmap in Hc as (s & -> & _).
  unfold kept, is_travel_relevant in Hk. cbv zeta in Hk.
  apply andb_true_iff in Hk as [Hlen Hrel].
  apply negb_true_iff, orb_false_iff in Hlen as [Hlo Hhi].
  apply Z.ltb_ge in Hlo, Hhi.
  split; [apply ExtractorMore.strip_idem|]. split; [lia|].
  destruct (mentions irrelevant_keywords (Py.lower (Py.strip s))) eqn:E;
    [done|].
  split; [exact E | exact Hrel].
Qed.

Lemma save_layer_eq (name : string) (chunks : list string) (d : @disk vec) :
  chunks <> [] ->
  save_layer embed name chunks d
  = (write_index (index_path (layer_dir name) name) (encode embed chunks)
       (np_save (layer_dir name +:+ "/embeddings.npy") (encode embed chunks)
          (write_jsonl (meta_path (layer_dir name) name)
             (imap travel_record chunks) d)), Ok tt).
Proof. intros Hne. unfold save_layer. by destruct chunks. Qed.

Lemma travel_aligned (chunks : list string) :
  aligned embed (imap travel_record chunks) (encode embed chunks).
Proof.
  split; [unfold encode; by rewrite length_imap, length_map|].
  intros i r Hi. rewrite list_lookup_imap in Hi.
  destruct (chunks !! i) as [c|] eqn:Hc; [|done].
  simpl in Hi. injection Hi as <-. exists c. split; [done|].
  unfold encode. by rewrite list_lookup_fmap, Hc.
Qed.

(** Whenever the knowledge base can be read, the rebuild of the travel
    layers completes.  With no chunk kept nothing is written; otherwise
    both layers hold the kept chunks in order, numbered from 0, with the
    embedding of each, and the layer loader reads the same aligned pair
    for the layers context and strategy. *)
Theorem rebuild_travel_layers_outcome (d : @disk vec)
    (chunks : list string) :
  extract_clean_chunks_from_kb d = Ok chunks ->
  exists d' : @disk vec,
    rebuild_travel_layers embed d = (d', Ok tt)
    /\ (chunks = [] -> d' = d)
    /\ (chunks <> [] ->
        load_index_and_metadata "context" d'
        = Ok (encode embed chunks, imap travel_record chunks)
        /\ load_index_and_metadata "strategy" d'
           = Ok (encode embed chunks, imap travel_record chunks)
        /\ aligned embed (imap travel_record chunks) (encode embed chunks)).
Proof.
  intros Hx. unfold rebuild_travel_layers. rewrite Hx.
  destruct chunks as [|c chunks]; [by exists d|].
  rewrite (save_layer_eq "context_intelligence" (c :: chunks)) by done.
  rewrite (save_layer_eq "experience_strategy" (c :: chunks)) by done.
  eexists. split; [reflexivity|]. split; [done|]. intros _.
  split; [|split; [|apply travel_aligned]].
  - unfold load_index_and_metadata.
    change (layer_paths "context")
      with (@Ok (string * string)
              ("data/context_intelligence/context_intelligence.faiss",
               "data/context_intelligence/context_intelligence_metadata.jsonl")).
    unfold read_index, read_jsonl, read_lines. simpl.
    rewrite lookup_insert_ne by done. rewrite lookup_insert_eq. simpl.
    rewrite lookup_insert_ne by done. rewrite lookup_insert_eq. simpl.
    by rewrite traverse_Some.
  - unfold load_index_and_metadata.
    change (layer_paths "strategy")
      with (@Ok (string * string)
              ("data/experience_strategy/experience_strategy.faiss",
               "data/experience_strategy/experience_strategy_metadata.jsonl")).
    unfold read_index, read_jsonl, read_lines. simpl.
    rewrite !lookup_insert_eq. simpl.
    by rewrite traverse_Some.
Qed.

End Store.

Lemma core_dirs_there :
  EMBEDDINGS_DIR ∈ BuildSamples.core_dirs /\ INDEX_DIR ∈ BuildSamples.core_dirs.
Proof. split; apply (bool_decide_unpack _); by vm_compute. Qed.

Lemma rebuild_core_index_aligned_witness :
  exists (meta : list json) (index : list Z),
    on_disk (rebuild_core_index Samples.toy_embed BuildSamples.core_dirs
               BuildSamples.hours_only).1
            CORE_META CORE_INDEX meta index
    /\ npy_files
         (rebuild_core_index Samples.toy_embed BuildSamples.core_dirs
            BuildSamples.hours_only).1
       !! CORE_NPY = Some index
    /\ aligned Samples.toy_embed meta index
    /\ index <> []
    /\ Forall (fun r => exists (fn : json) (i : nat) (chunk : string),
                 r = core_chunk_record fn i chunk) meta.
Proof.
  apply (rebuild_core_index_aligned Samples.toy_embed BuildSamples.core_dirs
           BuildSamples.hours_only).
  vm_compute. reflexivity.
Defined.

(** With the two directories the build of the hours document completes;
    on the same disk without any directory it raises and writes
    nothing. *)
Lemma rebuild_core_index_runs_witness :
  (exists (d' : @disk Z) (meta : list json),
     rebuild_core_index Samples.toy_embed BuildSamples.core_dirs
       BuildSamples.hours_only = (d', Ok tt)
     /\ jsonl_files d' !! CORE_META = Some (map Some meta)
     /\ (1 <= length meta)%nat)
  /\ rebuild_core_index Samples.toy_embed ∅ BuildSamples.hours_only
     = (BuildSamples.hours_only, Raise (FileNotFoundError CORE_META)).
Proof.
  assert (load_factual_docs BuildSamples.hours_only
          = Ok [ JObj {[ "content" := JStr Samples.hours_page;
                         "file_name" := JStr Samples.hours_doc ]} ]) as Hload
    by (vm_compute; reflexivity).
  assert (Forall (fun doc => exists (o : pydict) (t : string),
                    doc = JObj o /\ o !! "content" = Some (JStr t)
                    /\ is_Some (o !! "file_name"))
            [ JObj {[ "content" := JStr Samples.hours_page;
                      "file_name" := JStr Samples.hours_doc ]} ]) as Hall.
  { constructor; [|constructor].
    eexists _, Samples.hours_page. split; [reflexivity|].
    split; [reflexivity | by eexists]. }
  split.
  - apply (proj1 (rebuild_core_index_runs Samples.toy_embed
                    BuildSamples.core_dirs BuildSamples.hours_only _
                    Hload ltac:(discriminate) Hall));
      apply core_dirs_there.
  - apply (proj2 (rebuild_core_index_runs Samples.toy_embed ∅
                    BuildSamples.hours_only _
                    Hload ltac:(discriminate) Hall)).
    apply not_elem_of_empty.
Defined.

(** A disk that holds a core layer and no processed document. *)
Lemma rebuild_core_index_no_docs_witness :
  (exists d' : @disk Z,
     rebuild_core_index Samples.toy_embed BuildSamples.core_dirs
       BuildSamples.built_core = (d', Raise IndexError)
     /\ jsonl_files d' !! CORE_META = Some []
     /\ npy_files d' !! CORE_NPY = Some []
     /\ index_files d' = index_files BuildSamples.built_core)
  /\ rebuild_core_index Samples.toy_embed ∅ Samples.no_files
     = (Samples.no_files, Raise (FileNotFoundError CORE_META)).
Proof.
  split.
  - destruct (rebuild_core_index_no_docs Samples.toy_embed
                BuildSamples.core_dirs BuildSamples.built_core) as [H _].
    + intros name Hin. unfold FACTUAL_DOCS in Hin.
      repeat (apply elem_of_cons in Hin as [->|Hin]; [reflexivity|]).
      by apply elem_of_nil in Hin.
    + apply H, core_dirs_there.
  - destruct (rebuild_core_index_no_docs Samples.toy_embed ∅
                Samples.no_files) as [_ H].
    + intros name Hin. apply lookup_empty.
    + apply H, not_elem_of_empty.
Defined.

Lemma build_auxiliary_layers_outcome_witness :
  (load_documents_by_name AUX_SOURCE_DOCS BuildSamples.kb_only = Ok []
   /\ (build_auxiliary_layers Samples.toy_embed BuildSamples.kb_only).1
      = BuildSamples.kb_only)
  \/ exists (meta : list json) (index : list Z),
       load_index_and_metadata "context"
         (build_auxiliary_layers Samples.toy_embed BuildSamples.kb_only).1
       = Ok (index, meta)
       /\ load_index_and_metadata "strategy"
            (build_auxiliary_layers Samples.toy_embed BuildSamples.kb_only).1
          = Ok (index, meta)
       /\ aligned Samples.toy_embed meta index
       /\ index <> [].
Proof.
  apply (build_auxiliary_layers_outcome Samples.toy_embed
           BuildSamples.kb_only).
  vm_compute. reflexivity.
Defined.

Lemma clean_chunks_kept_witness :
  Py.strip "Arrive before opening to avoid the crowd at Magic Kingdom."
  = "Arrive before opening to avoid the crowd at Magic Kingdom."
  /\ 30 <= Py.len "Arrive before opening to avoid the crowd at Magic Kingdom."
     <= 300
  /\ mentions irrelevant_keywords
       (Py.lower "Arrive before opening to avoid the crowd at Magic Kingdom.")
     = false
  /\ mentions travel_keywords
       (Py.lower "Arrive before opening to avoid the crowd at Magic Kingdom.")
     = true.
Proof.
  apply (clean_chunks_kept BuildSamples.kb_only
           ["Arrive before opening to avoid the crowd at Magic Kingdom."]).
  - vm_compute. reflexivity.
  - apply list_elem_of_here.
Defined.

Lemma rebuild_travel_layers_outcome_witness :
  exists d' : @disk Z,
    rebuild_travel_layers Samples.toy_embed BuildSamples.kb_only
    = (d', Ok tt)
    /\ load_index_and_metadata "strategy" d'
       = Ok ([58],
             [travel_record 0
                "Arrive before opening to avoid the crowd at Magic Kingdom."]).
Proof.
  destruct (rebuild_travel_layers_outcome Samples.toy_embed
              BuildSamples.kb_only
              ["Arrive before opening to avoid the crowd at Magic Kingdom."])
    as (d' & Hrun & _ & Hfull); [vm_compute; reflexivity|].
  exists d'. split; [exact Hrun|].
  destruct Hfull as (_ & Hs & _); [done|]. exact Hs.
Defined.

End BuildsSpec.


(** ** The other retrievers *)

Module RetrievalSpec.
Import Layers.

Lemma list_index_lookup {A} (l : list A) (i : Z) (a : A) :
  0 <= i -> l !! Z.to_nat i = Some a -> list_index l i = Ok a.
Proof.
  intros Hi Ha. pose proof (lookup_lt_Some _ _ _ Ha) as Hlt.
  unfold list_index.
  destruct (Z.ltb_spec i 0); [lia|].
  destruct (Z.leb_spec 0 i); [|lia].
  destruct (Z.ltb_spec i (Z.of_nat (length l))); [|lia]. simpl.
  by rewrite Ha.
Qed.

Lemma traverse_app {A B} (f : A -> result B) (l1 l2 : list A)
    (b1 b2 : list B) :
  traverse f l1 = Ok b1 -> traverse f l2 = Ok b2 ->
  traverse f (l1 ++ l2) = Ok (b1 ++ b2).
Proof.
  intros H1 H2. apply LayersSpec.traverse_Forall2.
  apply LayersSpec.traverse_Forall2 in H1, H2. by apply Forall2_app.
Qed.

Lemma omap_id_pad {A} (xs : list A) (n : nat) :
  omap id (map Some xs ++ replicate n None) = xs.
Proof.
  induction xs as [|x xs IH].
  - induction n as [|n IHn]; [done | exact IHn].
  - change (x :: omap id (map Some xs ++ replicate n None) = x :: xs).
    by f_equal.
Qed.

(** The records and the texts of a fact file. *)
Lemma fact_lines_loaded (facts : list Extractor.fact) :
  traverse json_loads (map FactFile.fact_line facts)
  = Ok (map (fun f => JObj (FactRecords.to_dict f)) facts).
Proof. induction facts as [|f facts IH]; [done|]. simpl. by rewrite IH. Qed.

Lemma fact_texts (facts : list Extractor.fact) :
  traverse (fun fact => subscript fact "text")
           (map (fun f => JObj (FactRecords.to_dict f)) facts)
  = Ok (map (fun f => JStr (Extractor.text f)) facts).
Proof.
  induction facts as [|f facts IH]; [done|].
  change (map (fun f => JObj (FactRecords.to_dict f)) (f :: facts))
    with (JObj (FactRecords.to_dict f)
          :: map (fun f => JObj (FactRecords.to_dict f)) facts).
  change (traverse ?g (?a :: ?l))
    with (b <- g a ;; bs <- traverse g l ;; Ok (b :: bs)).
  rewrite IH. reflexivity.
Qed.

Lemma fact_strs (facts : list Extractor.fact) :
  traverse as_str (map (fun f => JStr (Extractor.text f)) facts)
  = Ok (map Extractor.text facts).
Proof. induction facts as [|f facts IH]; [done|]. simpl. by rewrite IH. Qed.

Section Store.
Context {vec D : Type}.
Variable embed : string -> vec.
Variable dist : vec -> vec -> D.
Variable le : D -> D -> bool.

Lemma hits_length (index : list vec) (q : vec) :
  length (Faiss.hits dist le index q) = length index.
Proof.
  unfold Faiss.hits. by rewrite FaissSpec.sort_hits_length, length_imap.
Qed.

Lemma search_found (index : list vec) (q : vec) (k : Z) :
  0 < k ->
  Faiss.search dist le index q k
  = Ok (map (fun '(d0, i) => (Some d0, i))
            (take (Z.to_nat k) (Faiss.hits dist le index q))
        ++ replicate
             (Z.to_nat k
              - length (take (Z.to_nat k) (Faiss.hits dist le index q)))%nat
             (None, -1)).
Proof.
  intros Hk. unfold Faiss.search.
  destruct (Z.leb_spec k 0); [lia | reflexivity].
Qed.

Lemma top_valid (index : list vec) (q : vec) (n : nat) :
  Forall (fun h : D * Z => 0 <= h.2 < Z.of_nat (length index))
         (take n (Faiss.hits dist le index q)).
Proof.
  apply Forall_forall. intros [sc id] Hin.
  apply (subseteq_take n) in Hin.
  exact (FaissSpec.hits_ids dist le index q sc id Hin).
Qed.

Lemma top_length (index : list vec) (q : vec) (k : Z) :
  length (take (Z.to_nat k) (Faiss.hits dist le index q))
  = Nat.min (Z.to_nat k) (length index).
Proof. by rewrite length_take, hits_length. Qed.

(** *** 03_retrieve.py *)

Lemma collect_pad (metadata : list json) (i n : nat) :
  Retrieval.collect metadata i (replicate n (@None D, -1)) = Ok [].
Proof.
  revert i. induction n as [|n IH]; intros i; [done|]. exact (IH (S i)).
Qed.

Lemma collect_step (metadata : list json) (i : nat) (sc : option D)
    (id : Z) (rest : list (option D * Z)) (r fn cid t pv : json) :
  id <> -1 ->
  list_index metadata id = Ok r ->
  subscript r "file_name" = Ok fn ->
  subscript r "chunk_id" = Ok cid ->
  subscript r "text" = Ok t ->
  Retrieval.cut300 t = Ok pv ->
  Retrieval.collect metadata i ((sc, id) :: rest)
  = (rs <- Retrieval.collect metadata (S i) rest ;;
     Ok ({| Retrieval.rank := Z.of_nat i + 1; Retrieval.file_name := fn;
            Retrieval.chunk_id := cid; Retrieval.text := pv;
            Retrieval.score := sc |} :: rs)).
Proof.
  intros Hid Hr Hfn Hcid Ht Hpv.
  change (Retrieval.collect metadata i ((sc, id) :: rest))
    with (if id =? -1 then Retrieval.collect metadata (S i) rest
          else
            doc <- list_index metadata id ;;
            fn <- subscript doc "file_name" ;;
            cid <- subscript doc "chunk_id" ;;
            t <- subscript doc "text" ;;
            pv <- Retrieval.cut300 t ;;
            rs <- Retrieval.collect metadata (S i) rest ;;
            Ok ({| Retrieval.rank := Z.of_nat i + 1;
                   Retrieval.file_name := fn; Retrieval.chunk_id := cid;
                   Retrieval.text := pv; Retrieval.score := sc |} :: rs)).
  destruct (Z.eqb_spec id (-1)); [done|].
  rewrite Hr. simpl. rewrite Hfn. simpl. rewrite Hcid. simpl.
  rewrite Ht. simpl. rewrite Hpv. reflexivity.
Qed.

Lemma collect_first_raise (metadata : list json) (i : nat) (sc : option D)
    (id : Z) (rest : list (option D * Z)) (r : json) (e : exn) :
  id <> -1 ->
  list_index metadata id = Ok r ->
  subscript r "file_name" = Raise e ->
  Retrieval.collect metadata i ((sc, id) :: rest) = Raise e.
Proof.
  intros Hid Hr Hfn.
  change (Retrieval.collect metadata i ((sc, id) :: rest))
    with (if id =? -1 then Retrieval.collect metadata (S i) rest
          else
            doc <- list_index metadata id ;;
            fn <- subscript doc "file_name" ;;
            cid <- subscript doc "chunk_id" ;;
            t <- subscript doc "text" ;;
            pv <- Retrieval.cut300 t ;;
            rs <- Retrieval.collect metadata (S i) rest ;;
            Ok ({| Retrieval.rank := Z.of_nat i + 1;
                   Retrieval.file_name := fn; Retrieval.chunk_id := cid;
                   Retrieval.text := pv; Retrieval.score := sc |} :: rs)).
  destruct (Z.eqb_spec id (-1)); [done|].
  rewrite Hr. simpl. by rewrite Hfn.
Qed.

(** The loop of the retriever over the answer of a search, on the
    records of a core build from the factual documents. *)
Lemma collect_core (meta : list json) (l : list (D * Z)) (n i0 : nat) :
  Forall (fun r => exists (fn : json) (j : nat) (chunk : string),
            r = Builds.core_chunk_record fn j chunk) meta ->
  Forall (fun h : D * Z => 0 <= h.2 < Z.of_nat (length meta)) l ->
  exists rs : list (@Retrieval.ranked D),
    Retrieval.collect meta i0
      (map (fun '(d0, i) => (Some d0, i)) l ++ replicate n (None, -1))
    = Ok rs
    /\ length rs = length l
    /\ forall (i : nat) (r : @Retrieval.ranked D),
         rs !! i = Some r ->
         Retrieval.rank r = Z.of_nat (i0 + i) + 1
         /\ exists (sc : D) (id : Z) (fn : json) (j : nat) (chunk : string),
              l !! i = Some (sc, id)
              /\ meta !! Z.to_nat id
                 = Some (Builds.core_chunk_record fn j chunk)
              /\ Retrieval.file_name r = fn
              /\ Retrieval.chunk_id r = JInt (Z.of_nat j)
              /\ Retrieval.text r
                 = JStr (if 300 <? Py.len chunk
                         then Py.stake 300 chunk +:+ "..." else chunk)
              /\ Retrieval.score r = Some sc.
Proof.
  intros Hmeta Hl. revert i0.
  induction Hl as [|[sc id] l Hid _ IH]; intros i0.
  - exists []. split; [apply collect_pad|]. split; [done|].
    intros i r Hi. by rewrite lookup_nil in Hi.
  - simpl in Hid.
    destruct (lookup_lt_is_Some_2 meta (Z.to_nat id)) as [rec Hrec]; [lia|].
    rewrite Forall_lookup in Hmeta.
    destruct (Hmeta _ _ Hrec) as (fn & j & chunk & ->).
    destruct (IH (S i0)) as (rs & Hrs & Hlen & Hall).
    eexists. split; [|split].
    + change (map (fun '(d0, i) => (Some d0, i)) ((sc, id) :: l)
              ++ replicate n (None, -1))
        with ((Some sc, id)
              :: (map (fun '(d0, i) => (@Some D d0, i)) l
                  ++ replicate n (None, -1))).
      rewrite (collect_step meta i0 (Some sc) id _
                 (Builds.core_chunk_record fn j chunk) fn
                 (JInt (Z.of_nat j)) (JStr chunk)
                 (JStr (if 300 <? Py.len chunk
                        then Py.stake 300 chunk +:+ "..." else chunk)));
        [|lia|apply list_index_lookup; [lia | done]|done..].
      rewrite Hrs. reflexivity.
    + simpl. by rewrite Hlen.
    + intros [|i] r Hi; simpl in Hi.
      * injection Hi as <-. simpl. split; [lia|].
        by exists sc, id, fn, j, chunk.
      * destruct (Hall i r Hi) as [Hrank Hrest]. split; [lia|].
        exact Hrest.
Qed.

(** The retriever run on a core layer that the build from the factual
    documents has left: it returns, one result for each of the
    [min(top_k, n)] nearest vectors and in their order, ranked 1, 2, ...
    without a gap; each result carries the file name and the chunk id of
    the record at the position the search gave, its text cut to 300
    characters and marked with three dots when it is longer, and the
    distance. *)
Theorem retrieve_after_core_rebuild (dirs : gset string)
    (d d' : @disk vec) (query : string) (top_k : Z) :
  Builds.rebuild_core_index embed dirs d = (d', Ok tt) ->
  0 < top_k ->
  exists (rs : list (@Retrieval.ranked D)) (meta : list json)
         (index : list vec),
    on_disk d' CORE_META CORE_INDEX meta index
    /\ Retrieval.retrieve embed dist le query top_k d' = Ok rs
    /\ length rs = Nat.min (Z.to_nat top_k) (length meta)
    /\ forall (i : nat) (r : @Retrieval.ranked D),
         rs !! i = Some r ->
         Retrieval.rank r = Z.of_nat i + 1
         /\ exists (sc : D) (id : Z) (fn : json) (j : nat) (chunk : string),
              take (Z.to_nat top_k)
                   (Faiss.hits dist le index (embed query)) !! i
              = Some (sc, id)
              /\ meta !! Z.to_nat id
                 = Some (Builds.core_chunk_record fn j chunk)
              /\ Retrieval.file_name r = fn
              /\ Retrieval.chunk_id r = JInt (Z.of_nat j)
              /\ Retrieval.text r
                 = JStr (if 300 <? Py.len chunk
                         then Py.stake 300 chunk +:+ "..." else chunk)
              /\ Retrieval.score r = Some sc.
Proof.
  intros Hbuild Hk.
  destruct (BuildsSpec.rebuild_core_index_inv embed dirs d d' Hbuild)
    as (docs & per_doc & _ & Ht & _ & ->).
  destruct (BuildsSpec.core_entries_all embed docs per_doc Ht) as [_ Hes].
  assert (Forall (fun r => exists (fn : json) (j : nat) (chunk : string),
                    r = Builds.core_chunk_record fn j chunk)
                 (map fst (concat per_doc))) as Hmeta.
  { apply Forall_fmap. eapply Forall_impl; [exact Hes|].
    intros p (fn & i & chunk & ->). by exists fn, i, chunk. }
  assert (length (map snd (concat per_doc))
          = length (map fst (concat per_doc))) as Hlen
    by (by rewrite !length_map).
  pose proof (top_valid (map snd (concat per_doc)) (embed query)
                (Z.to_nat top_k)) as Hvalid.
  rewrite Hlen in Hvalid.
  destruct (collect_core (map fst (concat per_doc)) _
              (Z.to_nat top_k
               - length (take (Z.to_nat top_k)
                           (Faiss.hits dist le (map snd (concat per_doc))
                              (embed query))))%nat
              O Hmeta Hvalid) as (rs & Hrs & Hrl & Hall).
  exists rs, (map fst (concat per_doc)), (map snd (concat per_doc)).
  split; [split; simpl; apply lookup_insert_eq|]. split; [|split].
  - unfold Retrieval.retrieve, Retrieval.load_resources, read_index,
      read_jsonl, read_lines.
    simpl.
    unfold Retrieval.INDEX_PATH, Retrieval.METADATA_PATH, CORE_INDEX,
      CORE_META.
    rewrite !lookup_insert_eq. simpl.
    rewrite BuildsSpec.traverse_Some. simpl.
    rewrite (search_found _ _ _ Hk). exact Hrs.
  - by rewrite Hrl, top_length, Hlen.
  - exact Hall.
Qed.

(** *** The core built from the atomic facts *)

Lemma atomic_build (d : @disk vec) (facts : list Extractor.fact) :
  jsonl_files d !! ATOMIC_PATH = Some (map FactFile.fact_line facts) ->
  facts <> [] ->
  rebuild_atomic_core embed d
  = (write_index CORE_INDEX (encode embed (map Extractor.text facts))
       (np_save CORE_NPY (encode embed (map Extractor.text facts))
          (write_jsonl CORE_META
             (map (fun f => JObj (FactRecords.to_dict f)) facts) d)),
     Ok tt).
Proof.
  intros Hfile Hne.
  unfold rebuild_atomic_core, load_atomic_facts, read_jsonl, read_lines.
  rewrite Hfile. simpl. rewrite fact_lines_loaded, fact_texts, fact_strs.
  by destruct facts.
Qed.

Lemma atomic_loaded (d : @disk vec) (meta : list json) (index : list vec) :
  read_index
    (write_index CORE_INDEX index
       (np_save CORE_NPY index (write_jsonl CORE_META meta d)))
    "data/index/faiss.index" = Ok index
  /\ read_jsonl
       (write_index CORE_INDEX index
          (np_save CORE_NPY index (write_jsonl CORE_META meta d)))
       "data/embeddings/metadata.jsonl" = Ok meta.
Proof.
  unfold read_index, read_jsonl, read_lines, CORE_INDEX, CORE_META. simpl.
  rewrite !lookup_insert_eq. simpl. by rewrite BuildsSpec.traverse_Some.
Qed.

(** The retriever of step 3 cannot read a core layer built from the
    atomic facts: the records of the extractor have no [file_name], so
    with at least one fact on file the build completes and every
    retrieval with [top_k >= 1] ends in [KeyError: 'file_name'], for
    every query. *)
Theorem retrieve_atomic_core_key_error (d : @disk vec)
    (facts : list Extractor.fact) (query : string) (top_k : Z) :
  jsonl_files d !! ATOMIC_PATH = Some (map FactFile.fact_line facts) ->
  facts <> [] ->
  0 < top_k ->
  exists d' : @disk vec,
    rebuild_atomic_core embed d = (d', Ok tt)
    /\ Retrieval.retrieve embed dist le query top_k d'
       = Raise (KeyError "file_name").
Proof.
  intros Hfile Hne Hk. eexists. split; [by apply atomic_build|].
  destruct (atomic_loaded d
              (map (fun f => JObj (FactRecords.to_dict f)) facts)
              (encode embed (map Extractor.text facts))) as [Hi Hm].
  unfold Retrieval.retrieve, Retrieval.load_resources,
    Retrieval.INDEX_PATH, Retrieval.METADATA_PATH.
  rewrite Hi. simpl. rewrite Hm. simpl.
  rewrite (search_found _ _ _ Hk).
  pose proof (top_valid (encode embed (map Extractor.text facts))
                (embed query) (Z.to_nat top_k)) as Hvalid.
  pose proof (top_length (encode embed (map Extractor.text facts))
                (embed query) top_k) as Hlen.
  destruct (take (Z.to_nat top_k) _) as [|[sc id] top].
  { unfold encode in Hlen. rewrite !length_map in Hlen.
    destruct facts; [done | simpl in Hlen; lia]. }
  apply Forall_cons in Hvalid as [Hid _]. simpl in Hid.
  unfold encode in Hid. rewrite !length_map in Hid. simpl.
  destruct (lookup_lt_is_Some_2 facts (Z.to_nat id)) as [f Hf]; [lia|].
  apply (collect_first_raise _ _ _ _ _ (JObj (FactRecords.to_dict f)));
    [lia| |done].
  apply list_index_lookup; [lia|]. by rewrite list_lookup_fmap, Hf.
Qed.

(** *** src/retrieve/context_fusion.py *)

Lemma fusion_pad (metadata : list json) (n : nat) :
  traverse (Retrieval.fusion_hit metadata) (replicate n (@None D, -1))
  = Ok (replicate n None).
Proof. induction n as [|n IH]; [done|]. simpl. by rewrite IH. Qed.

Lemma fusion_facts (facts : list Extractor.fact) (l : list (D * Z)) :
  Forall (fun h : D * Z => 0 <= h.2 < Z.of_nat (length facts)) l ->
  exists texts : list json,
    traverse (Retrieval.fusion_hit
                (map (fun f => JObj (FactRecords.to_dict f)) facts))
             (map (fun '(d0, i) => (Some d0, i)) l)
    = Ok (map Some texts)
    /\ Forall2 (fun (h : D * Z) (t : json) =>
                  exists f : Extractor.fact,
                    facts !! Z.to_nat h.2 = Some f
                    /\ t = JStr (Extractor.text f)) l texts.
Proof.
  induction 1 as [|[sc id] l Hid _ (texts & Ht & Hall)].
  - exists []. split; [done | constructor].
  - simpl in Hid.
    destruct (lookup_lt_is_Some_2 facts (Z.to_nat id)) as [f Hf]; [lia|].
    exists (JStr (Extractor.text f) :: texts). split.
    + change (map (fun '(d0, i) => (Some d0, i)) ((sc, id) :: l))
        with ((Some sc, id) :: map (fun '(d0, i) => (@Some D d0, i)) l).
      change (traverse ?g (?a :: ?l0))
        with (b <- g a ;; bs <- traverse g l0 ;; Ok (b :: bs)).
      rewrite Ht.
      assert (Retrieval.fusion_hit
                (map (fun f => JObj (FactRecords.to_dict f)) facts)
                (Some sc, id) = Ok (Some (JStr (Extractor.text f)))) as ->;
        [|done].
      unfold Retrieval.fusion_hit.
      destruct (Z.eqb_spec id (-1)); [lia|].
      rewrite (list_index_lookup _ id (JObj (FactRecords.to_dict f)));
        [done|lia|by rewrite list_lookup_fmap, Hf].
    + constructor; [by exists f | done].
Qed.

(** The fusion engine on a core layer built from the atomic facts:
    with at least one fact on file the build completes, the engine loads
    the layer, and a retrieval with [top_k >= 1] returns
    [min(top_k, n)] texts, the whole text of the fact at each of the
    nearest positions, in the order of the search, with nothing for the
    padding. *)
Theorem fusion_retrieve_atomic_core (d : @disk vec)
    (facts : list Extractor.fact) (query : string) (top_k : Z) :
  jsonl_files d !! ATOMIC_PATH = Some (map FactFile.fact_line facts) ->
  facts <> [] ->
  0 < top_k ->
  exists (d' : @disk vec) (e : @Retrieval.engine vec) (texts : list json),
    rebuild_atomic_core embed d = (d', Ok tt)
    /\ Retrieval.engine_init d' = Ok e
    /\ Retrieval.fusion_retrieve embed dist le e query top_k = Ok texts
    /\ length texts = Nat.min (Z.to_nat top_k) (length facts)
    /\ Forall2 (fun (h : D * Z) (t : json) =>
                  exists f : Extractor.fact,
                    facts !! Z.to_nat h.2 = Some f
                    /\ t = JStr (Extractor.text f))
         (take (Z.to_nat top_k)
               (Faiss.hits dist le
                  (encode embed (map Extractor.text facts)) (embed query)))
         texts.
Proof.
  intros Hfile Hne Hk.
  destruct (atomic_loaded d
              (map (fun f => JObj (FactRecords.to_dict f)) facts)
              (encode embed (map Extractor.text facts))) as [Hi Hm].
  pose proof (top_valid (encode embed (map Extractor.text facts))
                (embed query) (Z.to_nat top_k)) as Hvalid.
  pose proof (top_length (encode embed (map Extractor.text facts))
                (embed query) top_k) as Hlen.
  unfold encode in Hvalid at 1. unfold encode in Hlen at 2.
  rewrite !length_map in Hvalid. rewrite !length_map in Hlen.
  destruct (fusion_facts facts _ Hvalid) as (texts & Ht & Hall).
  eexists _, {| Retrieval.eng_index :=
                  encode embed (map Extractor.text facts);
                Retrieval.eng_metadata :=
                  map (fun f => JObj (FactRecords.to_dict f)) facts |}, texts.
  split; [by apply atomic_build|]. split; [|split; [|split]].
  - unfold Retrieval.engine_init. rewrite Hi. simpl. by rewrite Hm.
  - unfold Retrieval.fusion_retrieve. simpl.
    rewrite (search_found _ _ _ Hk). simpl.
    rewrite (traverse_app _ _ _ _ _ Ht (fusion_pad _ _)). simpl.
    by rewrite omap_id_pad.
  - apply Forall2_length in Hall. by rewrite <- Hall, Hlen.
  - exact Hall.
Qed.

End Store.

Lemma retrieve_after_core_rebuild_witness :
  exists (rs : list (@Retrieval.ranked Z)) (meta : list json)
         (index : list Z),
    on_disk (Builds.rebuild_core_index Samples.toy_embed
               BuildSamples.core_dirs BuildSamples.hours_only).1
            CORE_META CORE_INDEX meta index
    /\ Retrieval.retrieve Samples.toy_embed Samples.toy_dist Z.leb
         "When does Magic Kingdom open?" 3
         (Builds.rebuild_core_index Samples.toy_embed
            BuildSamples.core_dirs BuildSamples.hours_only).1 = Ok rs
    /\ length rs = Nat.min (Z.to_nat 3) (length meta)
    /\ forall (i : nat) (r : @Retrieval.ranked Z),
         rs !! i = Some r ->
         Retrieval.rank r = Z.of_nat i + 1
         /\ exists (sc : Z) (id : Z) (fn : json) (j : nat) (chunk : string),
              take (Z.to_nat 3)
                   (Faiss.hits Samples.toy_dist Z.leb index
                      (Samples.toy_embed "When does Magic Kingdom open?"))
                !! i = Some (sc, id)
              /\ meta !! Z.to_nat id
                 = Some (Builds.core_chunk_record fn j chunk)
              /\ Retrieval.file_name r = fn
              /\ Retrieval.chunk_id r = JInt (Z.of_nat j)
              /\ Retrieval.text r
                 = JStr (if 300 <? Py.len chunk
                         then Py.stake 300 chunk +:+ "..." else chunk)
              /\ Retrieval.score r = Some sc.
Proof.
  apply (retrieve_after_core_rebuild Samples.toy_embed Samples.toy_dist
           Z.leb BuildSamples.core_dirs BuildSamples.hours_only).
  - vm_compute. reflexivity.
  - lia.
Defined.

Lemma retrieve_atomic_core_key_error_witness :
  exists d' : @disk Z,
    rebuild_atomic_core Samples.toy_embed BuildSamples.page_facts_only
    = (d', Ok tt)
    /\ Retrieval.retrieve Samples.toy_embed Samples.toy_dist Z.leb
         "When does Magic Kingdom open?" 3 d'
       = Raise (KeyError "file_name").
Proof.
  apply (retrieve_atomic_core_key_error Samples.toy_embed Samples.toy_dist
           Z.leb BuildSamples.page_facts_only BuildSamples.page_facts).
  - reflexivity.
  - vm_compute. discriminate.
  - lia.
Defined.

Lemma fusion_retrieve_atomic_core_witness :
  exists (d' : @disk Z) (e : @Retrieval.engine Z) (texts : list json),
    rebuild_atomic_core Samples.toy_embed BuildSamples.page_facts_only
    = (d', Ok tt)
    /\ Retrieval.engine_init d' = Ok e
    /\ Retrieval.fusion_retrieve Samples.toy_embed Samples.toy_dist Z.leb e
         "When does Magic Kingdom open?" 5 = Ok texts
    /\ length texts = Nat.min (Z.to_nat 5) (length BuildSamples.page_facts).
Proof.
  destruct (fusion_retrieve_atomic_core Samples.toy_embed Samples.toy_dist
              Z.leb BuildSamples.page_facts_only BuildSamples.page_facts
              "When does Magic Kingdom open?" 5)
    as (d' & e & texts & H1 & H2 & H3 & H4 & _);
    [reflexivity | vm_compute; discriminate | lia |].
  by exists d', e, texts.
Defined.

End RetrievalSpec.


(** ** Ingestion *)

Module IngestSpec.
Import Py PyFacts Layers Ingest.

Lemma split_go_nonempty (cur s : string) : cur <> "" -> split_go cur s <> [].
Proof.
  revert cur. induction s as [|c s IH]; intros cur Hcur; simpl.
  - by destruct cur.
  - destruct (isspace c).
    + by destruct cur.
    + apply IH. by destruct cur.
Qed.

Lemma split_solid (s : string) :
  FactRecords.starts_solid s = true -> split s <> [].
Proof.
  destruct s as [|c s]; [done|]. simpl. intros Hc.
  apply negb_true_iff in Hc. unfold split. simpl. rewrite Hc.
  by apply split_go_nonempty.
Qed.

Lemma blank_false (text : string) : blank text = false -> strip text <> "".
Proof. unfold blank. by intros H%bool_decide_eq_false. Qed.


Section Parsers.
Context {vec : Type}.
Variable partition_pdf : string -> result (list string).
Variable page_texts : string -> result (list string).
Variable repr_paths : list string -> string.
Variable embed : string -> vec.

Lemma document_ok (p : pdf) (text : string) :
  blank text = false -> is_document p (document p text).
Proof.
  intros Hb%blank_false. exists (strip text).
  split; [done|]. split; [done|].
  split; [apply ExtractorMore.strip_idem|].
  apply split_solid.
  by destruct (ExtractorMore.strip_head text).
Qed.

(** What [process_pdfs] leaves: the paths of the PDFs that gave text, in
    order; behind each of them its document; every other file as it
    was. *)
Lemma process_pdfs_spec (pdf_files : list pdf) (d d' : @disk vec)
    (processed : list string) :
  process_pdfs partition_pdf page_texts pdf_files d = (d', processed) ->
  processed
  = map output_path
        (filter (fun p => blank (extract_text partition_pdf page_texts p)
                          = false) pdf_files)
  /\ index_files d' = index_files d
  /\ npy_files d' = npy_files d
  /\ forall path : string,
       (path ∉ processed ->
        jsonl_files d' !! path = jsonl_files d !! path)
       /\ (path ∈ processed ->
           exists p : pdf,
             p ∈ pdf_files
             /\ output_path p = path
             /\ blank (extract_text partition_pdf page_texts p) = false
             /\ jsonl_files d' !! path
                = Some [Some (document p
                                (extract_text partition_pdf page_texts p))]).
Proof.
  revert d d' processed.
  induction pdf_files as [|p rest IH]; intros d d' processed Hrun.
  - simpl in Hrun. injection Hrun as <- <-.
    split; [done|]. split; [done|]. split; [done|].
    intros path. split; [done|]. intros Hin. by apply elem_of_nil in Hin.
  - simpl in Hrun.
    destruct (blank (extract_text partition_pdf page_texts p)) eqn:Hb.
    + destruct (IH _ _ _ Hrun) as (Hp & Hi & Hn & Hfiles).
      split; [by rewrite filter_cons_False by (by rewrite Hb)|].
      split; [done|]. split; [done|].
      intros path. destruct (Hfiles path) as [Hout Hin].
      split; [done|]. intros Hpath.
      destruct (Hin Hpath) as (q & Hq & Hrest).
      exists q. split; [by apply list_elem_of_further | done].
    + destruct (process_pdfs partition_pdf page_texts rest
                  (write_jsonl (output_path p)
                     [document p (extract_text partition_pdf page_texts p)]
                     d)) as [d2 ps] eqn:Hrest.
      injection Hrun as <- <-.
      destruct (IH _ _ _ Hrest) as (Hp & Hi & Hn & Hfiles).
      split; [by rewrite filter_cons_True by done; simpl; rewrite Hp|].
      split; [done|]. split; [done|].
      intros path. destruct (Hfiles path) as [Hout Hin]. split.
      * intros Hpath. apply not_elem_of_cons in Hpath as [Hne Hnot].
        rewrite (Hout Hnot). simpl. by rewrite lookup_insert_ne.
      * intros Hpath. destruct (decide (path ∈ ps)) as [Hps|Hps].
        -- destruct (Hin Hps) as (q & Hq & Hrest').
           exists q. split; [by apply list_elem_of_further | done].
        -- apply elem_of_cons in Hpath as [->|?]; [|done].
           exists p. split; [apply list_elem_of_here|].
           split; [done|]. split; [done|].
           rewrite (Hout Hps). simpl. apply lookup_insert_eq.
Qed.

(** Every file [process_pdfs] reports holds exactly one line, the
    document of one of the PDFs that names this file: its content is not
    blank and has no white space around it, [char_count] is its length
    and [word_count], at least 1, the number of its words.  The index
    files and the array files are not touched, nor any other .jsonl
    file. *)
Theorem processed_documents (pdf_files : list pdf) (d d' : @disk vec)
    (processed : list string) :
  process_pdfs partition_pdf page_texts pdf_files d = (d', processed) ->
  (forall path : string,
     path ∈ processed ->
     exists (p : pdf) (line : json),
       p ∈ pdf_files
       /\ output_path p = path
       /\ jsonl_files d' !! path = Some [Some line]
       /\ is_document p line)
  /\ (forall path : string,
        path ∉ processed -> jsonl_files d' !! path = jsonl_files d !! path)
  /\ index_files d' = index_files d
  /\ npy_files d' = npy_files d.
Proof.
  intros Hrun.
  destruct (process_pdfs_spec _ _ _ _ Hrun) as (_ & Hi & Hn & Hfiles).
  split; [|split; [|done]].
  - intros path Hpath.
    destruct (proj2 (Hfiles path) Hpath) as (p & Hp & Hout & Hb & Hfile).
    exists p, (document p (extract_text partition_pdf page_texts p)).
    split; [done|]. split; [done|]. split; [done|].
    by apply document_ok.
  - intros path Hpath. exact (proj1 (Hfiles path) Hpath).
Qed.



(** *** Ingestion, then the core build *)

Lemma core_build_completes (dirs : gset string) (d : @disk vec)
    (docs : list json) :
  Builds.EMBEDDINGS_DIR ∈ dirs ->
  Builds.INDEX_DIR ∈ dirs ->
  Builds.load_factual_docs d = Ok docs ->
  docs <> [] ->
  Forall (fun doc => exists (o : pydict) (t : string),
            doc = JObj o /\ o !! "content" = Some (JStr t)
            /\ is_Some (o !! "file_name")) docs ->
  exists d' : @disk vec,
    Builds.rebuild_core_index embed dirs d = (d', Ok tt).
Proof.
  intros Hemb Hidx Hload Hne Hall.
  destruct (BuildsSpec.core_entries_run embed docs Hall) as [per_doc Ht].
  destruct (BuildsSpec.core_entries_all embed docs per_doc Ht) as [Hnes _].
  pose proof (BuildsSpec.concat_length_ge per_doc Hnes) as Hlen.
  assert (length per_doc = length docs) as Hpd.
  { apply LayersSpec.traverse_Forall2, Forall2_length in Ht. done. }
  unfold Builds.rebuild_core_index. rewrite Hload, Ht.
  rewrite (bool_decide_eq_true_2 _ Hemb), (bool_decide_eq_true_2 _ Hidx).
  destruct (concat per_doc) as [|p entries] eqn:Hc.
  { simpl in Hlen. destruct docs; [done | simpl in Hpd; lia]. }
  by eexists.
Qed.

Lemma documents_loaded (names : list string) (pdf_files : list pdf)
    (d d' : @disk vec) (processed : list string) :
  process_pdfs partition_pdf page_texts pdf_files d = (d', processed) ->
  (forall name : string,
     name ∈ names -> jsonl_files d !! Builds.processed_path name = None) ->
  exists docs : list json,
    Builds.load_documents_by_name names d' = Ok docs
    /\ Forall (fun doc => exists (o : pydict) (t : string),
                 doc = JObj o /\ o !! "content" = Some (JStr t)
                 /\ is_Some (o !! "file_name")) docs
    /\ (forall name : string,
          name ∈ names -> Builds.processed_path name ∈ processed ->
          docs <> []).
Proof.
  intros Hrun. destruct (process_pdfs_spec _ _ _ _ Hrun) as (_ & _ & _ & Hf).
  induction names as [|name names IH]; intros Hnone.
  - exists []. split; [done|]. split; [constructor|].
    intros name Hin. by apply elem_of_nil in Hin.
  - destruct IH as (docs & Hload & Hall & Hsome).
    { intros n Hn. apply Hnone. by apply list_elem_of_further. }
    simpl.
    destruct (decide (Builds.processed_path name ∈ processed)) as [Hin|Hout].
    + destruct (proj2 (Hf _) Hin) as (p & _ & _ & _ & Hfile).
      rewrite Hfile. simpl. rewrite Hload. simpl.
      eexists. split; [reflexivity|]. split; [|done].
      constructor; [|done].
      eexists _, _. split; [reflexivity|]. split; [reflexivity|].
      by eexists.
    + rewrite (proj1 (Hf _) Hout).
      rewrite (Hnone name) by apply list_elem_of_here.
      exists docs. split; [done|]. split; [done|].
      intros n Hn Hp. apply elem_of_cons in Hn as [->|Hn]; [done|].
      by apply (Hsome n).
Qed.

(** The documents that ingestion writes are documents the core build
    can read: when no processed file of a factual document was on disk
    before, one of the PDFs that gave text has the stem of a factual
    document, and the directories data/embeddings and data/index are
    there (neither script creates them), the core build that follows
    ingestion completes. *)
Theorem ingest_then_core_build (dirs : gset string) (pdf_files : list pdf)
    (d d' : @disk vec) (processed : list string) (p : pdf) :
  Builds.EMBEDDINGS_DIR ∈ dirs ->
  Builds.INDEX_DIR ∈ dirs ->
  (forall name : string,
     name ∈ Builds.FACTUAL_DOCS ->
     jsonl_files d !! Builds.processed_path name = None) ->
  process_pdfs partition_pdf page_texts pdf_files d = (d', processed) ->
  p ∈ pdf_files ->
  pdf_stem p ∈ Builds.FACTUAL_DOCS ->
  blank (extract_text partition_pdf page_texts p) = false ->
  exists d'' : @disk vec,
    Builds.rebuild_core_index embed dirs d' = (d'', Ok tt).
Proof.
  intros Hemb Hidx Hnone Hrun Hp Hstem Hb.
  destruct (documents_loaded Builds.FACTUAL_DOCS _ _ _ _ Hrun Hnone)
    as (docs & Hload & Hall & Hsome).
  apply (core_build_completes dirs d' docs); [done|done|done| |done].
  apply (Hsome (pdf_stem p) Hstem).
  destruct (process_pdfs_spec _ _ _ _ Hrun) as (-> & _).
  apply list_elem_of_fmap. exists p. split; [done|].
  by apply list_elem_of_filter.
Qed.

End Parsers.

Lemma processed_documents_witness :
  exists (p : pdf) (line : json),
    p ∈ [IngestSamples.scan_pdf; IngestSamples.hours_pdf]
    /\ output_path p = "data/processed/Orlando_Park_Hours_Dez2025.jsonl"
    /\ jsonl_files
         (process_pdfs IngestSamples.no_partition IngestSamples.toy_pages
            [IngestSamples.scan_pdf; IngestSamples.hours_pdf]
            Samples.no_files).1
       !! "data/processed/Orlando_Park_Hours_Dez2025.jsonl"
       = Some [Some line]
    /\ is_document p line.
Proof.
  apply (proj1 (processed_documents IngestSamples.no_partition
                  IngestSamples.toy_pages
                  [IngestSamples.scan_pdf; IngestSamples.hours_pdf]
                  Samples.no_files _
                  ["data/processed/Orlando_Park_Hours_Dez2025.jsonl"]
                  (reflexivity _))).
  apply list_elem_of_here.
Defined.


Lemma ingest_then_core_build_witness :
  exists d'' : @disk Z,
    Builds.rebuild_core_index Samples.toy_embed BuildSamples.core_dirs
      (process_pdfs IngestSamples.no_partition IngestSamples.toy_pages
         [IngestSamples.scan_pdf; IngestSamples.hours_pdf]
         Samples.no_files).1
    = (d'', Ok tt).
Proof.
  apply (ingest_then_core_build IngestSamples.no_partition
           IngestSamples.toy_pages Samples.toy_embed BuildSamples.core_dirs
           [IngestSamples.scan_pdf; IngestSamples.hours_pdf]
           Samples.no_files _
           ["data/processed/Orlando_Park_Hours_Dez2025.jsonl"]
           IngestSamples.hours_pdf).
  - apply BuildsSpec.core_dirs_there.
  - apply BuildsSpec.core_dirs_there.
  - intros name Hin. apply lookup_empty.
  - reflexivity.
  - apply list_elem_of_further, list_elem_of_here.
  - unfold Builds.FACTUAL_DOCS. simpl.
    do 9 apply list_elem_of_further. apply list_elem_of_here.
  - vm_compute. reflexivity.
Defined.

End IngestSpec.


(** ** The service *)

Module ApiSpec.
Import Py PyFacts Layers Api.

Lemma split_go_replace (cur s : string) (old new : ascii) :
  isspace old = true -> isspace new = true ->
  split_go cur (replace_char old new s) = split_go cur s.
Proof.
  intros Ho Hn. revert cur. induction s as [|c s IH]; intros cur; [done|].
  simpl. destruct (bool_decide (c = old)) eqn:Hc.
  - apply bool_decide_eq_true in Hc as ->. rewrite Ho, Hn. by rewrite IH.
  - destruct (isspace c); by rewrite IH.
Qed.

Lemma rstrip_chars_cons (chars : string) (c : ascii) (s : string) :
  rstrip_chars chars (String c s)
  = match rstrip_chars chars s with
    | "" => if has_char c chars then "" else String c ""
    | r => String c r
    end.
Proof. reflexivity. Qed.

(** Trimming stops at a character that is not in the set. *)
Lemma rstrip_chars_app (chars a : string) (c : ascii) (b : string) :
  has_char c chars = false ->
  rstrip_chars chars (a +:+ String c b)
  = a +:+ String c (rstrip_chars chars b).
Proof.
  intros Hc. induction a as [|x a IH].
  - rewrite !app_nil_l, rstrip_chars_cons.
    destruct (rstrip_chars chars b); by rewrite ?Hc.
  - rewrite !app_cons, rstrip_chars_cons, IH.
    destruct (a +:+ String c (rstrip_chars chars b)) eqn:E; [|done].
    by apply app_eq_nil in E as [_ ?].
Qed.

Lemma check_grounding_total (query : string) (ctx : list string)
    (a : string) :
  exists score : Q, Grounding.check_grounding query ctx a = Ok score.
Proof.
  destruct (decide (ctx = [])) as [Hc|Hc].
  { eexists. apply GroundingSpec.check_grounding_guard. by left. }
  destruct (decide (a = "")) as [Ha|Ha].
  { eexists. apply GroundingSpec.check_grounding_guard. right. by left. }
  destruct (decide (size (Grounding._tokenize (join " " ctx)
                          ∪ Grounding._tokenize a) = 0%nat)) as [Hu|Hu].
  { eexists. apply GroundingSpec.check_grounding_guard. right. by right. }
  eexists.
  by apply (GroundingSpec.check_grounding_score query ctx a
              (Grounding._tokenize (join " " ctx)) (Grounding._tokenize a)
              Hc Ha).
Qed.

Lemma texts_of_facts {D} (facts : list Extractor.fact) (l : list (D * Z))
    (texts : list json) :
  Forall2 (fun (h : D * Z) (t : json) =>
             exists f : Extractor.fact,
               facts !! Z.to_nat h.2 = Some f
               /\ t = JStr (Extractor.text f)) l texts ->
  exists fs : list Extractor.fact,
    texts = map (fun f => JStr (Extractor.text f)) fs
    /\ length fs = length l
    /\ Forall (fun f => f ∈ facts) fs.
Proof.
  induction 1 as [|h t l texts (f & Hf & ->) _ (fs & -> & Hlen & Hall)].
  - by exists [].
  - exists (f :: fs). split; [done|]. split; [simpl; by rewrite Hlen|].
    constructor; [|done]. by apply list_elem_of_lookup_2 in Hf.
Qed.

Section Service.
Context {vec D : Type}.
Variable embed : string -> vec.
Variable dist : vec -> vec -> D.
Variable le : D -> D -> bool.
Variable llm : string -> string -> result string.
Variable pin : string.

Lemma badge_words (ctx : string) :
  match split ctx with
  | w1 :: w2 :: w3 :: _ =>
      badge pin ctx
      = pin +:+ " Source: "
        +:+ (w1 +:+ " " +:+ (w2 +:+ " " +:+ rstrip_chars ".,;:" w3))
  | _ => badge pin ctx = pin +:+ " Source Document"
  end.
Proof.
  unfold badge.
  assert (split (replace_char line_feed " " ctx) = split ctx) as ->
    by (by apply split_go_replace).
  destruct (split ctx) as [|w1 [|w2 [|w3 rest]]]; [done..|].
  destruct (Z.ltb_spec 2 (Z.of_nat (length (w1 :: w2 :: w3 :: rest))))
    as [_|Hle]; [|simpl in Hle; lia].
  change (join " " (take 3 (w1 :: w2 :: w3 :: rest)))
    with (w1 +:+ String " " (w2 +:+ String " " w3)).
  by rewrite !rstrip_chars_app.
Qed.

(** The source badges: one for each context, in order.  A context of
    fewer than three words gets the fixed badge; any other is named by
    its first three words, joined by single spaces, whatever white space
    or line breaks stood between them, and only the third word loses the
    punctuation [.,;:] at its end: the first two keep theirs, and a
    third word made of punctuation leaves the name ending in a
    space. *)
Theorem format_sources_badges (context_list : list string) :
  length (_format_sources pin context_list) = length context_list
  /\ forall (i : nat) (ctx : string),
       context_list !! i = Some ctx ->
       exists b : string,
         _format_sources pin context_list !! i = Some b
         /\ match split ctx with
            | w1 :: w2 :: w3 :: _ =>
                b = pin +:+ " Source: "
                    +:+ (w1 +:+ " "
                         +:+ (w2 +:+ " " +:+ rstrip_chars ".,;:" w3))
            | _ => b = pin +:+ " Source Document"
            end.
Proof.
  unfold _format_sources. split; [by rewrite length_map|].
  intros i ctx Hi. exists (badge pin ctx).
  split; [by rewrite list_lookup_fmap, Hi|]. apply badge_words.
Qed.

Lemma fusion_on_facts (facts : list Extractor.fact) (query : string)
    (top_k : Z) :
  0 < top_k ->
  exists fs : list Extractor.fact,
    Retrieval.fusion_retrieve embed dist le
      {| Retrieval.eng_index := encode embed (map Extractor.text facts);
         Retrieval.eng_metadata :=
           map (fun f => JObj (FactRecords.to_dict f)) facts |}
      query top_k
    = Ok (map (fun f => JStr (Extractor.text f)) fs)
    /\ length fs = Nat.min (Z.to_nat top_k) (length facts)
    /\ Forall (fun f => f ∈ facts) fs.
Proof.
  intros Hk.
  pose proof (RetrievalSpec.top_valid dist le
                (encode embed (map Extractor.text facts))
                (embed query) (Z.to_nat top_k)) as Hvalid.
  pose proof (RetrievalSpec.top_length dist le
                (encode embed (map Extractor.text facts))
                (embed query) top_k) as Hlen.
  unfold encode in Hvalid at 1. unfold encode in Hlen at 2.
  rewrite !length_map in Hvalid. rewrite !length_map in Hlen.
  destruct (RetrievalSpec.fusion_facts facts _ Hvalid)
    as (texts & Ht & Hall).
  destruct (texts_of_facts facts _ texts Hall) as (fs & -> & Hfs & Hin).
  exists fs. split; [|split; [by rewrite Hfs, Hlen | done]].
  unfold Retrieval.fusion_retrieve. simpl.
  rewrite (RetrievalSpec.search_found _ _ _ _ _ Hk). simpl.
  rewrite (RetrievalSpec.traverse_app _ _ _ _ _ Ht
             (RetrievalSpec.fusion_pad _ _)).
  simpl. by rewrite RetrievalSpec.omap_id_pad.
Qed.

(** The endpoint over a core layer built from the atomic facts, with at
    least one fact on file: the engine starts, and for every question
    the retrieval gives the texts of [min(3, n)] of the facts.  The
    request then ends in one of two ways only: when the chat model
    raises, in the HTTP error 500 for the generation; when it answers,
    in a response that carries the answer as it is, the grounding score
    of the answer against those texts, and one badge for each text. *)
Theorem endpoint_on_atomic_core (d : @disk vec)
    (facts : list Extractor.fact) (question : string) :
  jsonl_files d !! ATOMIC_PATH = Some (map FactFile.fact_line facts) ->
  facts <> [] ->
  exists (d' : @disk vec) (fs : list Extractor.fact),
    rebuild_atomic_core embed d = (d', Ok tt)
    /\ engine_ready (startup d') = true
    /\ length fs = Nat.min 3 (length facts)
    /\ Forall (fun f => f ∈ facts) fs
    /\ (forall e : exn,
          llm question (join Validator.newline (map Extractor.text fs))
          = Raise e ->
          query_endpoint embed dist le llm pin (startup d') question
          = HTTPException 500 "LLM Generation failed: " (Some e))
    /\ (forall answer : string,
          llm question (join Validator.newline (map Extractor.text fs))
          = Ok answer ->
          exists score : Q,
            Grounding.check_grounding question (map Extractor.text fs) answer
            = Ok score
            /\ query_endpoint embed dist le llm pin (startup d') question
               = QueryResponse answer score
                   (_format_sources pin (map Extractor.text fs))).
Proof.
  intros Hfile Hne.
  destruct (RetrievalSpec.atomic_loaded d
              (map (fun f => JObj (FactRecords.to_dict f)) facts)
              (encode embed (map Extractor.text facts))) as [Hi Hm].
  destruct (fusion_on_facts facts question 3) as (fs & Hret & Hlen & Hin);
    [lia|].
  eexists _, fs.
  split; [by apply RetrievalSpec.atomic_build|].
  assert (startup
            (write_index CORE_INDEX (encode embed (map Extractor.text facts))
               (np_save CORE_NPY (encode embed (map Extractor.text facts))
                  (write_jsonl CORE_META
                     (map (fun f => JObj (FactRecords.to_dict f)) facts) d)))
          = Some {| Retrieval.eng_index :=
                      encode embed (map Extractor.text facts);
                    Retrieval.eng_metadata :=
                      map (fun f => JObj (FactRecords.to_dict f)) facts |})
    as ->.
  { unfold startup, Retrieval.engine_init. rewrite Hi. simpl. by rewrite Hm. }
  split; [done|]. split; [done|]. split; [done|].
  unfold query_endpoint. rewrite Hret, RetrievalSpec.fact_strs.
  split.
  - intros e He. by rewrite He.
  - intros answer Ha. rewrite Ha.
    destruct (check_grounding_total question (map Extractor.text fs) answer)
      as [score Hs].
    exists score. split; [done|]. by rewrite Hs.
Qed.

End Service.

(** A context whose third word ends in a colon, and one whose third
    word is punctuation only. *)
Lemma format_sources_badges_witness :
  [ "Opening hours"; "Magic Kingdom hours: 9 to 10"; "EPCOT opens ... soon" ]
    !! 1%nat = Some "Magic Kingdom hours: 9 to 10"
  /\ (exists b : string,
        _format_sources "*"
          [ "Opening hours"; "Magic Kingdom hours: 9 to 10";
            "EPCOT opens ... soon" ] !! 1%nat = Some b
        /\ b = "* Source: Magic Kingdom hours")
  /\ (exists b : string,
        _format_sources "*"
          [ "Opening hours"; "Magic Kingdom hours: 9 to 10";
            "EPCOT opens ... soon" ] !! 2%nat = Some b
        /\ b = "* Source: EPCOT opens ").
Proof.
  split; [reflexivity|]. split.
  - destruct (proj2 (format_sources_badges "*"
                       [ "Opening hours"; "Magic Kingdom hours: 9 to 10";
                         "EPCOT opens ... soon" ])
                1%nat _ (reflexivity _)) as (b & Hb & E).
    exists b. split; [exact Hb | exact E].
  - destruct (proj2 (format_sources_badges "*"
                       [ "Opening hours"; "Magic Kingdom hours: 9 to 10";
                         "EPCOT opens ... soon" ])
                2%nat _ (reflexivity _)) as (b & Hb & E).
    exists b. split; [exact Hb | exact E].
Defined.

Lemma endpoint_on_atomic_core_witness :
  exists (d' : @disk Z) (fs : list Extractor.fact),
    rebuild_atomic_core Samples.toy_embed BuildSamples.page_facts_only
    = (d', Ok tt)
    /\ engine_ready (startup d') = true
    /\ length fs = Nat.min 3 (length BuildSamples.page_facts).
Proof.
  destruct (endpoint_on_atomic_core Samples.toy_embed Samples.toy_dist Z.leb
              ApiSamples.echo_llm "*" BuildSamples.page_facts_only
              BuildSamples.page_facts "When does Magic Kingdom open?")
    as (d' & fs & H1 & H2 & H3 & _);
    [reflexivity | vm_compute; discriminate |].
  by exists d', fs.
Defined.

End ApiSpec.


(** ** The layer test script on the atomic core *)

Module LayersMore.
Import Layers.

Section Store.
Context {vec D : Type}.
Variable embed : string -> vec.
Variable dist : vec -> vec -> D.
Variable le : D -> D -> bool.

Lemma rows_pad (layer : string) (metadata : list json) (n : nat) :
  traverse (hit_row layer metadata) (replicate n (@None D, -1))
  = Ok (replicate n None).
Proof. induction n as [|n IH]; [done|]. simpl. by rewrite IH. Qed.

Lemma rows_facts (layer : string) (facts : list Extractor.fact)
    (l : list (D * Z)) :
  Forall (fun h : D * Z => 0 <= h.2 < Z.of_nat (length facts)) l ->
  exists rows : list (@row D),
    traverse (hit_row layer
                (map (fun f => JObj (FactRecords.to_dict f)) facts))
             (map (fun '(d0, i) => (Some d0, i)) l)
    = Ok (map Some rows)
    /\ Forall2 (fun (h : D * Z) (r : @row D) =>
                  exists f : Extractor.fact,
                    facts !! Z.to_nat h.2 = Some f
                    /\ r = {| row_layer := layer;
                              row_source := JNull;
                              row_text_preview :=
                                JStr (if 250 <? Py.len (Extractor.text f)
                                      then Py.stake 250 (Extractor.text f)
                                           +:+ "..."
                                      else Extractor.text f);
                              row_score := Some h.1 |}) l rows.
Proof.
  induction 1 as [|[sc id] l Hid _ (rows & Ht & Hall)].
  - exists []. split; [done | constructor].
  - simpl in Hid.
    destruct (lookup_lt_is_Some_2 facts (Z.to_nat id)) as [f Hf]; [lia|].
    eexists (_ :: rows). split.
    + change (map (fun '(d0, i) => (Some d0, i)) ((sc, id) :: l))
        with ((Some sc, id) :: map (fun '(d0, i) => (@Some D d0, i)) l).
      change (traverse ?g (?a :: ?l0))
        with (b <- g a ;; bs <- traverse g l0 ;; Ok (b :: bs)).
      rewrite Ht.
      assert (hit_row layer
                (map (fun f => JObj (FactRecords.to_dict f)) facts)
                (Some sc, id)
              = Ok (Some {| row_layer := layer;
                            row_source := JNull;
                            row_text_preview :=
                              JStr (if 250 <? Py.len (Extractor.text f)
                                    then Py.stake 250 (Extractor.text f)
                                         +:+ "..."
                                    else Extractor.text f);
                            row_score := Some sc |})) as ->; [|done].
      unfold hit_row.
      destruct (Z.eqb_spec id (-1)); [lia|].
      rewrite (RetrievalSpec.list_index_lookup _ id
                 (JObj (FactRecords.to_dict f)));
        [done|lia|by rewrite list_lookup_fmap, Hf].
    + constructor; [by exists f | done].
Qed.

(** The layer test script on a core layer built from the atomic facts:
    with at least one fact on file the build completes and a retrieval
    from the layer core with [top_k >= 1] returns [min(top_k, n)] rows,
    in the order of the search.  Each row shows the text of the fact at
    the position found, cut to 250 characters and marked with three dots
    when it is longer, and each has no source: the records of the
    extractor carry neither [file_name] nor [source_file]. *)
Theorem layer_retrieve_atomic_core (d : @disk vec)
    (facts : list Extractor.fact) (query : string) (top_k : Z) :
  jsonl_files d !! ATOMIC_PATH = Some (map FactFile.fact_line facts) ->
  facts <> [] ->
  0 < top_k ->
  exists (d' : @disk vec) (rows : list (@row D)),
    rebuild_atomic_core embed d = (d', Ok tt)
    /\ retrieve embed dist le query "core" top_k d' = Ok rows
    /\ length rows = Nat.min (Z.to_nat top_k) (length facts)
    /\ Forall2 (fun (h : D * Z) (r : @row D) =>
                  exists f : Extractor.fact,
                    facts !! Z.to_nat h.2 = Some f
                    /\ r = {| row_layer := "core";
                              row_source := JNull;
                              row_text_preview :=
                                JStr (if 250 <? Py.len (Extractor.text f)
                                      then Py.stake 250 (Extractor.text f)
                                           +:+ "..."
                                      else Extractor.text f);
                              row_score := Some h.1 |})
         (take (Z.to_nat top_k)
               (Faiss.hits dist le
                  (encode embed (map Extractor.text facts)) (embed query)))
         rows.
Proof.
  intros Hfile Hne Hk.
  destruct (RetrievalSpec.atomic_loaded d
              (map (fun f => JObj (FactRecords.to_dict f)) facts)
              (encode embed (map Extractor.text facts))) as [Hi Hm].
  pose proof (RetrievalSpec.top_valid dist le
                (encode embed (map Extractor.text facts))
                (embed query) (Z.to_nat top_k)) as Hvalid.
  pose proof (RetrievalSpec.top_length dist le
                (encode embed (map Extractor.text facts))
                (embed query) top_k) as Hlen.
  unfold encode in Hvalid at 1. unfold encode in Hlen at 2.
  rewrite !length_map in Hvalid. rewrite !length_map in Hlen.
  destruct (rows_facts "core" facts _ Hvalid) as (rows & Ht & Hall).
  eexists _, rows.
  split; [by apply RetrievalSpec.atomic_build|]. split; [|split].
  - unfold retrieve, load_index_and_metadata.
    change (layer_paths "core")
      with (@Ok (string * string)
              ("data/index/faiss.index", "data/embeddings/metadata.jsonl")).
    simpl. rewrite Hi. simpl. rewrite Hm. simpl.
    rewrite (RetrievalSpec.search_found _ _ _ _ _ Hk). simpl.
    rewrite (RetrievalSpec.traverse_app _ _ _ _ _ Ht (rows_pad _ _ _)).
    simpl. by rewrite RetrievalSpec.omap_id_pad.
  - apply Forall2_length in Hall. by rewrite <- Hall, Hlen.
  - exact Hall.
Qed.

End Store.

Lemma layer_retrieve_atomic_core_witness :
  exists (d' : @disk Z) (rows : list (@row Z)),
    rebuild_atomic_core Samples.toy_embed BuildSamples.page_facts_only
    = (d', Ok tt)
    /\ retrieve Samples.toy_embed Samples.toy_dist Z.leb
         "When does Magic Kingdom open?" "core" 5 d' = Ok rows
    /\ length rows = Nat.min (Z.to_nat 5) (length BuildSamples.page_facts).
Proof.
  destruct (layer_retrieve_atomic_core Samples.toy_embed Samples.toy_dist
              Z.leb BuildSamples.page_facts_only BuildSamples.page_facts
              "When does Magic Kingdom open?" 5)
    as (d' & rows & H1 & H2 & H3 & _);
    [reflexivity | vm_compute; discriminate | lia |].
  by exists d', rows.
Defined.

End LayersMore.
